(** * Task board: optimistic concurrency, move, assignment and archive

    A shallow embedding of the task controller
    ([backend/controllers/taskController.js]), of the Mongoose models it
    drives ([models/Task.js], [models/Activity.js]) and of the Joi schemas
    that guard its routes ([middleware/validation.js]).

    A request handler is a function from the database (and the values the
    runtime supplies: the clock, the UUID source, [Math.random]) to the new
    database and the HTTP response.  Thrown errors are values of [Thrown]
    and every [try]/[catch] is written out.  Numbers are doubles: the
    sums and the product the code takes round as they do in
    JavaScript. *)

From Stdlib Require Import ZArith.
From Stdlib Require Import Ascii String.
From stdpp Require Import gmap strings list fin_maps sorting.

Local Open Scope Z_scope.

(** ** Values *)

(** MongoDB [ObjectId]s. *)
Definition ObjectId := nat.
Bind Scope nat_scope with ObjectId.

(** [Date]s, as milliseconds since the epoch. *)
Definition Date := Z.

Inductive Status := todo | in_progress | done_.
Inductive Priority := low | medium | high | urgent.

#[global] Instance Status_eq_dec : EqDecision Status.
Proof. solve_decision. Defined.
#[global] Instance Priority_eq_dec : EqDecision Priority.
Proof. solve_decision. Defined.

(** The double quote character, used by the description templates. *)
Definition dquote : string := String (Ascii.ascii_of_nat 34) EmptyString.

(** [String.prototype.toLowerCase], on the ASCII letters. *)
Definition lower_ascii (c : Ascii.ascii) : Ascii.ascii :=
  let n := Ascii.nat_of_ascii c in
  if ((65 <=? n)%nat && (n <=? 90)%nat)%bool
  then Ascii.ascii_of_nat (n + 32) else c.

Fixpoint toLowerCase (s : string) : string :=
  match s with
  | EmptyString => EmptyString
  | String c s' => String (lower_ascii c) (toLowerCase s')
  end.

(** JavaScript truthiness of an optional number: [undefined] and [0] are
    falsy, every other number the schemas let through is truthy. *)
Definition truthy (v : option Z) : bool :=
  match v with
  | None => false
  | Some n => negb (n =? 0)
  end.

(** ** Numbers

    A JavaScript number is a double.  The numbers of a task, [version]
    and [position], hold integers and are kept as [Z]; a sum of two of
    them is the exact sum rounded as the double is: to 53 significant
    bits, to the nearest, a tie to the even significand.  (The sums taken
    below add 1 and cannot overflow to [Infinity].) *)

(** [Number.MAX_SAFE_INTEGER], that is [2 ^ 53 - 1]. *)
Definition MAX_SAFE_INTEGER : Z := 9007199254740991.

(** [Number.isSafeInteger], on integers. *)
Definition isSafeInteger (z : Z) : bool :=
  ((- MAX_SAFE_INTEGER <=? z) && (z <=? MAX_SAFE_INTEGER))%bool.

(** The double nearest to the integer [z]: [z] itself up to [2 ^ 53];
    beyond, the multiple of the unit in the last place, [2 ^ (e - 52)]
    for [2 ^ e <= |z| < 2 ^ (e + 1)], that is nearest to [z]. *)
Definition roundToDouble (z : Z) : Z :=
  let a := Z.abs z in
  if a <=? MAX_SAFE_INTEGER + 1 then z
  else
    let ulp := 2 ^ (Z.log2 a - 52) in
    let q := a / ulp in
    let q' := match 2 * (a mod ulp) ?= ulp with
              | Lt => q
              | Gt => q + 1
              | Eq => if Z.even q then q else q + 1
              end in
    Z.sgn z * (q' * ulp).

(** [x + y], on doubles that hold integers. *)
Definition Number_add (x y : Z) : Z := roundToDouble (x + y).

(** A double of the interval from 0 to 1, as [Math.random()] returns:
    the integer [mantissa] in units of [2 ^ - shift]. *)
Record Fraction := mkFraction {
  mantissa : Z;
  shift : Z
}.

(** ** Users

    [models/User.js] is not part of the sources at hand; the controller
    reads [_id], [role], [isActive] and the [fullName] virtual of a user
    document. *)
Module User.

Record doc := mk {
  _id : ObjectId;
  username : string;
  fullName : string;
  role : string;
  isActive : bool
}.

(** Modelled from the spec: [User.findActiveUsers], a static of the missing
    [models/User.js]; it returns the users with [isActive: true]
    ("Inputs: the set of active users"). *)
Definition findActiveUsers (users : gmap ObjectId doc) : list doc :=
  filter (fun u => isActive u = true) (map_to_list users).*2.

(** [User.findById]. *)
Definition findById (users : gmap ObjectId doc) (id : ObjectId) : option doc :=
  users !! id.

End User.

#[global] Instance User_eq_dec : EqDecision User.doc.
Proof. solve_decision. Defined.

(** ** Activities ([models/Activity.js]) *)
Module Activity.

Inductive Action :=
  | task_created | task_updated | task_deleted | task_assigned
  | task_unassigned | task_moved | task_commented | task_archived
  | task_unarchived | user_registered | user_login | user_logout
  | conflict_detected | conflict_resolved | smart_assign.

Inductive Category := cat_task | cat_user | cat_system | cat_security.
Inductive Severity := sev_low | sev_medium | sev_high | sev_critical.

(** An activity document.  [details] is a [Mixed] bag no property here
    reads; it is left out. *)
Record doc := mk {
  action : Action;
  actor : ObjectId;
  target : option ObjectId;
  targetModel : option string;
  description : string;
  ipAddress : option string;
  userAgent : option string;
  category : Category;
  severity : Severity;
  conflictId : option string;
  isResolved : bool
}.

(** The argument object of [logActivity]: [isResolved] may be absent, the
    schema default is [true]. *)
Record data := mkData {
  d_action : Action;
  d_actor : ObjectId;
  d_target : option ObjectId;
  d_targetModel : option string;
  d_description : string;
  d_category : Category;
  d_severity : Severity;
  d_conflictId : option string;
  d_isResolved : option bool;
  d_ipAddress : option string;
  d_userAgent : option string
}.

Definition construct (a : data) : doc :=
  mk (d_action a) (d_actor a) (d_target a) (d_targetModel a) (d_description a)
     (d_ipAddress a) (d_userAgent a) (d_category a) (d_severity a)
     (d_conflictId a) (default true (d_isResolved a)).

(** *** The [ipAddress] validator *)

Fixpoint split_on (sep : Ascii.ascii) (s : string) : list string :=
  match s with
  | EmptyString => [EmptyString]
  | String c s' =>
      if Ascii.eqb c sep then EmptyString :: split_on sep s'
      else match split_on sep s' with
           | [] => [String c EmptyString]
           | p :: ps => String c p :: ps
           end
  end.

Definition in_range (lo hi : nat) (c : Ascii.ascii) : bool :=
  let n := Ascii.nat_of_ascii c in ((lo <=? n)%nat && (n <=? hi)%nat)%bool.

Definition is_digit : Ascii.ascii -> bool := in_range 48 57.

Definition is_hex (c : Ascii.ascii) : bool :=
  (is_digit c || in_range 97 102 c || in_range 65 70 c)%bool.

(** [25[0-5]|2[0-4][0-9]|[01]?[0-9][0-9]?] *)
Definition octet (s : string) : bool :=
  match String.list_ascii_of_string s with
  | [a] => is_digit a
  | [a; b] => (is_digit a && is_digit b)%bool
  | [a; b; c] =>
      ((Ascii.eqb a "2"%char && Ascii.eqb b "5"%char && in_range 48 53 c)
       || (Ascii.eqb a "2"%char && in_range 48 52 b && is_digit c)
       || (in_range 48 49 a && is_digit b && is_digit c))%bool
  | _ => false
  end.

(** [[0-9a-fA-F]{1,4}] *)
Definition hextet (s : string) : bool :=
  let cs := String.list_ascii_of_string s in
  ((1 <=? length cs)%nat && (length cs <=? 4)%nat && forallb is_hex cs)%bool.

Definition ipv4Regex (ip : string) : bool :=
  let ps := split_on "."%char ip in
  ((length ps =? 4)%nat && forallb octet ps)%bool.

Definition ipv6Regex (ip : string) : bool :=
  let ps := split_on ":"%char ip in
  ((length ps =? 8)%nat && forallb hextet ps)%bool.

Definition ipValidator (ip : string) : bool :=
  (String.eqb ip EmptyString || ipv4Regex ip || ipv6Regex ip
   || String.eqb ip "localhost" || String.eqb ip "::1")%bool.

(** Schema validation run by [save]: [description] is required and at most
    500 characters, [userAgent] at most 500, [ipAddress] passes its
    validator; the enumerations hold by typing. *)
Definition validate (a : doc) : bool :=
  (negb (String.eqb (description a) EmptyString)
   && (String.length (description a) <=? 500)%nat
   && match userAgent a with
      | Some ua => (String.length ua <=? 500)%nat
      | None => true
      end
   && match ipAddress a with
      | Some ip => ipValidator ip
      | None => true
      end)%bool.

(** [Activity.logActivity]: a failed save is caught and logged to the
    console only; the log is unchanged then. *)
Definition logActivity (a : data) (log : list doc) : list doc :=
  let activity := construct a in
  if validate activity then log ++ [activity] else log.

(** *** [Activity.createDescription] *)

Record details := mkDetails {
  taskTitle : option string;
  assigneeName : option string;
  fromStatus : option string;
  toStatus : option string;
  otherUser : option string;
  resolution : option string
}.

Definition noDetails : details := mkDetails None None None None None None.

(** Template interpolation of a possibly [undefined] string. *)
Definition interp (o : option string) : string := default "undefined"%string o.

Definition actionName (a : Action) : string :=
  match a with
  | task_created => "task_created" | task_updated => "task_updated"
  | task_deleted => "task_deleted" | task_assigned => "task_assigned"
  | task_unassigned => "task_unassigned" | task_moved => "task_moved"
  | task_commented => "task_commented" | task_archived => "task_archived"
  | task_unarchived => "task_unarchived"
  | user_registered => "user_registered" | user_login => "user_login"
  | user_logout => "user_logout" | conflict_detected => "conflict_detected"
  | conflict_resolved => "conflict_resolved" | smart_assign => "smart_assign"
  end%string.

Definition quoted (s : string) : string := (dquote ++ s ++ dquote)%string.

Definition createDescription (a : Action) (actorName : string) (d : details)
  : string :=
  let t := quoted (interp (taskTitle d)) in
  match a with
  | task_created => actorName ++ " created task " ++ t
  | task_updated => actorName ++ " updated task " ++ t
  | task_deleted => actorName ++ " deleted task " ++ t
  | task_assigned =>
      actorName ++ " assigned task " ++ t ++ " to " ++ interp (assigneeName d)
  | task_unassigned => actorName ++ " unassigned task " ++ t
  | task_moved =>
      actorName ++ " moved task " ++ t ++ " from " ++ interp (fromStatus d)
        ++ " to " ++ interp (toStatus d)
  | task_commented => actorName ++ " commented on task " ++ t
  | task_archived => actorName ++ " archived task " ++ t
  | task_unarchived => actorName ++ " unarchived task " ++ t
  | user_registered => actorName ++ " registered as a new user"
  | user_login => actorName ++ " logged in"
  | user_logout => actorName ++ " logged out"
  | conflict_detected =>
      "Conflict detected on task " ++ t ++ " between " ++ actorName
        ++ " and " ++ interp (otherUser d)
  | conflict_resolved =>
      actorName ++ " resolved conflict on task " ++ t ++ " using "
        ++ interp (resolution d)
  | smart_assign =>
      "Smart assign allocated task " ++ t ++ " to " ++ interp (assigneeName d)
  end%string.

End Activity.

(** ** Errors thrown inside a handler *)
Inductive Thrown :=
  | ValidationError (path : string)
  | Error (message : string)
  | TypeError
  | SyntaxError
  | DuplicateKey.

(** ** Tasks ([models/Task.js]) *)
Module Task.

Record Comment := mkComment {
  text : string;
  author : ObjectId;
  createdAt : Date
}.

#[global] Instance Comment_eq_dec : EqDecision Comment.
Proof. solve_decision. Defined.

(** A task document, keyed by its [_id] in the collection.  The
    [attachments] array and the [timestamps] pair are left out: no handler
    below reads or writes them. *)
Record doc := mk {
  title : string;
  description : string;
  status : Status;
  priority : Priority;
  assignedTo : option ObjectId;
  createdBy : ObjectId;
  dueDate : option Date;
  tags : list string;
  position : Z;
  version : Z;
  lastModified : Date;
  lastModifiedBy : option ObjectId;
  isBeingEdited : bool;
  editedBy : option ObjectId;
  editStartTime : option Date;
  comments : list Comment;
  isArchived : bool;
  archivedAt : option Date;
  archivedBy : option ObjectId
}.

Definition set_title (x : string) (t : doc) : doc :=
  mk x (description t) (status t) (priority t) (assignedTo t)
     (createdBy t) (dueDate t) (tags t) (position t) (version t)
     (lastModified t) (lastModifiedBy t) (isBeingEdited t) (editedBy t) (editStartTime t)
     (comments t) (isArchived t) (archivedAt t) (archivedBy t).

Definition set_description (x : string) (t : doc) : doc :=
  mk (title t) x (status t) (priority t) (assignedTo t)
     (createdBy t) (dueDate t) (tags t) (position t) (version t)
     (lastModified t) (lastModifiedBy t) (isBeingEdited t) (editedBy t) (editStartTime t)
     (comments t) (isArchived t) (archivedAt t) (archivedBy t).

Definition set_status (x : Status) (t : doc) : doc :=
  mk (title t) (description t) x (priority t) (assignedTo t)
     (createdBy t) (dueDate t) (tags t) (position t) (version t)
     (lastModified t) (lastModifiedBy t) (isBeingEdited t) (editedBy t) (editStartTime t)
     (comments t) (isArchived t) (archivedAt t) (archivedBy t).

Definition set_priority (x : Priority) (t : doc) : doc :=
  mk (title t) (description t) (status t) x (assignedTo t)
     (createdBy t) (dueDate t) (tags t) (position t) (version t)
     (lastModified t) (lastModifiedBy t) (isBeingEdited t) (editedBy t) (editStartTime t)
     (comments t) (isArchived t) (archivedAt t) (archivedBy t).

Definition set_assignedTo (x : option ObjectId) (t : doc) : doc :=
  mk (title t) (description t) (status t) (priority t) x
     (createdBy t) (dueDate t) (tags t) (position t) (version t)
     (lastModified t) (lastModifiedBy t) (isBeingEdited t) (editedBy t) (editStartTime t)
     (comments t) (isArchived t) (archivedAt t) (archivedBy t).

Definition set_dueDate (x : option Date) (t : doc) : doc :=
  mk (title t) (description t) (status t) (priority t) (assignedTo t)
     (createdBy t) x (tags t) (position t) (version t)
     (lastModified t) (lastModifiedBy t) (isBeingEdited t) (editedBy t) (editStartTime t)
     (comments t) (isArchived t) (archivedAt t) (archivedBy t).

Definition set_tags (x : list string) (t : doc) : doc :=
  mk (title t) (description t) (status t) (priority t) (assignedTo t)
     (createdBy t) (dueDate t) x (position t) (version t)
     (lastModified t) (lastModifiedBy t) (isBeingEdited t) (editedBy t) (editStartTime t)
     (comments t) (isArchived t) (archivedAt t) (archivedBy t).

Definition set_position (x : Z) (t : doc) : doc :=
  mk (title t) (description t) (status t) (priority t) (assignedTo t)
     (createdBy t) (dueDate t) (tags t) x (version t)
     (lastModified t) (lastModifiedBy t) (isBeingEdited t) (editedBy t) (editStartTime t)
     (comments t) (isArchived t) (archivedAt t) (archivedBy t).

Definition set_version (x : Z) (t : doc) : doc :=
  mk (title t) (description t) (status t) (priority t) (assignedTo t)
     (createdBy t) (dueDate t) (tags t) (position t) x
     (lastModified t) (lastModifiedBy t) (isBeingEdited t) (editedBy t) (editStartTime t)
     (comments t) (isArchived t) (archivedAt t) (archivedBy t).

Definition set_lastModified (x : Date) (t : doc) : doc :=
  mk (title t) (description t) (status t) (priority t) (assignedTo t)
     (createdBy t) (dueDate t) (tags t) (position t) (version t)
     x (lastModifiedBy t) (isBeingEdited t) (editedBy t) (editStartTime t)
     (comments t) (isArchived t) (archivedAt t) (archivedBy t).

Definition set_lastModifiedBy (x : option ObjectId) (t : doc) : doc :=
  mk (title t) (description t) (status t) (priority t) (assignedTo t)
     (createdBy t) (dueDate t) (tags t) (position t) (version t)
     (lastModified t) x (isBeingEdited t) (editedBy t) (editStartTime t)
     (comments t) (isArchived t) (archivedAt t) (archivedBy t).

Definition set_comments (x : list Comment) (t : doc) : doc :=
  mk (title t) (description t) (status t) (priority t) (assignedTo t)
     (createdBy t) (dueDate t) (tags t) (position t) (version t)
     (lastModified t) (lastModifiedBy t) (isBeingEdited t) (editedBy t) (editStartTime t)
     x (isArchived t) (archivedAt t) (archivedBy t).

Definition set_isArchived (x : bool) (t : doc) : doc :=
  mk (title t) (description t) (status t) (priority t) (assignedTo t)
     (createdBy t) (dueDate t) (tags t) (position t) (version t)
     (lastModified t) (lastModifiedBy t) (isBeingEdited t) (editedBy t) (editStartTime t)
     (comments t) x (archivedAt t) (archivedBy t).

Definition set_archivedAt (x : option Date) (t : doc) : doc :=
  mk (title t) (description t) (status t) (priority t) (assignedTo t)
     (createdBy t) (dueDate t) (tags t) (position t) (version t)
     (lastModified t) (lastModifiedBy t) (isBeingEdited t) (editedBy t) (editStartTime t)
     (comments t) (isArchived t) x (archivedBy t).

Definition set_archivedBy (x : option ObjectId) (t : doc) : doc :=
  mk (title t) (description t) (status t) (priority t) (assignedTo t)
     (createdBy t) (dueDate t) (tags t) (position t) (version t)
     (lastModified t) (lastModifiedBy t) (isBeingEdited t) (editedBy t) (editStartTime t)
     (comments t) (isArchived t) (archivedAt t) x.

#[global] Instance doc_eq_dec : EqDecision doc.
Proof. solve_decision. Defined.

(** The status strings of the schema's enumeration. *)
Definition statusName (s : Status) : string :=
  match s with
  | todo => "todo" | in_progress => "in-progress" | done_ => "done"
  end%string.

(** [doc.isModified()]: Mongoose marks a path modified when it is set to a
    value that is not deep-equal to the current one; every handler sets
    each path at most once, so the document is modified exactly when it
    differs from the one that was loaded. *)
Definition isModified (loaded cur : doc) : bool := bool_decide (cur <> loaded).

(** The [title] validator of the schema. *)
Definition columnNames : list string := ["todo"; "in progress"; "done"]%string.

Definition titleValidator (t : string) : bool :=
  negb (bool_decide (toLowerCase t ∈ columnNames)).

Definition commentOk (c : Comment) : bool :=
  (negb (String.eqb (text c) EmptyString)
   && (String.length (text c) <=? 500)%nat)%bool.

(** Validation run by [save].  The schema does not set
    [validateModifiedOnly], so every path of the document is validated,
    those loaded from the collection and left untouched included, for a
    new document and for a loaded one alike: the check reads the current
    document and the clock only.  In particular the [dueDate] validator
    compares the stored date with [new Date()] at every save.  The error
    names the first failing path, in the order of the schema. *)
Definition validate (isNew : bool) (now : Date) (loaded cur : doc)
  : option Thrown :=
  if negb ((1 <=? String.length (title cur))%nat
           && (String.length (title cur) <=? 200)%nat
           && titleValidator (title cur))%bool
  then Some (ValidationError "title")
  else if negb (String.length (description cur) <=? 1000)%nat
  then Some (ValidationError "description")
  else if match dueDate cur with
          | Some d => negb (now <? d)
          | None => false
          end
  then Some (ValidationError "dueDate")
  else if negb (forallb (fun g => (String.length g <=? 50)%nat) (tags cur))
  then Some (ValidationError "tags")
  else if negb (forallb commentOk (comments cur))
  then Some (ValidationError "comments")
  else None.

(** The [pre('save')] hook; [this.version += 1] is a sum of doubles. *)
Definition preSave (isNew : bool) (now : Date) (loaded cur : doc) : doc :=
  if (isModified loaded cur && negb isNew)%bool
  then set_lastModified now (set_version (Number_add (version cur) 1) cur)
  else cur.

(** [doc.save()]: validate, run the hook, write the document under its
    [_id].  Inserting a new document under a used [_id] fails. *)
Definition save (isNew : bool) (now : Date) (id : ObjectId)
    (loaded cur : doc) (tasks : gmap ObjectId doc)
  : Thrown + (doc * gmap ObjectId doc) :=
  match validate isNew now loaded cur with
  | Some e => inl e
  | None =>
      let d := preSave isNew now loaded cur in
      if (isNew && bool_decide (is_Some (tasks !! id)))%bool
      then inl DuplicateKey
      else inr (d, <[id := d]> tasks)
  end.

(** [Model.countDocuments(query)], the query given as a predicate. *)
Definition countDocuments (query : doc -> bool) (tasks : gmap ObjectId doc)
  : nat :=
  length (filter (fun t => query t = true) (map_to_list tasks).*2).

(** [Math.min(...counts)]; [None] is the [Infinity] of an empty spread. *)
Definition Math_min (l : list nat) : option nat :=
  foldr (fun x acc => Some (match acc with
                            | None => x
                            | Some m => Nat.min x m
                            end)) None l.

(** The query of the load count: assigned to [uid], status in
    [['todo', 'in-progress']], not archived. *)
Definition activeTaskQuery (uid : ObjectId) (t : doc) : bool :=
  (bool_decide (assignedTo t = Some uid)
   && bool_decide (status t ∈ [todo; in_progress])
   && negb (isArchived t))%bool.

Definition userTaskCounts (users : gmap ObjectId User.doc)
    (tasks : gmap ObjectId doc) : list (User.doc * nat) :=
  map (fun u => (u, countDocuments (activeTaskQuery (User._id u)) tasks))
      (User.findActiveUsers users).

Definition usersWithMinTasks (users : gmap ObjectId User.doc)
    (tasks : gmap ObjectId doc) : list (User.doc * nat) :=
  let utcs := userTaskCounts users tasks in
  let minCount := Math_min (map snd utcs) in
  filter (fun utc => Some (snd utc) = minCount) utcs.

(** [Math.floor(Math.random() * n)], [random] being the double
    [Math.random()] returned.  The product of two doubles is the exact
    product rounded to 53 significant bits: in units of
    [2 ^ - shift random] the exact product is the integer
    [mantissa random * n] and the rounding is that of the integer;
    [Math.floor] then drops the fraction. *)
Definition randomIndex (random : Fraction) (n : nat) : nat :=
  Z.to_nat (roundToDouble (mantissa random * Z.of_nat n) / 2 ^ shift random).

(** [Task.findUserWithFewestTasks]. *)
Definition findUserWithFewestTasks (random : Fraction)
    (users : gmap ObjectId User.doc) (tasks : gmap ObjectId doc)
  : Thrown + User.doc :=
  if (length (User.findActiveUsers users) =? 0)%nat
  then inl (Error "No active users found")
  else
    let candidates := usersWithMinTasks users tasks in
    match candidates !! randomIndex random (length candidates) with
    | Some utc => inr (fst utc)
    | None => inl TypeError
    end.

(** [task.hasConflict(clientVersion)]. *)
Definition hasConflict (t : doc) (clientVersion : Z) : bool :=
  clientVersion <? version t.

(** [task.addComment(text, authorId)]. *)
Definition addComment (now : Date) (id : ObjectId) (txt : string)
    (authorId : ObjectId) (t : doc) (tasks : gmap ObjectId doc)
  : Thrown + (doc * gmap ObjectId doc) :=
  let t' := set_comments (comments t ++ [mkComment txt authorId now]) t in
  save false now id t t' tasks.

(** [task.archive(userId)]. *)
Definition archive (now : Date) (id : ObjectId) (userId : ObjectId)
    (t : doc) (tasks : gmap ObjectId doc)
  : Thrown + (doc * gmap ObjectId doc) :=
  let t' := set_archivedBy (Some userId)
              (set_archivedAt (Some now) (set_isArchived true t)) in
  save false now id t t' tasks.

Section UniqueTitle.

(** [new RegExp(pattern, 'i')]: [None] when the pattern is not a regular
    expression, else the test it compiles to. *)
Variable RegExp_i : string -> option (string -> bool).

(** [Task.validateUniqueTitle(title, excludeId)]. *)
Definition validateUniqueTitle (ttl : string) (excludeId : option ObjectId)
    (tasks : gmap ObjectId doc) : Thrown + bool :=
  match RegExp_i ("^" ++ ttl ++ "$")%string with
  | None => inl SyntaxError
  | Some test =>
      let hit (kv : ObjectId * doc) : bool :=
        (test (title kv.2) && negb (isArchived kv.2)
         && match excludeId with
            | Some ex => negb (bool_decide (kv.1 = ex))
            | None => true
            end)%bool in
      inr (negb (existsb hit (map_to_list tasks)))
  end.

End UniqueTitle.

End Task.

(** ** The database and the request context *)

Record DB := mkDB {
  tasks : gmap ObjectId Task.doc;
  users : gmap ObjectId User.doc;
  activities : list Activity.doc
}.

Definition with_tasks (ts : gmap ObjectId Task.doc) (db : DB) : DB :=
  mkDB ts (users db) (activities db).

Definition with_activity (a : Activity.data) (db : DB) : DB :=
  mkDB (tasks db) (users db) (Activity.logActivity a (activities db)).

(** What the runtime hands to one request: the clock ([new Date()]), the
    result of [randomUUID()], the result of [Math.random()] and the
    [ObjectId] a new document receives. *)
Record Env := mkEnv {
  now : Date;
  randomUUID : string;
  Math_random : Fraction;
  newObjectId : ObjectId
}.

(** [req.user], [req.ip] and [req.get('User-Agent')]. *)
Record Req := mkReq {
  user : User.doc;
  ip : option string;
  userAgentHeader : option string
}.

(** ** Responses *)

(** The values of a [conflict] object; [VRef None] is an [undefined]
    reference. *)
Inductive Value :=
  | VNum (n : Z)
  | VTask (t : Task.doc)
  | VRef (o : option ObjectId).

(** [res.status(statusCode).json({message, conflict, task, assignedTo,
    errors})]; an absent key is [None] (or the empty list). *)
Record Response := mkResponse {
  statusCode : nat;
  message : string;
  conflict : option (list (string * Value));
  task : option Task.doc;
  assignedUser : option User.doc;
  errors : list string
}.

Definition reply (code : nat) (msg : string) : Response :=
  mkResponse code msg None None None [].

Definition replyTask (code : nat) (msg : string) (t : Task.doc) : Response :=
  mkResponse code msg None (Some t) None [].

Definition replyConflict (c : list (string * Value)) : Response :=
  mkResponse 409 "Conflict detected: Task has been modified by another user"
             (Some c) None None [].

Definition taskNotFound : Response := reply 404 "Task not found".

(** The [ValidationError] branch shared by the [catch] blocks of
    [createTask] and [updateTask]. *)
Definition catchValidation (fallback : string) (e : Thrown) : Response :=
  match e with
  | ValidationError path =>
      mkResponse 400 "Validation error" None None None [path]
  | _ => reply 500 fallback
  end.

(** [Activity.logActivity] with the fields every handler passes. *)
Definition activityOf (req : Req) (a : Activity.Action)
    (tgt : option ObjectId) (d : Activity.details) (sev : Activity.Severity)
    (cid : option string) (resolved : option bool) : Activity.data :=
  Activity.mkData a (User._id (user req)) tgt
    (match tgt with Some _ => Some "Task"%string | None => None end)
    (Activity.createDescription a (User.fullName (user req)) d)
    Activity.cat_task sev cid resolved (ip req) (userAgentHeader req).

Definition titled (t : Task.doc) : Activity.details :=
  Activity.mkDetails (Some (Task.title t)) None None None None None.

(** ** Request bodies *)

(** The body of [PUT /tasks/:id]; a key holding [null] is [Some None]. *)
Record UpdateBody := mkUpdateBody {
  u_title : option string;
  u_description : option string;
  u_status : option Status;
  u_priority : option Priority;
  u_assignedTo : option (option ObjectId);
  u_dueDate : option (option Date);
  u_tags : option (list string);
  u_position : option Z;
  u_version : option Z
}.

Record MoveBody := mkMoveBody {
  m_status : Status;
  m_position : Z;
  m_version : option Z
}.

Record AssignBody := mkAssignBody {
  a_assignedTo : ObjectId;
  a_version : option Z
}.

Record CreateBody := mkCreateBody {
  c_title : string;
  c_description : option string;
  c_status : option Status;
  c_priority : option Priority;
  c_assignedTo : option ObjectId;
  c_dueDate : option Date;
  c_tags : option (list string);
  c_position : option Z
}.

(** ** The Joi schemas ([middleware/validation.js])

    [validate] runs with [convert] and [stripUnknown]; a body that passes
    is replaced by its converted value, defaults filled in.  The strings
    of a body are taken as they are after conversion, that is trimmed, and
    its numbers as the integers the schemas demand; [Joi.number()]
    refuses an integer that is not safe, and [Joi.string()] the empty
    string unless it is allowed. *)
Module Joi.

(** [Joi.number().integer().min(lo)]. *)
Definition integer (lo : Z) (n : Z) : bool :=
  ((lo <=? n) && isSafeInteger n)%bool.

Definition title (t : string) : bool :=
  ((1 <=? String.length t)%nat && (String.length t <=? 200)%nat
   && Task.titleValidator t)%bool.

Definition opt {A} (check : A -> bool) (o : option A) : bool :=
  match o with Some x => check x | None => true end.

Definition tagsOk (l : list string) : bool :=
  ((length l <=? 10)%nat
   && forallb (fun g => ((1 <=? String.length g)%nat
                         && (String.length g <=? 50)%nat)%bool) l)%bool.

Definition create (now : Date) (b : CreateBody) : option CreateBody :=
  if (title (c_title b)
      && opt (fun d => (String.length d <=? 1000)%nat) (c_description b)
      && opt (fun d => now <=? d) (c_dueDate b)
      && opt tagsOk (c_tags b)
      && opt (integer 0) (c_position b))%bool
  then Some (mkCreateBody (c_title b) (c_description b)
               (Some (default todo (c_status b)))
               (Some (default medium (c_priority b)))
               (c_assignedTo b) (c_dueDate b)
               (Some (default [] (c_tags b)))
               (Some (default 0 (c_position b))))
  else None.

Definition update (now : Date) (b : UpdateBody) : option UpdateBody :=
  if (opt title (u_title b)
      && opt (fun d => (String.length d <=? 1000)%nat) (u_description b)
      && opt (opt (fun d => now <=? d)) (u_dueDate b)
      && opt tagsOk (u_tags b)
      && opt (integer 0) (u_position b)
      && opt (integer 1) (u_version b))%bool
  then Some b else None.

Definition move (b : MoveBody) : option MoveBody :=
  match m_version b with
  | Some v =>
      if (integer 0 (m_position b) && integer 1 v)%bool then Some b else None
  | None => None
  end.

Definition assign (b : AssignBody) : option AssignBody :=
  match a_version b with
  | Some v => if integer 1 v then Some b else None
  | None => None
  end.

Definition comment (txt : string) : option string :=
  if ((1 <=? String.length txt)%nat && (String.length txt <=? 500)%nat)%bool
  then Some txt else None.

(** The reply of the validation middleware to a rejected body; the
    entries of its [errors] array, one for each failing key, are left
    out. *)
Definition rejected : Response := reply 400 "Validation error".

End Joi.

(** ** The task controller ([controllers/taskController.js]) *)

(** [clientVersion && task.hasConflict(clientVersion)]. *)
Definition conflictCheck (clientVersion : option Z) (t : Task.doc) : bool :=
  match clientVersion with
  | Some v => (truthy clientVersion && Task.hasConflict t v)%bool
  | None => false
  end.

Definition num (o : option Z) : Value := VNum (default 0 o).

(** The [conflict] object of [moveTask], [smartAssignTask] and
    [assignTask]. *)
Definition conflictOf (clientVersion : option Z) (t : Task.doc)
  : list (string * Value) :=
  [("clientVersion", num clientVersion); ("serverVersion", VNum (Task.version t));
   ("serverTask", VTask t)]%string.

(** The [conflict] object of [updateTask]. *)
Definition conflictOfUpdate (clientVersion : option Z) (t : Task.doc)
  : list (string * Value) :=
  [("clientVersion", num clientVersion); ("serverVersion", VNum (Task.version t));
   ("serverTask", VTask t); ("lastModifiedBy", VRef (Task.lastModifiedBy t))]%string.

(** [Task.findById(id)] followed by the [!task || task.isArchived] guard. *)
Definition findLive (id : ObjectId) (db : DB) : option Task.doc :=
  match tasks db !! id with
  | Some t => if Task.isArchived t then None else Some t
  | None => None
  end.

Definition activeUser (db : DB) (uid : ObjectId) : option User.doc :=
  match User.findById (users db) uid with
  | Some u => if User.isActive u then Some u else None
  | None => None
  end.

(** [Object.assign(task, updateData)]. *)
Definition assignKey {A} (set : A -> Task.doc -> Task.doc) (o : option A)
    (t : Task.doc) : Task.doc :=
  match o with Some x => set x t | None => t end.

Definition Object_assign (b : UpdateBody) (t : Task.doc) : Task.doc :=
  assignKey Task.set_version (u_version b)
   (assignKey Task.set_position (u_position b)
    (assignKey Task.set_tags (u_tags b)
     (assignKey Task.set_dueDate (u_dueDate b)
      (assignKey Task.set_assignedTo (u_assignedTo b)
       (assignKey Task.set_priority (u_priority b)
        (assignKey Task.set_status (u_status b)
         (assignKey Task.set_description (u_description b)
          (assignKey Task.set_title (u_title b) t)))))))).

(** [Task.updateMany] of [moveTask]: every other live task of the target
    column at or after the target position moves one place down.  [$inc]
    adds in the type of the stored number; the driver stores a JavaScript
    number beyond 32 bits as a double, and for a safe integer the sum is
    the same in every type. *)
Definition shifts (id : ObjectId) (st : Status) (pos : Z)
    (k : ObjectId) (t : Task.doc) : bool :=
  (negb (bool_decide (k = id)) && bool_decide (Task.status t = st)
   && (pos <=? Task.position t) && negb (Task.isArchived t))%bool.

Definition updateMany_inc (id : ObjectId) (st : Status) (pos : Z)
    (ts : gmap ObjectId Task.doc) : gmap ObjectId Task.doc :=
  map_imap (fun k t =>
    Some (if shifts id st pos k t
          then Task.set_position (Number_add (Task.position t) 1) t
          else t)) ts.

Section Controller.

Variable RegExp_i : string -> option (string -> bool).

(** *** [createTask] *)

Definition newTask (req : Req) (env : Env) (b : CreateBody) : Task.doc :=
  Task.mk (c_title b) (default EmptyString (c_description b))
    (default todo (c_status b)) (default medium (c_priority b))
    (c_assignedTo b) (User._id (user req)) (c_dueDate b)
    (default [] (c_tags b)) (default 0 (c_position b)) 1 (now env)
    (Some (User._id (user req))) false None None [] false None None.

Definition createTask_try (env : Env) (req : Req) (b : CreateBody) (db : DB)
  : Thrown + DB * Response :=
  match Task.validateUniqueTitle RegExp_i (c_title b) None (tasks db) with
  | inl e => inl e
  | inr false => inr (db, reply 400 "A task with this title already exists")
  | inr true =>
      let assigneeOk :=
        match c_assignedTo b with
        | Some uid => bool_decide (is_Some (activeUser db uid))
        | None => true
        end in
      if negb assigneeOk
      then inr (db, reply 400 "Assigned user not found or inactive")
      else
        let t := newTask req env b in
        match Task.save true (now env) (newObjectId env) t t (tasks db) with
        | inl e => inl e
        | inr (t', ts) =>
            inr (with_activity
                   (activityOf req Activity.task_created
                      (Some (newObjectId env)) (titled t')
                      Activity.sev_low None None)
                   (with_tasks ts db),
                 replyTask 201 "Task created successfully" t')
        end
  end.

Definition createTask (env : Env) (req : Req) (b : CreateBody) (db : DB)
  : DB * Response :=
  match createTask_try env req b db with
  | inr r => r
  | inl e => (db, catchValidation "Error creating task" e)
  end.

(** *** [updateTask] *)

(** The handler past the conflict check. *)
Definition updateTask_apply (env : Env) (req : Req) (id : ObjectId)
    (b : UpdateBody) (t : Task.doc) (db : DB) : Thrown + DB * Response :=
  match
    match u_title b with
    | Some ttl =>
        if (negb (String.eqb ttl EmptyString)
            && negb (String.eqb ttl (Task.title t)))%bool
        then Task.validateUniqueTitle RegExp_i ttl (Some id) (tasks db)
        else inr true
    | None => inr true
    end
  with
  | inl e => inl e
  | inr false => inr (db, reply 400 "A task with this title already exists")
  | inr true =>
      let assigneeOk :=
        match u_assignedTo b with
        | Some (Some uid) =>
            if bool_decide (Some uid <> Task.assignedTo t)
            then bool_decide (is_Some (activeUser db uid)) else true
        | _ => true
        end in
      if negb assigneeOk
      then inr (db, reply 400 "Assigned user not found or inactive")
      else
        let t1 := Task.set_lastModified (now env)
                    (Task.set_lastModifiedBy (Some (User._id (user req)))
                       (Object_assign b t)) in
        match Task.save false (now env) id t t1 (tasks db) with
        | inl e => inl e
        | inr (t', ts) =>
            inr (with_activity
                   (activityOf req Activity.task_updated (Some id) (titled t')
                      Activity.sev_low None None)
                   (with_tasks ts db),
                 replyTask 200 "Task updated successfully" t')
        end
  end.

Definition updateTask_try (env : Env) (req : Req) (id : ObjectId)
    (b : UpdateBody) (db : DB) : Thrown + DB * Response :=
  let clientVersion := u_version b in
  match findLive id db with
  | None => inr (db, taskNotFound)
  | Some t =>
      if conflictCheck clientVersion t
      then
        inr (with_activity
               (activityOf req Activity.conflict_detected (Some id)
                  (Activity.mkDetails (Some (Task.title t)) None None None
                     (Some "Unknown"%string) None)
                  Activity.sev_medium (Some (randomUUID env)) (Some false))
               db,
             replyConflict (conflictOfUpdate clientVersion t))
      else updateTask_apply env req id b t db
  end.

Definition updateTask (env : Env) (req : Req) (id : ObjectId)
    (b : UpdateBody) (db : DB) : DB * Response :=
  match updateTask_try env req id b db with
  | inr r => r
  | inl e => (db, catchValidation "Error updating task" e)
  end.

End Controller.

(** *** [moveTask] *)

Definition moveTask_apply (env : Env) (req : Req) (id : ObjectId)
    (b : MoveBody) (t : Task.doc) (db : DB) : Thrown + DB * Response :=
  let previousStatus := Task.status t in
  let t1 := Task.set_lastModifiedBy (Some (User._id (user req)))
              (Task.set_position (m_position b)
                 (Task.set_status (m_status b) t)) in
  match Task.save false (now env) id t t1 (tasks db) with
  | inl e => inl e
  | inr (t', ts) =>
      let ts' := updateMany_inc id (m_status b) (m_position b) ts in
      inr (with_activity
             (activityOf req Activity.task_moved (Some id)
                (Activity.mkDetails (Some (Task.title t')) None
                   (Some (Task.statusName previousStatus))
                   (Some (Task.statusName (m_status b))) None None)
                Activity.sev_low None None)
             (with_tasks ts' db),
           replyTask 200 "Task moved successfully" t')
  end.

Definition moveTask_try (env : Env) (req : Req) (id : ObjectId)
    (b : MoveBody) (db : DB) : Thrown + DB * Response :=
  let clientVersion := m_version b in
  match findLive id db with
  | None => inr (db, taskNotFound)
  | Some t =>
      if conflictCheck clientVersion t
      then inr (db, replyConflict (conflictOf clientVersion t))
      else moveTask_apply env req id b t db
  end.

Definition moveTask (env : Env) (req : Req) (id : ObjectId) (b : MoveBody)
    (db : DB) : DB * Response :=
  match moveTask_try env req id b db with
  | inr r => r
  | inl _ => (db, reply 500 "Error moving task")
  end.

(** *** [smartAssignTask] *)

Definition smartAssignTask_apply (env : Env) (req : Req) (id : ObjectId)
    (t : Task.doc) (db : DB) : Thrown + DB * Response :=
  match Task.findUserWithFewestTasks (Math_random env) (users db) (tasks db) with
  | inl e => inl e
  | inr selectedUser =>
      let t1 := Task.set_lastModifiedBy (Some (User._id (user req)))
                  (Task.set_assignedTo (Some (User._id selectedUser)) t) in
      match Task.save false (now env) id t t1 (tasks db) with
      | inl e => inl e
      | inr (t', ts) =>
          inr (with_activity
                 (activityOf req Activity.smart_assign (Some id)
                    (Activity.mkDetails (Some (Task.title t'))
                       (Some (User.fullName selectedUser)) None None None None)
                    Activity.sev_low None None)
                 (with_tasks ts db),
               mkResponse 200 "Task assigned successfully using smart assign"
                 None (Some t') (Some selectedUser) [])
      end
  end.

Definition smartAssignTask_try (env : Env) (req : Req) (id : ObjectId)
    (clientVersion : option Z) (db : DB) : Thrown + DB * Response :=
  match findLive id db with
  | None => inr (db, taskNotFound)
  | Some t =>
      if conflictCheck clientVersion t
      then inr (db, replyConflict (conflictOf clientVersion t))
      else smartAssignTask_apply env req id t db
  end.

(** The [catch] block answers every thrown error alike. *)
Definition smartAssignTask_catch (e : Thrown) : Response :=
  reply 500 "Error in smart assign".

Definition smartAssignTask (env : Env) (req : Req) (id : ObjectId)
    (clientVersion : option Z) (db : DB) : DB * Response :=
  match smartAssignTask_try env req id clientVersion db with
  | inr r => r
  | inl e => (db, smartAssignTask_catch e)
  end.

(** *** [assignTask] *)

Definition assignTask_apply (env : Env) (req : Req) (id : ObjectId)
    (b : AssignBody) (t : Task.doc) (db : DB) : Thrown + DB * Response :=
  match activeUser db (a_assignedTo b) with
  | None => inr (db, reply 400 "Assigned user not found or inactive")
  | Some assignedUser =>
      let t1 := Task.set_lastModifiedBy (Some (User._id (user req)))
                  (Task.set_assignedTo (Some (a_assignedTo b)) t) in
      match Task.save false (now env) id t t1 (tasks db) with
      | inl e => inl e
      | inr (t', ts) =>
          inr (with_activity
                 (activityOf req Activity.task_assigned (Some id)
                    (Activity.mkDetails (Some (Task.title t'))
                       (Some (User.fullName assignedUser)) None None None None)
                    Activity.sev_low None None)
                 (with_tasks ts db),
               replyTask 200 "Task assigned successfully" t')
      end
  end.

Definition assignTask_try (env : Env) (req : Req) (id : ObjectId)
    (b : AssignBody) (db : DB) : Thrown + DB * Response :=
  let clientVersion := a_version b in
  match findLive id db with
  | None => inr (db, taskNotFound)
  | Some t =>
      if conflictCheck clientVersion t
      then inr (db, replyConflict (conflictOf clientVersion t))
      else assignTask_apply env req id b t db
  end.

Definition assignTask (env : Env) (req : Req) (id : ObjectId) (b : AssignBody)
    (db : DB) : DB * Response :=
  match assignTask_try env req id b db with
  | inr r => r
  | inl _ => (db, reply 500 "Error assigning task")
  end.

(** *** [addComment] *)

Definition addComment (env : Env) (req : Req) (id : ObjectId) (txt : string)
    (db : DB) : DB * Response :=
  match findLive id db with
  | None => (db, taskNotFound)
  | Some t =>
      match Task.addComment (now env) id txt (User._id (user req)) t (tasks db) with
      | inl _ => (db, reply 500 "Error adding comment")
      | inr (t', ts) =>
          (with_activity
             (activityOf req Activity.task_commented (Some id) (titled t')
                Activity.sev_low None None)
             (with_tasks ts db),
           replyTask 200 "Comment added successfully" t')
      end
  end.

(** *** [deleteTask] *)

Definition deleteTask (env : Env) (req : Req) (id : ObjectId) (db : DB)
  : DB * Response :=
  match findLive id db with
  | None => (db, taskNotFound)
  | Some t =>
      if (negb (bool_decide (Task.createdBy t = User._id (user req)))
          && negb (String.eqb (User.role (user req)) "admin"))%bool
      then (db, reply 403 "You can only delete tasks you created")
      else
        (with_activity
           (activityOf req Activity.task_deleted None (titled t)
              Activity.sev_medium None None)
           (with_tasks (delete id (tasks db)) db),
         reply 200 "Task deleted successfully")
  end.

(** *** [archiveTask] *)

Definition archiveTask (env : Env) (req : Req) (id : ObjectId) (db : DB)
  : DB * Response :=
  match findLive id db with
  | None => (db, taskNotFound)
  | Some t =>
      match Task.archive (now env) id (User._id (user req)) t (tasks db) with
      | inl _ => (db, reply 500 "Error archiving task")
      | inr (t', ts) =>
          (with_activity
             (activityOf req Activity.task_archived (Some id) (titled t')
                Activity.sev_low None None)
             (with_tasks ts db),
           reply 200 "Task archived successfully")
      end
  end.

(** ** The routes ([routes/taskRoutes.js]): schema, then handler *)

Definition route {B} (schema : B -> option B)
    (handler : B -> DB -> DB * Response) (body : B) (db : DB)
  : DB * Response :=
  match schema body with
  | Some b => handler b db
  | None => (db, Joi.rejected)
  end.

Section Routes.

Variable RegExp_i : string -> option (string -> bool).

Definition POST_tasks (env : Env) (req : Req) :=
  route (Joi.create (now env)) (createTask RegExp_i env req).

Definition PUT_task (env : Env) (req : Req) (id : ObjectId) :=
  route (Joi.update (now env)) (updateTask RegExp_i env req id).

End Routes.

Definition PUT_task_move (env : Env) (req : Req) (id : ObjectId) :=
  route Joi.move (moveTask env req id).

Definition PUT_task_assign (env : Env) (req : Req) (id : ObjectId) :=
  route Joi.assign (assignTask env req id).

Definition POST_task_comments (env : Env) (req : Req) (id : ObjectId) :=
  route Joi.comment (addComment env req id).

(** ** The four version-checked mutations, as one family *)

Inductive Mutation :=
  | Update (b : UpdateBody)
  | Move (b : MoveBody)
  | Assign (b : AssignBody)
  | SmartAssign (clientVersion : option Z).

(** The [version] the request body carries. *)
Definition clientVersionOf (m : Mutation) : option Z :=
  match m with
  | Update b => u_version b
  | Move b => m_version b
  | Assign b => a_version b
  | SmartAssign v => v
  end.

Section Mutations.

Variable RegExp_i : string -> option (string -> bool).

(** The handler of each mutation. *)
Definition handle (env : Env) (req : Req) (id : ObjectId) (m : Mutation)
    (db : DB) : DB * Response :=
  match m with
  | Update b => updateTask RegExp_i env req id b db
  | Move b => moveTask env req id b db
  | Assign b => assignTask env req id b db
  | SmartAssign v => smartAssignTask env req id v db
  end.

(** The part of each handler that follows the conflict check, closed by
    the handler's own [catch]. *)
Definition applied (env : Env) (req : Req) (id : ObjectId) (m : Mutation)
    (t : Task.doc) (db : DB) : DB * Response :=
  match m with
  | Update b =>
      match updateTask_apply RegExp_i env req id b t db with
      | inr r => r
      | inl e => (db, catchValidation "Error updating task" e)
      end
  | Move b =>
      match moveTask_apply env req id b t db with
      | inr r => r
      | inl _ => (db, reply 500 "Error moving task")
      end
  | Assign b =>
      match assignTask_apply env req id b t db with
      | inr r => r
      | inl _ => (db, reply 500 "Error assigning task")
      end
  | SmartAssign _ =>
      match smartAssignTask_apply env req id t db with
      | inr r => r
      | inl e => (db, smartAssignTask_catch e)
      end
  end.

(** The route of each mutation; [POST /:id/smart-assign] has no schema. *)
Definition request (env : Env) (req : Req) (id : ObjectId) (m : Mutation)
    (db : DB) : DB * Response :=
  match m with
  | Update b => PUT_task RegExp_i env req id b db
  | Move b => PUT_task_move env req id b db
  | Assign b => PUT_task_assign env req id b db
  | SmartAssign v => smartAssignTask env req id v db
  end.

End Mutations.

(** The version the [pre('save')] hook increments: the one [Object.assign]
    copied from the body of an update, else the stored one. *)
Definition versionBase (m : Mutation) (t : Task.doc) : Z :=
  match m with
  | Update b => default (Task.version t) (u_version b)
  | _ => Task.version t
  end.

(** ** The failure kinds of the specification *)

Inductive FailureKind :=
  | Unauthenticated | Forbidden | Validation | NotFound | DuplicateTitle
  | ReservedTitle | InvalidAssignee | Conflict | UnknownConflict
  | NoEligibleUser | Internal.

(** How a reply reads as a failure kind: by its status code and, where one
    code serves several kinds, by its message.  A reply that surfaced the
    message of the error [findUserWithFewestTasks] throws would read as
    [NoEligibleUser]. *)
Definition failureKind (r : Response) : option FailureKind :=
  if String.eqb (message r) "No active users found" then Some NoEligibleUser
  else match statusCode r with
  | 200%nat | 201%nat => None
  | 401%nat => Some Unauthenticated
  | 403%nat => Some Forbidden
  | 404%nat => Some NotFound
  | 409%nat => Some Conflict
  | 400%nat =>
      if String.eqb (message r) "A task with this title already exists"
      then Some DuplicateTitle
      else if String.eqb (message r) "Assigned user not found or inactive"
      then Some InvalidAssignee
      else Some Validation
  | _ => Some Internal
  end.

(** ** Columns and positions *)

(** The live tasks of a column, as [(id, task)] pairs. *)
Definition column (st : Status) (ts : gmap ObjectId Task.doc)
  : list (ObjectId * Task.doc) :=
  filter (fun kv => Task.status kv.2 = st /\ Task.isArchived kv.2 = false)
         (map_to_list ts).

Definition positions (st : Status) (ts : gmap ObjectId Task.doc) : list Z :=
  map (fun kv => Task.position kv.2) (column st ts).

(** Invariant I4 of the specification: the positions of a column are a
    permutation of [0..n-1]. *)
Definition dense (st : Status) (ts : gmap ObjectId Task.doc) : Prop :=
  positions st ts ≡ₚ map Z.of_nat (seq 0 (length (positions st ts))).

(** No two live tasks of one column share a position. *)
Definition distinctPositions (ts : gmap ObjectId Task.doc) : Prop :=
  forall k1 k2 t1 t2,
    ts !! k1 = Some t1 -> ts !! k2 = Some t2 ->
    Task.isArchived t1 = false -> Task.isArchived t2 = false ->
    Task.status t1 = Task.status t2 ->
    Task.position t1 = Task.position t2 -> k1 = k2.

(** The largest position of a column plus one, [0] for an empty column:
    the position the specification gives a created task. *)
Definition nextPosition (st : Status) (ts : gmap ObjectId Task.doc) : Z :=
  foldr (fun p acc => Z.max (p + 1) acc) 0 (positions st ts).

(** ** The load of the Smart-Assign policy, in the specification's words:
    the number of non-archived tasks assigned to the user whose status is
    [todo] or [in-progress]. *)
Definition load (uid : ObjectId) (ts : gmap ObjectId Task.doc) : nat :=
  size (filter (fun kv : ObjectId * Task.doc =>
                  Task.isArchived kv.2 = false
                  /\ Task.assignedTo kv.2 = Some uid
                  /\ (Task.status kv.2 = todo \/ Task.status kv.2 = in_progress))
               ts).

(** ** A sample board

    Three live tasks in the [todo] column, created and last modified by
    Alice; Bob and Carol are members, Dana is deactivated. *)

Definition sampleTask (ttl : string) (pos v : Z) : Task.doc :=
  Task.mk ttl EmptyString todo medium None 1 None [] pos v 100 (Some 1%nat)
          false None None [] false None None.

Definition T1 : Task.doc := sampleTask "T1" 0 3.
Definition T2 : Task.doc := sampleTask "T2" 1 5.
Definition T3 : Task.doc := sampleTask "T3" 2 7.

Definition alice : User.doc := User.mk 1 "alice" "Alice A" "member" true.
Definition bob : User.doc := User.mk 2 "bob" "Bob B" "member" true.
Definition carol : User.doc := User.mk 3 "carol" "Carol C" "admin" true.
Definition dana : User.doc := User.mk 4 "dana" "Dana D" "member" false.

Definition board : DB :=
  mkDB (list_to_map [(10%nat, T1); (11%nat, T2); (12%nat, T3)])
       (list_to_map [(1%nat, alice); (2%nat, bob); (3%nat, carol); (4%nat, dana)])
       [].

(** The same board when every account is deactivated. *)
Definition idleBoard : DB :=
  mkDB (tasks board) (list_to_map [(4%nat, dana)]) [].

(** The clock at 200, and [Math.random()] returning one half. *)
Definition sampleEnv : Env := mkEnv 200 "3f2a-uuid" (mkFraction 1 1) 99.

Definition asUser (u : User.doc) : Req :=
  mkReq u (Some "127.0.0.1"%string) (Some "curl/8"%string).

(** A stand-in for the regular expression engine on titles without
    metacharacters: a case-insensitive comparison of the whole title. *)
Definition sampleRegExp (pattern : string) : option (string -> bool) :=
  Some (fun s => String.eqb (toLowerCase ("^" ++ s ++ "$")) (toLowerCase pattern)).

Definition emptyUpdate : UpdateBody :=
  mkUpdateBody None None None None None None None None None.

Definition withVersion (v : Z) (b : UpdateBody) : UpdateBody :=
  mkUpdateBody (u_title b) (u_description b) (u_status b) (u_priority b)
    (u_assignedTo b) (u_dueDate b) (u_tags b) (u_position b) (Some v).

Definition withPriority (p : Priority) (b : UpdateBody) : UpdateBody :=
  mkUpdateBody (u_title b) (u_description b) (u_status b) (Some p)
    (u_assignedTo b) (u_dueDate b) (u_tags b) (u_position b) (u_version b).

(** ** Auxiliary notions of the statements *)

(** The keys of the [conflict] object of a reply. *)
Definition keys (o : option (list (string * Value))) : list string :=
  (default [] o).*1.

(** The document a handler holds when it calls [save]. *)
Definition written (env : Env) (req : Req) (m : Mutation)
    (selected : option User.doc) (t : Task.doc) : Task.doc :=
  let me := Some (User._id (user req)) in
  match m with
  | Update b =>
      Task.set_lastModified (now env)
        (Task.set_lastModifiedBy me (Object_assign b t))
  | Move b =>
      Task.set_lastModifiedBy me
        (Task.set_position (m_position b) (Task.set_status (m_status b) t))
  | Assign b =>
      Task.set_lastModifiedBy me
        (Task.set_assignedTo (Some (a_assignedTo b)) t)
  | SmartAssign _ =>
      Task.set_lastModifiedBy me
        (Task.set_assignedTo (User._id <$> selected) t)
  end.

(** What [updateMany] does to one task of the collection. *)
Definition shifted (id : ObjectId) (st : Status) (pos : Z) (k : ObjectId)
    (u : Task.doc) : Task.doc :=
  if shifts id st pos k u
  then Task.set_position (Number_add (Task.position u) 1) u else u.

(** ** Sample requests *)

(** Bob raises the priority of task 10, quoting its current version. *)
Definition bobRaisesPriority : Mutation :=
  Update (withVersion 3 (withPriority high emptyUpdate)).

(** Bob moves task 10 to position 7 of its own column of three. *)
Definition moveToSeven : MoveBody := mkMoveBody todo 7 (Some 3).

(** Bob moves task 12 to the front of its column. *)
Definition moveToFront : MoveBody := mkMoveBody todo 0 (Some 7).

(** Bob creates a task in the [todo] column and sends no position. *)
Definition shipRelease : CreateBody :=
  mkCreateBody "Ship release" None (Some todo) None None None None None.

(** ** Reading tasks ([getTask], [getAllTasks]) *)

(** A reply that carries no [message] key. *)
Definition replyOnlyTask (t : Task.doc) : Response :=
  mkResponse 200 EmptyString None (Some t) None [].

(** [getTask]. *)
Definition getTask (id : ObjectId) (db : DB) : DB * Response :=
  match findLive id db with
  | None => (db, taskNotFound)
  | Some t => (db, replyOnlyTask t)
  end.

(** ** Every handler that takes a task id, as one family *)

Inductive TaskOp :=
  | OpMutation (m : Mutation)
  | OpComment (txt : string)
  | OpDelete
  | OpArchive
  | OpGet.

Section Operations.

Variable RegExp_i : string -> option (string -> bool).

Definition perform (env : Env) (req : Req) (id : ObjectId) (op : TaskOp)
    (db : DB) : DB * Response :=
  match op with
  | OpMutation m => handle RegExp_i env req id m db
  | OpComment txt => addComment env req id txt db
  | OpDelete => deleteTask env req id db
  | OpArchive => archiveTask env req id db
  | OpGet => getTask id db
  end.

End Operations.

(** The document a handler of the family holds when it calls [save];
    [deleteTask] and [getTask] save nothing. *)
Definition writtenBy (env : Env) (req : Req) (op : TaskOp)
    (selected : option User.doc) (t : Task.doc) : Task.doc :=
  match op with
  | OpMutation m => written env req m selected t
  | OpComment txt =>
      Task.set_comments
        (Task.comments t
         ++ [Task.mkComment txt (User._id (user req)) (now env)]) t
  | OpArchive =>
      Task.set_archivedBy (Some (User._id (user req)))
        (Task.set_archivedAt (Some (now env)) (Task.set_isArchived true t))
  | OpDelete | OpGet => t
  end.

(** The collection a handler of the family leaves when it succeeds on the
    live task [t], [t'] being the document [save] wrote. *)
Definition tasksAfter (id : ObjectId) (op : TaskOp) (t' : Task.doc)
    (ts : gmap ObjectId Task.doc) : gmap ObjectId Task.doc :=
  match op with
  | OpMutation (Move b) =>
      updateMany_inc id (m_status b) (m_position b) (<[id := t']> ts)
  | OpDelete => delete id ts
  | OpGet => ts
  | _ => <[id := t']> ts
  end.

(** Every user document is stored under its own [_id], as MongoDB keeps
    it. *)
Definition usersKeyed (us : gmap ObjectId User.doc) : Prop :=
  forall k u, us !! k = Some u -> User._id u = k.

(** Bob assigns task 10 to Carol, quoting its current version. *)
Definition assignToCarol : TaskOp :=
  OpMutation (Assign (mkAssignBody 3 (Some 3))).

(** Bob retitles task 10 and sets it to [done], quoting version 3. *)
Definition retitle : UpdateBody :=
  mkUpdateBody (Some "Write the notes"%string) None (Some done_) None None
               None None None (Some 3).

(** ** Listing tasks ([getAllTasks]) *)

(** The priority strings of the schema's enumeration. *)
Definition priorityName (p : Priority) : string :=
  match p with
  | low => "low" | medium => "medium" | high => "high" | urgent => "urgent"
  end%string.

(** [req.query] of [GET /tasks]: each key is a string, or absent. *)
Record ListQuery := mkListQuery {
  q_status : option string;
  q_assignedTo : option ObjectId;
  q_priority : option string
}.

(** A query string is truthy unless it is empty. *)
Definition given (o : option string) : option string :=
  match o with
  | Some s => if String.eqb s EmptyString then None else Some s
  | None => None
  end.

(** The filter [getAllTasks] builds: not archived, and each key the query
    gives. *)
Definition listFilter (q : ListQuery) (t : Task.doc) : bool :=
  (negb (Task.isArchived t)
   && match given (q_status q) with
      | Some s => String.eqb (Task.statusName (Task.status t)) s
      | None => true
      end
   && match q_assignedTo q with
      | Some uid => bool_decide (Task.assignedTo t = Some uid)
      | None => true
      end
   && match given (q_priority q) with
      | Some p => String.eqb (priorityName (Task.priority t)) p
      | None => true
      end)%bool.

(** The reply of [getAllTasks]. *)
Record TaskGroups := mkTaskGroups {
  g_todo : list (ObjectId * Task.doc);
  g_in_progress : list (ObjectId * Task.doc);
  g_done : list (ObjectId * Task.doc);
  totalCount : nat
}.

Section Listing.

(** The [createdAt] timestamp Mongoose keeps for each document. *)
Variable createdAt : ObjectId -> Date.

(** [.sort({ position: 1, createdAt: -1 })]: by position ascending, then
    by creation time descending. *)
Definition listOrder (x y : ObjectId * Task.doc) : Prop :=
  Task.position x.2 < Task.position y.2
  \/ (Task.position x.2 = Task.position y.2
      /\ createdAt y.1 <= createdAt x.1).

#[local] Instance listOrder_dec x y : Decision (listOrder x y).
Proof. unfold listOrder. apply _. Defined.

(** [Task.find(filter).sort(...)]. *)
Definition findSorted (q : ListQuery) (ts : gmap ObjectId Task.doc)
  : list (ObjectId * Task.doc) :=
  merge_sort listOrder
    (filter (fun kv => listFilter q kv.2 = true) (map_to_list ts)).

(** The [forEach] that pushes each task on the group of its status. *)
Definition groupOf (st : Status) (l : list (ObjectId * Task.doc))
  : list (ObjectId * Task.doc) :=
  filter (fun kv => Task.status kv.2 = st) l.

(** [getAllTasks]. *)
Definition getAllTasks (q : ListQuery) (db : DB) : TaskGroups :=
  let found := findSorted q (tasks db) in
  mkTaskGroups (groupOf todo found) (groupOf in_progress found)
               (groupOf done_ found) (length found).

End Listing.

Definition groupFor (st : Status) (g : TaskGroups)
  : list (ObjectId * Task.doc) :=
  match st with
  | todo => g_todo g
  | in_progress => g_in_progress g
  | done_ => g_done g
  end.

(** ** Virtuals of the task schema *)

(** [isOverdue]: a due date in the past on a task that is not done. *)
Definition isOverdue (now : Date) (t : Task.doc) : bool :=
  match Task.dueDate t with
  | Some d => ((d <? now) && negb (bool_decide (Task.status t = done_)))%bool
  | None => false
  end.

(** [Math.ceil] of a quotient of integers, the divisor positive. *)
Definition ceilDiv (a b : Z) : Z := - ((- a) / b).

Definition msPerDay : Z := 1000 * 3600 * 24.

(** [daysUntilDue]: [null] without a due date. *)
Definition daysUntilDue (now : Date) (t : Task.doc) : option Z :=
  match Task.dueDate t with
  | Some d => Some (ceilDiv (d - now) msPerDay)
  | None => None
  end.

(** ** Characters and lengths of strings *)

(** The character [c] occurs in the string [s]. *)
Definition occurs (c : Ascii.ascii) (s : string) : Prop :=
  In c (String.list_ascii_of_string s).

(** The length of an interpolated, possibly [undefined], string. *)
Definition interpLength (o : option string) : nat :=
  String.length (Activity.interp o).

(** The two checks of the activity schema that read the request: the
    [User-Agent] header holds at most 500 characters and the address
    passes its validator; an absent value passes. *)
Definition requestLoggable (req : Req) : bool :=
  (match userAgentHeader req with
   | Some ua => (String.length ua <=? 500)%nat
   | None => true
   end
   && match ip req with
      | Some addr => Activity.ipValidator addr
      | None => true
      end)%bool.

(** ** The user controller ([controllers/userController.js]) *)

Definition set_isActive (x : bool) (u : User.doc) : User.doc :=
  User.mk (User._id u) (User.username u) (User.fullName u) (User.role u) x.

(** Modelled from the spec: [user.save()], a method of the missing
    [models/User.js]; the directory of users keeps one document per user
    id, so the save stores the document under the id it was found at. *)
Definition saveUser (id : ObjectId) (u : User.doc)
    (us : gmap ObjectId User.doc) : gmap ObjectId User.doc :=
  <[id := u]> us.

(** [Task.updateMany({ assignedTo: id }, { $unset: { assignedTo: 1 } })]:
    every task assigned to the user, archived or not, loses its
    assignee; no save hook runs. *)
Definition unassignAll (id : ObjectId) (ts : gmap ObjectId Task.doc)
  : gmap ObjectId Task.doc :=
  (fun t => if bool_decide (Task.assignedTo t = Some id)
            then Task.set_assignedTo None t else t) <$> ts.

(** [deactivateUser].  Its [logActivity] call passes the action
    [user_deactivated], which the enumeration of the activity schema does
    not hold: the activity fails validation and is dropped, so the log is
    left as it was. *)
Definition deactivateUser (req : Req) (id : ObjectId) (db : DB)
  : DB * Response :=
  if negb (String.eqb (User.role (user req)) "admin")
  then (db, reply 403 "Admin access required")
  else if bool_decide (id = User._id (user req))
  then (db, reply 400 "You cannot deactivate yourself")
  else match User.findById (users db) id with
       | None => (db, reply 404 "User not found")
       | Some u =>
           (mkDB (unassignAll id (tasks db))
                 (saveUser id (set_isActive false u) (users db))
                 (activities db),
            reply 200 "User deactivated successfully")
       end.

(** [reactivateUser]; its action [user_reactivated] is outside the
    enumeration as well. *)
Definition reactivateUser (req : Req) (id : ObjectId) (db : DB)
  : DB * Response :=
  if negb (String.eqb (User.role (user req)) "admin")
  then (db, reply 403 "Admin access required")
  else match User.findById (users db) id with
       | None => (db, reply 404 "User not found")
       | Some u =>
           (mkDB (tasks db) (saveUser id (set_isActive true u) (users db))
                 (activities db),
            reply 200 "User reactivated successfully")
       end.

(** One entry of the reply of [getUserWorkload]. *)
Record Workload := mkWorkload {
  w_user : User.doc;
  activeTasks : nat;
  completedTasks : nat;
  totalTasks : nat
}.

(** The query of the completed count: assigned to [uid], status [done],
    not archived. *)
Definition completedTaskQuery (uid : ObjectId) (t : Task.doc) : bool :=
  (bool_decide (Task.assignedTo t = Some uid)
   && bool_decide (Task.status t = done_)
   && negb (Task.isArchived t))%bool.

Definition workloadOf (ts : gmap ObjectId Task.doc) (u : User.doc)
  : Workload :=
  let a := Task.countDocuments (Task.activeTaskQuery (User._id u)) ts in
  let c := Task.countDocuments (completedTaskQuery (User._id u)) ts in
  mkWorkload u a c (a + c).

(** [workloads.sort((a, b) => a.activeTasks - b.activeTasks)]: the sort
    of an array is stable, an entry stays before the later entries of the
    same count. *)
Fixpoint insertWorkload (w : Workload) (l : list Workload) : list Workload :=
  match l with
  | [] => [w]
  | x :: l' =>
      if (activeTasks w <=? activeTasks x)%nat then w :: x :: l'
      else x :: insertWorkload w l'
  end.

Definition sortWorkloads (l : list Workload) : list Workload :=
  foldr insertWorkload [] l.

Record WorkloadReply := mkWorkloadReply {
  workloads : list Workload;
  recommendedUser : option Workload
}.

(** [getUserWorkload]; [workloads[0]] of an empty array is [undefined]. *)
Definition getUserWorkload (db : DB) : WorkloadReply :=
  let ws := sortWorkloads
              (map (workloadOf (tasks db)) (User.findActiveUsers (users db))) in
  mkWorkloadReply ws (head ws).

(** The order of the workload report. *)
Definition lighter (a b : Workload) : Prop :=
  (activeTasks a <= activeTasks b)%nat.

(** ** Resolving a conflict ([controllers/activityController.js]) *)

#[global] Instance Action_eq_dec : EqDecision Activity.Action.
Proof. solve_decision. Defined.

(** The document [activity.markResolved(resolvedBy, resolution)] saves;
    the three keys it writes under [details] lie in the bag that is left
    out. *)
Definition markResolved (a : Activity.doc) : Activity.doc :=
  Activity.mk (Activity.action a) (Activity.actor a) (Activity.target a)
    (Activity.targetModel a) (Activity.description a)
    (Activity.ipAddress a) (Activity.userAgent a) (Activity.category a)
    (Activity.severity a) (Activity.conflictId a) true.

(** [resolveConflict].  The handlers embedded here only append to the
    log ([cleanOldActivities], which deletes from it, is left out), so an
    activity is named by its rank in the log: [Activity.findById] is the
    lookup at that rank and [save] the update in place.  The [save] of
    [markResolved] validates the document; an error it throws is answered
    by the [catch] block. *)
Definition resolveConflict (req : Req) (activityId : nat) (db : DB)
  : DB * Response :=
  if negb (String.eqb (User.role (user req)) "admin")
  then (db, reply 403 "Admin access required")
  else match activities db !! activityId with
       | None => (db, reply 404 "Activity not found")
       | Some a =>
           if negb (bool_decide (Activity.action a = Activity.conflict_detected))
           then (db, reply 400 "This activity is not a conflict")
           else if Activity.isResolved a
           then (db, reply 400 "Conflict is already resolved")
           else if negb (Activity.validate (markResolved a))
           then (db, reply 500 "Error resolving conflict")
           else (mkDB (tasks db) (users db)
                      (<[activityId := markResolved a]> (activities db)),
                 reply 200 "Conflict marked as resolved")
       end.

(** The query of [totalUnresolvedConflicts] in [getActivityStats], taken
    over the whole log, without the window on [createdAt]. *)
Definition unresolvedConflicts (log : list Activity.doc) : nat :=
  length (filter (fun a => Activity.action a = Activity.conflict_detected
                           /\ Activity.isResolved a = false) log).

(** ** Requests in sequence *)

Inductive Request :=
  | OnTask (env : Env) (req : Req) (id : ObjectId) (op : TaskOp)
  | Create (env : Env) (req : Req) (b : CreateBody)
  | Resolve (req : Req) (activityId : nat)
  | Deactivate (req : Req) (id : ObjectId)
  | Reactivate (req : Req) (id : ObjectId).

Section Serving.

Variable RegExp_i : string -> option (string -> bool).

Definition serve (r : Request) (db : DB) : DB * Response :=
  match r with
  | OnTask env req id op => perform RegExp_i env req id op db
  | Create env req b => POST_tasks RegExp_i env req b db
  | Resolve req activityId => resolveConflict req activityId db
  | Deactivate req id => deactivateUser req id db
  | Reactivate req id => reactivateUser req id db
  end.

(** The database after a sequence of requests, served one after the
    other. *)
Definition serveAll (rs : list Request) (db : DB) : DB :=
  foldl (fun d r => (serve r d).1) db rs.

End Serving.

(** Every entry of the log that is not resolved is a detected conflict
    and carries a conflict id. *)
Definition unresolvedAreConflicts (log : list Activity.doc) : Prop :=
  forall a, a ∈ log -> Activity.isResolved a = false ->
    Activity.action a = Activity.conflict_detected
    /\ is_Some (Activity.conflictId a).

(** What a handler may pass to [logActivity]: an activity without
    [isResolved], which the schema default resolves, or the unresolved
    conflict of a stale update, with its conflict id. *)
Definition loggable (a : Activity.data) : Prop :=
  Activity.d_isResolved a = None
  \/ (Activity.d_isResolved a = Some false
      /\ Activity.d_action a = Activity.conflict_detected
      /\ is_Some (Activity.d_conflictId a)).

(** One step of the log: nothing, or one loggable entry at the end. *)
Definition logStep (log log' : list Activity.doc) : Prop :=
  log' = log
  \/ exists a, log' = log ++ [Activity.construct a] /\ loggable a.

(** Alice resolves the entry at rank 0, Bob's stale update comes first. *)
Definition staleThenResolve : list Request :=
  [OnTask sampleEnv (asUser bob) 10
     (OpMutation (Update (withVersion 2 (withPriority high emptyUpdate))));
   Resolve (asUser carol) 0].

(** ** Authentication ([middleware/auth.js]) *)

(** What [jwt.verify(token, secret)] does: it returns the payload, of
    which only [userId] is read ([None]: the payload carries none), or it
    throws; the two errors [authenticate] tells apart have constructors
    of their own. *)
Inductive Verified :=
  | Decoded (userId : option ObjectId)
  | JsonWebTokenError
  | TokenExpiredError
  | OtherError.

(** [s.slice(n)]. *)
Definition slice (n : nat) (s : string) : string :=
  String.substring n (String.length s - n) s.

Section Authentication.

Variable jwt_verify : string -> Verified.

(** [authenticate]: the response it sends, or the user it stores in
    [req.user] before calling [next()].  On that path it also stamps
    [lastActive] on the user, a field the user documents here do not
    carry. *)
Definition authenticate (authHeader : option string) (db : DB)
  : Response + User.doc :=
  match authHeader with
  | None => inl (reply 401 "Access denied. No token provided.")
  | Some h =>
      if String.eqb h EmptyString
      then inl (reply 401 "Access denied. No token provided.")
      else
        let token := if String.prefix "Bearer " h then slice 7 h else h in
        if String.eqb token EmptyString
        then inl (reply 401 "Access denied. Invalid token format.")
        else
          match jwt_verify token with
          | Decoded userId =>
              match userId ≫= User.findById (users db) with
              | None => inl (reply 401 "Invalid token. User not found.")
              | Some u =>
                  if negb (User.isActive u)
                  then inl (reply 401 "Account is deactivated.")
                  else inr u
              end
          | JsonWebTokenError => inl (reply 401 "Invalid token.")
          | TokenExpiredError => inl (reply 401 "Token expired.")
          | OtherError =>
              inl (reply 500 "Internal server error during authentication.")
          end
  end.

(** [router.use(authenticate)] in front of a handler. *)
Definition authenticated (handler : Req -> DB -> DB * Response)
    (authHeader ip userAgent : option string) (db : DB) : DB * Response :=
  match authenticate authHeader db with
  | inl r => (db, r)
  | inr u => handler (mkReq u ip userAgent) db
  end.

(** [POST /tasks/:id/smart-assign]. *)
Definition POST_task_smart_assign (env : Env)
    (authHeader ip userAgent : option string) (id : ObjectId)
    (clientVersion : option Z) (db : DB) : DB * Response :=
  authenticated (fun req => smartAssignTask env req id clientVersion)
                authHeader ip userAgent db.

End Authentication.

(** A verifier that knows one token, Bob's. *)
Definition sampleJwt (token : string) : Verified :=
  if String.eqb token "bob-token" then Decoded (Some 2%nat)
  else JsonWebTokenError.

(** ** Validity and ranges *)

(** The stored task passes the validators of the schema at the instant
    [now]: a [save] that leaves the validated paths alone goes through. *)
Definition valid (now : Date) (t : Task.doc) : Prop :=
  Task.validate false now t t = None.

(** A fraction is a double of the interval from 0 to 1, 1 excluded: its
    significand has at most 53 bits, its value is below 1 and a multiple
    of the least positive double, [2 ^ -1074]. *)
Definition properFraction (f : Fraction) : Prop :=
  0 <= mantissa f < 2 ^ 53 /\ mantissa f < 2 ^ shift f
  /\ 0 <= shift f <= 1074.

(** An array holds fewer than [2 ^ 32] elements. *)
Definition arrayLength (n : nat) : Prop := Z.of_nat n < 2 ^ 32.

(** The sample board when Alice holds tasks 10 and 11: Bob and Carol
    share the least load. *)
Definition busyBoard : DB :=
  mkDB (<[10%nat := Task.set_assignedTo (Some 1%nat) T1]>
          (<[11%nat := Task.set_assignedTo (Some 1%nat) T2]> (tasks board)))
       (users board) [].



(** * Properties *)

(** ** Sums and products of doubles *)

Lemma pow53 : 2 ^ 53 = MAX_SAFE_INTEGER + 1.
Proof. reflexivity. Qed.

Lemma roundToDouble_small z :
  Z.abs z <= MAX_SAFE_INTEGER + 1 -> roundToDouble z = z.
Proof.
  intros H. unfold roundToDouble. cbv zeta.
  apply Z.leb_le in H. rewrite H. reflexivity.
Qed.

Lemma Number_add_safe x :
  isSafeInteger x = true -> Number_add x 1 = x + 1.
Proof.
  unfold isSafeInteger. intros H.
  apply andb_prop in H as [H1 H2]. apply Z.leb_le in H1, H2.
  apply roundToDouble_small. unfold MAX_SAFE_INTEGER in *. lia.
Qed.

(** At [2 ^ 53] one more is no double: the sum rounds back. *)
Lemma Number_add_stuck :
  Number_add (MAX_SAFE_INTEGER + 1) 1 = MAX_SAFE_INTEGER + 1.
Proof. reflexivity. Qed.

(** The shape of a rounded integer above [2 ^ 53]: the quotient by the
    unit in the last place, or the quotient plus one. *)
Lemma roundToDouble_large P :
  MAX_SAFE_INTEGER + 1 < P ->
  exists e q r,
    1 <= e /\ P = q * 2 ^ e + r /\ 0 <= r < 2 ^ e
    /\ 2 ^ 52 <= q < 2 ^ 53
    /\ (roundToDouble P = q * 2 ^ e \/ roundToDouble P = (q + 1) * 2 ^ e)
    /\ (2 * r < 2 ^ e -> roundToDouble P = q * 2 ^ e).
Proof.
  intros HP. assert (0 < P) as Hpos by (unfold MAX_SAFE_INTEGER in HP; lia).
  unfold roundToDouble. cbv zeta.
  rewrite (Z.abs_eq P) by lia.
  destruct (P <=? MAX_SAFE_INTEGER + 1) eqn:Hle;
    [apply Z.leb_le in Hle; lia|].
  rewrite (Z.sgn_pos P) by lia. rewrite Z.mul_1_l.
  destruct (Z.log2_spec P Hpos) as [Hlo Hhi].
  assert (53 <= Z.log2 P) as Hl.
  { change 53 with (Z.log2 (2 ^ 53)). apply Z.log2_le_mono.
    rewrite pow53. lia. }
  set (e := Z.log2 P - 52) in *.
  assert (Z.log2 P = 52 + e) as HlP by (subst e; lia).
  assert (0 < 2 ^ e) as Hulp by (apply Z.pow_pos_nonneg; lia).
  rewrite HlP in Hlo. rewrite Z.pow_add_r in Hlo by lia.
  replace (Z.succ (Z.log2 P)) with (53 + e) in Hhi by lia.
  rewrite Z.pow_add_r in Hhi by lia.
  pose proof (Z.div_mod P (2 ^ e) ltac:(lia)) as Hdm.
  pose proof (Z.mod_pos_bound P (2 ^ e) Hulp) as Hr.
  set (q := P / 2 ^ e) in *. set (r := P mod 2 ^ e) in *.
  exists e, q, r.
  assert (2 ^ 52 <= q < 2 ^ 53) as Hq.
  { change (2 ^ 52) with 4503599627370496 in *.
    change (2 ^ 53) with 9007199254740992 in *. nia. }
  split; [lia|]. split; [lia|]. split; [lia|]. split; [exact Hq|].
  split.
  - destruct (2 * r ?= 2 ^ e); [destruct (Z.even q)|..]; auto.
  - intros Hlt. apply Z.compare_lt_iff in Hlt. rewrite Hlt. reflexivity.
Qed.

(** Rounding does not fall below an integer of at most 53 bits, scaled. *)
Lemma roundToDouble_ge k s P :
  0 <= k <= MAX_SAFE_INTEGER + 1 -> 0 <= s ->
  k * 2 ^ s <= P -> k * 2 ^ s <= roundToDouble P.
Proof.
  intros Hk Hs HK.
  assert (0 < 2 ^ s) as H2s by (apply Z.pow_pos_nonneg; lia).
  destruct (Z.le_gt_cases P (MAX_SAFE_INTEGER + 1)) as [Hsmall|Hlarge].
  { rewrite roundToDouble_small; [done|]. rewrite Z.abs_eq; [done|nia]. }
  destruct (roundToDouble_large P Hlarge)
    as (e & q & r & He & HP & Hr & Hq & HR & _).
  assert (0 < 2 ^ e) as H2e by (apply Z.pow_pos_nonneg; lia).
  assert (k * 2 ^ s <= q * 2 ^ e) as Hgoal.
  { destruct (Z.le_gt_cases e s) as [Hes|Hes].
    - replace s with ((s - e) + e) in * by lia.
      rewrite Z.pow_add_r in * by lia.
      assert (0 < 2 ^ (s - e)) by (apply Z.pow_pos_nonneg; lia).
      assert (k * 2 ^ (s - e) < q + 1) by nia.
      nia.
    - assert (2 ^ e = 2 ^ (e - s - 1) * 2 * 2 ^ s) as E.
      { replace e with ((e - s - 1) + 1 + s) at 1 by lia.
        rewrite !Z.pow_add_r by lia. reflexivity. }
      assert (0 < 2 ^ (e - s - 1)) by (apply Z.pow_pos_nonneg; lia).
      rewrite E. set (A := 2 ^ (e - s - 1)) in *. set (B := 2 ^ s) in *.
      change (2 ^ 52) with 4503599627370496 in *.
      unfold MAX_SAFE_INTEGER in *.
      assert (k <= q * A * 2) as Hk2 by nia.
      replace (q * (A * 2 * B)) with (q * A * 2 * B) by ring.
      apply Z.mul_le_mono_nonneg_r; lia. }
  destruct HR as [-> | ->]; [exact Hgoal|].
  rewrite Z.mul_add_distr_r. lia.
Qed.

(** Rounding stays below an integer of at most 53 bits, scaled, from
    which the argument is a relative [2 ^ -53] away. *)
Lemma roundToDouble_lt k s P :
  1 <= k <= MAX_SAFE_INTEGER + 1 -> 0 <= s -> 0 <= P ->
  2 ^ 53 * P <= (2 ^ 53 - 1) * (k * 2 ^ s) ->
  roundToDouble P < k * 2 ^ s.
Proof.
  intros Hk Hs HP0 Hrel.
  assert (0 < 2 ^ s) as H2s by (apply Z.pow_pos_nonneg; lia).
  change (2 ^ 53) with 9007199254740992 in Hrel.
  assert (P < k * 2 ^ s) as HPK by nia.
  destruct (Z.le_gt_cases P (MAX_SAFE_INTEGER + 1)) as [Hsmall|Hlarge].
  { rewrite roundToDouble_small; [done|]. rewrite Z.abs_eq; [done|lia]. }
  destruct (roundToDouble_large P Hlarge)
    as (e & q & r & He & HP & Hr & Hq & HR & Hdown).
  assert (0 < 2 ^ e) as H2e by (apply Z.pow_pos_nonneg; lia).
  change (2 ^ 52) with 4503599627370496 in *.
  change (2 ^ 53) with 9007199254740992 in *.
  assert (e <= s) as Hes.
  { destruct (Z.le_gt_cases e s) as [|Hgt]; [done|exfalso].
    assert (2 ^ e = 2 ^ (e - s - 1) * 2 * 2 ^ s) as E.
    { replace e with ((e - s - 1) + 1 + s) at 1 by lia.
      rewrite !Z.pow_add_r by lia. reflexivity. }
    assert (0 < 2 ^ (e - s - 1)) by (apply Z.pow_pos_nonneg; lia).
    unfold MAX_SAFE_INTEGER in *. nia. }
  assert (2 ^ s = 2 ^ (s - e) * 2 ^ e) as E
    by (rewrite <- Z.pow_add_r by lia; f_equal; lia).
  assert (0 < 2 ^ (s - e)) by (apply Z.pow_pos_nonneg; lia).
  set (c := k * 2 ^ (s - e)).
  assert (k * 2 ^ s = c * 2 ^ e) as HKc by (subst c; rewrite E; ring).
  rewrite HKc in *.
  assert (q < c) as Hqc by nia.
  destruct (Z.eq_dec q (c - 1)) as [Hq1|Hq1].
  - rewrite Hdown; [nia|]. nia.
  - destruct HR as [-> | ->]; nia.
Qed.


(** ** Saving *)

Lemma save_inr isNew now id l c ts d ts' :
  Task.save isNew now id l c ts = inr (d, ts') ->
  d = Task.preSave isNew now l c /\ ts' = <[id := d]> ts.
Proof.
  unfold Task.save. destruct (Task.validate _ _ _ _); [discriminate|].
  destruct (_ && _)%bool; [discriminate|].
  intros [= <- <-]. done.
Qed.

Lemma preSave_loaded now l c :
  Task.preSave false now l c =
  if decide (c = l) then l
  else Task.set_lastModified now
         (Task.set_version (Number_add (Task.version c) 1) c).
Proof.
  unfold Task.preSave, Task.isModified.
  destruct (decide (c = l)) as [->|Hne].
  - rewrite bool_decide_eq_false_2; [done|]. intros H; by apply H.
  - rewrite bool_decide_eq_true_2; done.
Qed.

(** Validation reads five paths of the current document, and the
    clock. *)
Lemma validate_paths isNew isNew' now l l' c c' :
  Task.title c = Task.title c' ->
  Task.description c = Task.description c' ->
  Task.dueDate c = Task.dueDate c' -> Task.tags c = Task.tags c' ->
  Task.comments c = Task.comments c' ->
  Task.validate isNew now l c = Task.validate isNew' now l' c'.
Proof.
  intros H1 H2 H3 H4 H5. unfold Task.validate.
  by rewrite H1, H2, H3, H4, H5.
Qed.

Lemma findLive_Some id db t :
  findLive id db = Some t ->
  tasks db !! id = Some t /\ Task.isArchived t = false.
Proof.
  unfold findLive. destruct (tasks db !! id) as [u|]; [|discriminate].
  destruct (Task.isArchived u) eqn:Ha; [discriminate|].
  intros [= <-]. done.
Qed.

Lemma findLive_intro id db t :
  tasks db !! id = Some t -> Task.isArchived t = false ->
  findLive id db = Some t.
Proof. unfold findLive. intros -> ->. done. Qed.

(** ** The conflict check *)


Lemma conflictCheck_true v t :
  conflictCheck v t = true <->
  exists n, v = Some n /\ n <> 0 /\ n < Task.version t.
Proof.
  unfold conflictCheck, truthy, Task.hasConflict. split.
  - destruct v as [n|]; [|discriminate].
    intros [Hn Hlt]%andb_true_iff. exists n.
    apply negb_true_iff, Z.eqb_neq in Hn. apply Z.ltb_lt in Hlt. done.
  - intros (n & -> & Hn & Hlt). apply andb_true_iff. split.
    + by apply negb_true_iff, Z.eqb_neq.
    + by apply Z.ltb_lt.
Qed.

Lemma conflictCheck_false_version v t n :
  conflictCheck v t = false -> v = Some n -> n <> 0 -> Task.version t <= n.
Proof.
  intros Hc -> Hn. destruct (Z.lt_ge_cases n (Task.version t)) as [Hlt|]; [|done].
  assert (conflictCheck (Some n) t = true) as Ht
    by (apply conflictCheck_true; eauto).
  congruence.
Qed.

(** ** What follows the conflict check never answers 409 *)


(** Each handler is its conflict check followed by [applied]. *)
Lemma handle_unfold (R : string -> option (string -> bool)) env req id m db t :
  findLive id db = Some t ->
  handle R env req id m db =
  if conflictCheck (clientVersionOf m) t
  then (match m with
        | Update _ =>
            with_activity
              (activityOf req Activity.conflict_detected (Some id)
                 (Activity.mkDetails (Some (Task.title t)) None None None
                    (Some "Unknown"%string) None)
                 Activity.sev_medium (Some (randomUUID env)) (Some false)) db
        | _ => db
        end,
        replyConflict (match m with
                       | Update _ => conflictOfUpdate (clientVersionOf m) t
                       | _ => conflictOf (clientVersionOf m) t
                       end))
  else applied R env req id m t db.
Proof.
  intros Hlive. destruct m as [b|b|b|v]; simpl.
  - unfold updateTask, updateTask_try. rewrite Hlive.
    destruct (conflictCheck _ _); done.
  - unfold moveTask, moveTask_try. rewrite Hlive.
    destruct (conflictCheck _ _); done.
  - unfold assignTask, assignTask_try. rewrite Hlive.
    destruct (conflictCheck _ _); done.
  - unfold smartAssignTask, smartAssignTask_try. rewrite Hlive.
    destruct (conflictCheck _ _); done.
Qed.

(** ** Stale updates *)

(** What [updateTask] does with a stale truthy version, for every request:
    it answers 409 with a four-key [conflict] object and leaves the tasks
    alone; the conflict id goes to the activity log only. *)
Lemma updateTask_stale (R : string -> option (string -> bool))
    env req id b db t n :
  findLive id db = Some t ->
  u_version b = Some n -> n <> 0 -> n < Task.version t ->
  exists a,
    updateTask R env req id b db
    = (with_activity a db, replyConflict (conflictOfUpdate (Some n) t))
    /\ Activity.d_action a = Activity.conflict_detected
    /\ Activity.d_conflictId a = Some (randomUUID env)
    /\ Activity.d_isResolved a = Some false.
Proof.
  intros Hlive Hv Hn Hlt.
  pose proof (handle_unfold R env req id (Update b) db t Hlive) as H.
  simpl in H. rewrite H.
  assert (conflictCheck (u_version b) t = true) as ->
    by (apply conflictCheck_true; eauto).
  rewrite Hv. eexists. split; [reflexivity|]. done.
Qed.

(** C1. A stale update on the sample board: Bob sends version 2 for task
    10, which stands at version 3.  The reply is a 409 whose [conflict]
    object has the keys [clientVersion], [serverVersion], [serverTask] and
    [lastModifiedBy] and no [conflictId]; the identifier [randomUUID]
    returned is stored in the logged [conflict_detected] activity, whose
    [isResolved] is [false]; the tasks are untouched. *)
Theorem C1_conflict_reply_lacks_conflictId :
  let r := updateTask sampleRegExp sampleEnv (asUser bob) 10
             (withVersion 2 (withPriority high emptyUpdate)) board in
  statusCode r.2 = 409%nat
  /\ keys (conflict r.2)
     = ["clientVersion"; "serverVersion"; "serverTask"; "lastModifiedBy"]%string
  /\ ~ In "conflictId"%string (keys (conflict r.2))
  /\ tasks r.1 = tasks board
  /\ map (fun a => (Activity.action a, Activity.conflictId a, Activity.isResolved a))
         (activities r.1)
     = [(Activity.conflict_detected, Some (randomUUID sampleEnv), false)].
Proof.
  vm_compute. repeat split; try reflexivity.
  intros H. repeat (destruct H as [H|H]; [discriminate H|]). exact H.
Qed.

(** ** Smart assign without active users *)

Lemma findUserWithFewestTasks_none random us ts :
  User.findActiveUsers us = [] ->
  Task.findUserWithFewestTasks random us ts = inl (Error "No active users found").
Proof. unfold Task.findUserWithFewestTasks. intros ->. done. Qed.

(** C8, as the code has it. When no user is active, [smartAssignTask] on a
    live task that passes the version check answers with the reply of its
    [catch] block, status 500 and message [Error in smart assign], which is
    the reply every other thrown error gets and does not read as
    [NoEligibleUser]; the database is left as it was. *)
Theorem C8_no_active_user_is_a_generic_500 env req id v db t :
  findLive id db = Some t ->
  conflictCheck v t = false ->
  User.findActiveUsers (users db) = [] ->
  smartAssignTask env req id v db = (db, reply 500 "Error in smart assign")
  /\ (forall e, smartAssignTask_catch e = reply 500 "Error in smart assign")
  /\ failureKind (smartAssignTask env req id v db).2 = Some Internal.
Proof.
  intros Hlive Hc Hnone.
  assert (smartAssignTask env req id v db
          = (db, reply 500 "Error in smart assign")) as Heq.
  { unfold smartAssignTask, smartAssignTask_try. rewrite Hlive, Hc.
    unfold smartAssignTask_apply.
    by rewrite findUserWithFewestTasks_none. }
  rewrite Heq. done.
Qed.

Lemma C8_witness :
  findLive 10 idleBoard = Some T1
  /\ conflictCheck (Some 3) T1 = false
  /\ User.findActiveUsers (users idleBoard) = []
  /\ smartAssignTask sampleEnv (asUser alice) 10 (Some 3) idleBoard
     = (idleBoard, reply 500 "Error in smart assign").
Proof.
  assert (findLive 10 idleBoard = Some T1) as H1 by (vm_compute; reflexivity).
  assert (conflictCheck (Some 3) T1 = false) as H2 by reflexivity.
  assert (User.findActiveUsers (users idleBoard) = []) as H3
    by (vm_compute; reflexivity).
  split; [exact H1|]. split; [exact H2|]. split; [exact H3|].
  exact (proj1 (C8_no_active_user_is_a_generic_500 sampleEnv (asUser alice)
                  10%nat (Some 3) idleBoard T1 H1 H2 H3)).
Defined.

(** The specification asks for a reply of kind [NoEligibleUser]; on the idle board
    the reply is of kind [Internal]. *)
Lemma C8_counterexample :
  User.findActiveUsers (users idleBoard) = []
  /\ failureKind (smartAssignTask sampleEnv (asUser alice) 10 (Some 3) idleBoard).2
     <> Some NoEligibleUser.
Proof. split; [vm_compute; reflexivity|]. vm_compute. discriminate. Qed.

(** ** Archive and delete *)

(** A save that touches none of the validated paths passes validation
    when the stored document does. *)
Lemma validate_untouched now l c :
  valid now l ->
  Task.title c = Task.title l -> Task.description c = Task.description l ->
  Task.dueDate c = Task.dueDate l -> Task.tags c = Task.tags l ->
  Task.comments c = Task.comments l ->
  Task.validate false now l c = None.
Proof.
  intros Hv H1 H2 H3 H4 H5.
  by rewrite (validate_paths false false now l l c l).
Qed.

(** [deleteTask] refuses whoever is neither the creator nor an admin, and
    leaves the database as it was. *)
Lemma deleteTask_forbidden env req id db t :
  findLive id db = Some t ->
  Task.createdBy t <> User._id (user req) ->
  User.role (user req) <> "admin"%string ->
  deleteTask env req id db
  = (db, reply 403 "You can only delete tasks you created").
Proof.
  intros Hlive Hc Hr. unfold deleteTask. rewrite Hlive.
  rewrite bool_decide_eq_false_2 by done.
  apply String.eqb_neq in Hr. by rewrite Hr.
Qed.

(** [deleteTask] removes the task for its creator and for an admin. *)
Lemma deleteTask_allowed env req id db t :
  findLive id db = Some t ->
  Task.createdBy t = User._id (user req)
  \/ User.role (user req) = "admin"%string ->
  statusCode (deleteTask env req id db).2 = 200%nat
  /\ tasks (deleteTask env req id db).1 = delete id (tasks db).
Proof.
  intros Hlive Hwho. unfold deleteTask. rewrite Hlive.
  destruct Hwho as [Hc|Hr].
  - rewrite bool_decide_eq_true_2 by done. done.
  - apply String.eqb_eq in Hr. rewrite Hr, andb_false_r. done.
Qed.

(** [archiveTask] archives a live task that passes validation for every
    actor: the request user enters only as [archivedBy]. *)
Lemma archiveTask_any_actor env req id db t :
  findLive id db = Some t ->
  valid (now env) t ->
  statusCode (archiveTask env req id db).2 = 200%nat
  /\ tasks (archiveTask env req id db).1 !! id
     = Some (Task.set_lastModified (now env)
              (Task.set_version (Number_add (Task.version t) 1)
                (Task.set_archivedBy (Some (User._id (user req)))
                  (Task.set_archivedAt (Some (now env))
                    (Task.set_isArchived true t))))).
Proof.
  intros Hlive Hvalid. destruct (findLive_Some id db t Hlive) as [_ Harch].
  unfold archiveTask. rewrite Hlive. unfold Task.archive, Task.save.
  rewrite validate_untouched by done. simpl.
  rewrite preSave_loaded. destruct (decide _) as [Heq|_].
  - apply (f_equal Task.isArchived) in Heq. simpl in Heq. congruence.
  - split; [done|]. by rewrite lookup_insert_eq.
Qed.

(** C9. Bob is a member and did not create task 10.  [deleteTask] refuses
    him with 403 and leaves the database alone; [archiveTask] has no such
    check: it answers 200 and the task is archived under his id. *)
Theorem C9_archive_skips_the_owner_check :
  User.role bob <> "admin"%string
  /\ Task.createdBy T1 <> User._id bob
  /\ deleteTask sampleEnv (asUser bob) 10 board
     = (board, reply 403 "You can only delete tasks you created")
  /\ statusCode (archiveTask sampleEnv (asUser bob) 10 board).2 = 200%nat
  /\ (tasks (archiveTask sampleEnv (asUser bob) 10 board).1 !! 10%nat)
     = Some (Task.set_lastModified 200
              (Task.set_version 4
                (Task.set_archivedBy (Some 2%nat)
                  (Task.set_archivedAt (Some 200)
                    (Task.set_isArchived true T1))))).
Proof.
  split; [discriminate|]. split; [discriminate|].
  split; [vm_compute; reflexivity|].
  split; vm_compute; reflexivity.
Qed.

(** ** What a successful mutation writes *)

Lemma tasks_with_activity a db : tasks (with_activity a db) = tasks db.
Proof. reflexivity. Qed.

Lemma lookup_updateMany_inc id st pos ts k :
  updateMany_inc id st pos ts !! k =
  (fun t => if shifts id st pos k t
            then Task.set_position (Number_add (Task.position t) 1) t
            else t) <$> ts !! k.
Proof.
  unfold updateMany_inc. rewrite map_lookup_imap.
  destruct (ts !! k); done.
Qed.

Lemma shifts_self id st pos t : shifts id st pos id t = false.
Proof. unfold shifts. by rewrite bool_decide_eq_true_2. Qed.

Lemma version_Object_assign b t :
  Task.version (Object_assign b t) = default (Task.version t) (u_version b).
Proof.
  destruct b as [o1 o2 o3 o4 o5 o6 o7 o8 o9]; unfold Object_assign; simpl.
  destruct o9; simpl; [reflexivity|].
  destruct o1, o2, o3, o4, o5, o6, o7, o8; reflexivity.
Qed.

Lemma version_written env req m sel t :
  Task.version (written env req m sel t) = versionBase m t.
Proof. destruct m; simpl; [apply version_Object_assign|done..]. Qed.

(** A mutation answered with 200 saved [written] through the hook, and the
    reply carries the saved document. *)
Lemma applied_200 (R : string -> option (string -> bool))
    env req id m t db db' resp :
  applied R env req id m t db = (db', resp) ->
  statusCode resp = 200%nat ->
  exists sel,
    let t' := Task.preSave false (now env) t (written env req m sel t) in
    tasks db' !! id = Some t' /\ task resp = Some t'
    /\ assignedUser resp = match m with SmartAssign _ => sel | _ => None end.
Proof.
  destruct m as [b|b|b|v]; simpl.
  - unfold updateTask_apply.
    destruct (match u_title b with Some _ => _ | None => _ end) as [e|[|]];
      [destruct e; intros [= <- <-]; discriminate| |intros [= <- <-]; discriminate].
    destruct (negb _); [intros [= <- <-]; discriminate|].
    destruct (Task.save _ _ _ _ _ _) as [e|[t' ts]] eqn:Hs;
      [destruct e; intros [= <- <-]; discriminate|].
    apply save_inr in Hs as [-> ->]. intros [= <- <-] _. exists None.
    simpl. rewrite lookup_insert_eq. done.
  - unfold moveTask_apply.
    destruct (Task.save _ _ _ _ _ _) as [e|[t' ts]] eqn:Hs;
      [intros [= <- <-]; discriminate|].
    apply save_inr in Hs as [-> ->]. intros [= <- <-] _. exists None.
    simpl. rewrite lookup_updateMany_inc, lookup_insert_eq. simpl.
    rewrite shifts_self. done.
  - unfold assignTask_apply.
    destruct (activeUser _ _); [|intros [= <- <-]; discriminate].
    destruct (Task.save _ _ _ _ _ _) as [e|[t' ts]] eqn:Hs;
      [intros [= <- <-]; discriminate|].
    apply save_inr in Hs as [-> ->]. intros [= <- <-] _. exists None.
    simpl. rewrite lookup_insert_eq. done.
  - unfold smartAssignTask_apply.
    destruct (Task.findUserWithFewestTasks _ _ _) as [e|u];
      [intros [= <- <-]; discriminate|].
    destruct (Task.save _ _ _ _ _ _) as [e|[t' ts]] eqn:Hs;
      [intros [= <- <-]; discriminate|].
    apply save_inr in Hs as [-> ->]. intros [= <- <-] _. exists (Some u).
    simpl. rewrite lookup_insert_eq. done.
Qed.

(** A request answered with 200 passed its schema and its conflict
    check. *)
Lemma request_200 (R : string -> option (string -> bool))
    env req id m db db' resp t :
  findLive id db = Some t ->
  request R env req id m db = (db', resp) ->
  statusCode resp = 200%nat ->
  applied R env req id m t db = (db', resp)
  /\ conflictCheck (clientVersionOf m) t = false
  /\ (forall b, m = Update b -> forall n, u_version b = Some n ->
        1 <= n /\ isSafeInteger n = true).
Proof.
  intros Hlive Hreq Hcode.
  assert (handle R env req id m db = (db', resp)
          /\ (forall b, m = Update b -> forall n, u_version b = Some n ->
                1 <= n /\ isSafeInteger n = true))
    as [Hh Hv].
  { destruct m as [b|b|b|v]; simpl in Hreq |- *.
    - unfold PUT_task, route, Joi.update in Hreq.
      destruct (_ && _)%bool eqn:Hj; [|injection Hreq as <- <-; discriminate].
      split; [done|]. intros ? [= <-] n Hn.
      apply andb_true_iff in Hj as [_ Hj]. rewrite Hn in Hj. simpl in Hj.
      unfold Joi.integer in Hj. apply andb_true_iff in Hj as [Hlo Hsafe].
      split; [by apply Z.leb_le|done].
    - unfold PUT_task_move, route in Hreq.
      destruct (Joi.move b) as [b'|] eqn:Hj;
        [|injection Hreq as <- <-; discriminate].
      assert (b' = b) as ->.
      { unfold Joi.move in Hj. destruct (m_version b); [|discriminate].
        destruct (_ && _)%bool; congruence. }
      split; [done|]. discriminate.
    - unfold PUT_task_assign, route in Hreq.
      destruct (Joi.assign b) as [b'|] eqn:Hj;
        [|injection Hreq as <- <-; discriminate].
      assert (b' = b) as ->.
      { unfold Joi.assign in Hj. destruct (a_version b); [|discriminate].
        destruct (Joi.integer _ _); congruence. }
      split; [done|]. discriminate.
    - split; [done|]. discriminate. }
  rewrite (handle_unfold R env req id m db t Hlive) in Hh.
  destruct (conflictCheck _ _); [|done].
  injection Hh as <- <-. discriminate.
Qed.

(** C2, as the code has it. Take a live task [t] and an update, move,
    assign or smart-assign request on it that is answered with 200.  Then
    either the task is stored exactly as it was (the handler wrote only
    values equal to the stored ones, so the hook did not run), or its
    version is the sum, as doubles, of 1 and the version the handler held
    (the stored one, or the one an update body carried).  An update made
    at an instant other than the stored [lastModified] always falls in
    the second case.  In the second case the version is strictly greater
    than before when the stored version is a safe integer, or when the
    body of the update carried a version; a version that has reached
    [2 ^ 53] stays there, one more being no double. *)
Theorem C2_version_grows_when_the_task_changes
    (R : string -> option (string -> bool)) env req id m db db' resp t :
  findLive id db = Some t ->
  request R env req id m db = (db', resp) ->
  statusCode resp = 200%nat ->
  exists t',
    tasks db' !! id = Some t'
    /\ (t' = t \/ Task.version t' = Number_add (versionBase m t) 1)
    /\ ((exists b, m = Update b) -> Task.lastModified t <> now env ->
        t' <> t)
    /\ (t' <> t ->
        isSafeInteger (Task.version t) = true
        \/ (exists b n, m = Update b /\ u_version b = Some n) ->
        Task.version t < Task.version t')
    /\ (t' <> t -> Task.version t = MAX_SAFE_INTEGER + 1 ->
        Task.version t' = Task.version t).
Proof.
  intros Hlive Hreq Hcode.
  destruct (request_200 R env req id m db db' resp t Hlive Hreq Hcode)
    as (Happ & Hc & Hjoi).
  destruct (applied_200 R env req id m t db db' resp Happ Hcode)
    as (sel & Hlook & _).
  simpl in Hlook. rewrite preSave_loaded in Hlook.
  destruct (decide (written env req m sel t = t)) as [Heq|Hne].
  { exists t. split; [done|]. split; [by left|].
    split; [|split; intros Hne; by destruct Hne].
    intros [b ->] Hclock Hsame. apply Hclock.
    rewrite <- Heq at 1. reflexivity. }
  eexists. split; [exact Hlook|]. simpl. rewrite version_written.
  split; [by right|]. split.
  { intros [b ->] Hclock Hsame. apply Hclock.
    apply (f_equal Task.lastModified) in Hsame. simpl in Hsame. done. }
  destruct m as [b|b|b|v]; simpl.
  - destruct (u_version b) as [n|] eqn:Hn; simpl.
    + destruct (Hjoi b eq_refl n Hn) as [Hn1 Hsafe].
      assert (Task.version t <= n) as Hle
        by (apply (conflictCheck_false_version (u_version b) t n);
            [done|done|lia]).
      rewrite Number_add_safe by done.
      split; [intros _ _; lia|].
      intros _ Hmax. unfold isSafeInteger in Hsafe.
      apply andb_true_iff in Hsafe as [_ Hhi]. apply Z.leb_le in Hhi. lia.
    + split.
      * intros _ [Hsafe|(b' & n & [= <-] & Hn')]; [|congruence].
        rewrite Number_add_safe by done. lia.
      * intros _ ->. reflexivity.
  - split.
    + intros _ [Hsafe|(b' & n & [=] & _)].
      rewrite Number_add_safe by done. lia.
    + intros _ ->. reflexivity.
  - split.
    + intros _ [Hsafe|(b' & n & [=] & _)].
      rewrite Number_add_safe by done. lia.
    + intros _ ->. reflexivity.
  - split.
    + intros _ [Hsafe|(b' & n & [=] & _)].
      rewrite Number_add_safe by done. lia.
    + intros _ ->. reflexivity.
Qed.

Lemma C2_witness :
  findLive 10 board = Some T1
  /\ statusCode (request sampleRegExp sampleEnv (asUser bob) 10
                   bobRaisesPriority board).2 = 200%nat
  /\ exists t',
       tasks (request sampleRegExp sampleEnv (asUser bob) 10
                bobRaisesPriority board).1 !! 10%nat = Some t'
       /\ (t' = T1
           \/ Task.version t' = Number_add (versionBase bobRaisesPriority T1) 1).
Proof.
  assert (findLive 10 board = Some T1) as H1 by (vm_compute; reflexivity).
  assert (statusCode (request sampleRegExp sampleEnv (asUser bob) 10
                        bobRaisesPriority board).2 = 200%nat) as H2
    by (vm_compute; reflexivity).
  split; [exact H1|]. split; [exact H2|].
  destruct (C2_version_grows_when_the_task_changes sampleRegExp sampleEnv
              (asUser bob) 10%nat bobRaisesPriority board _ _ T1 H1
              (surjective_pairing _) H2) as (t' & Hl & Hv & _).
  exists t'. split; [exact Hl|exact Hv].
Defined.

(** Alice, who last modified task 10, moves it to the place it already
    has: the request is answered with 200 and the version stays at 3. *)
Lemma C2_counterexample :
  findLive 10 board = Some T1
  /\ statusCode (request sampleRegExp sampleEnv (asUser alice) 10
                   (Move (mkMoveBody todo 0 (Some 3))) board).2 = 200%nat
  /\ exists t',
       tasks (request sampleRegExp sampleEnv (asUser alice) 10
                (Move (mkMoveBody todo 0 (Some 3))) board).1 !! 10%nat
       = Some t'
       /\ ~ Task.version T1 < Task.version t'.
Proof.
  split; [vm_compute; reflexivity|]. split; [vm_compute; reflexivity|].
  exists T1. split; [vm_compute; reflexivity|]. lia.
Qed.

(** ** Comments *)

Lemma app_singleton_ne {A} (l : list A) (x : A) : l ++ [x] <> l.
Proof.
  intros H. apply (f_equal length) in H. rewrite length_app in H.
  simpl in H. lia.
Qed.

(** C3, as the code has it. A successful [addComment] on a live task
    appends the comment; the document is thereby modified, so the
    [pre('save')] hook adds 1 to the version and stamps [lastModified];
    every other field, and every other task, is as before.  The version
    goes from [v] to [v + 1] when [v] is a safe integer; the sum is one
    of doubles, and a version that has reached [2 ^ 53] stays there. *)
Theorem C3_addComment_increments_the_version env req id txt db db' resp t :
  findLive id db = Some t ->
  addComment env req id txt db = (db', resp) ->
  statusCode resp = 200%nat ->
  let c := Task.mkComment txt (User._id (user req)) (now env) in
  let t' := Task.set_lastModified (now env)
              (Task.set_version (Number_add (Task.version t) 1)
                 (Task.set_comments (Task.comments t ++ [c]) t)) in
  tasks db' = <[id := t']> (tasks db)
  /\ task resp = Some t'
  /\ Task.comments t' = Task.comments t ++ [c]
  /\ (isSafeInteger (Task.version t) = true ->
      Task.version t' = Task.version t + 1)
  /\ (Task.version t = MAX_SAFE_INTEGER + 1 ->
      Task.version t' = Task.version t).
Proof.
  intros Hlive Hadd Hcode c t'.
  unfold addComment in Hadd. rewrite Hlive in Hadd.
  unfold Task.addComment in Hadd.
  destruct (Task.save _ _ _ _ _ _) as [e|[d ts]] eqn:Hs;
    [injection Hadd as <- <-; discriminate|].
  apply save_inr in Hs as [-> ->]. injection Hadd as <- <-.
  rewrite preSave_loaded.
  destruct (decide _) as [Heq|_].
  - apply (f_equal Task.comments) in Heq. simpl in Heq.
    by apply app_singleton_ne in Heq.
  - split; [done|]. split; [done|]. split; [done|]. subst t'. simpl. split.
    + intros Hsafe. by apply Number_add_safe.
    + intros ->. reflexivity.
Qed.

Lemma C3_witness :
  findLive 10 board = Some T1
  /\ statusCode (addComment sampleEnv (asUser bob) 10 "Looks good" board).2
     = 200%nat
  /\ tasks (addComment sampleEnv (asUser bob) 10 "Looks good" board).1
     = <[10%nat :=
           Task.set_lastModified 200
             (Task.set_version 4
                (Task.set_comments [Task.mkComment "Looks good" 2 200] T1))]>
         (tasks board).
Proof.
  assert (findLive 10 board = Some T1) as H1 by (vm_compute; reflexivity).
  assert (statusCode (addComment sampleEnv (asUser bob) 10 "Looks good" board).2
          = 200%nat) as H2 by (vm_compute; reflexivity).
  split; [exact H1|]. split; [exact H2|].
  exact (proj1 (C3_addComment_increments_the_version sampleEnv (asUser bob)
                  10%nat "Looks good" board _ _ T1 H1
                  (surjective_pairing _) H2)).
Defined.

(** Task 10 stands at version 3; after Bob's comment it stands at 4. *)
Lemma C3_counterexample :
  findLive 10 board = Some T1
  /\ statusCode (addComment sampleEnv (asUser bob) 10 "Looks good" board).2
     = 200%nat
  /\ Task.version
       <$> tasks (addComment sampleEnv (asUser bob) 10 "Looks good" board).1
           !! 10%nat
     <> Some (Task.version T1).
Proof.
  split; [vm_compute; reflexivity|]. split; [vm_compute; reflexivity|].
  vm_compute. discriminate.
Qed.

(** ** Moves *)

Lemma shifts_true id st pos k u :
  shifts id st pos k u = true <->
  k <> id /\ Task.status u = st /\ pos <= Task.position u
  /\ Task.isArchived u = false.
Proof.
  unfold shifts. rewrite !andb_true_iff, !negb_true_iff, !bool_decide_eq_false,
    bool_decide_eq_true, Z.leb_le. tauto.
Qed.

Lemma shifted_status id st pos k u :
  Task.status (shifted id st pos k u) = Task.status u.
Proof. unfold shifted. by destruct (shifts _ _ _ _ _). Qed.

Lemma shifted_isArchived id st pos k u :
  Task.isArchived (shifted id st pos k u) = Task.isArchived u.
Proof. unfold shifted. by destruct (shifts _ _ _ _ _). Qed.

Lemma shifted_version id st pos k u :
  Task.version (shifted id st pos k u) = Task.version u.
Proof. unfold shifted. by destruct (shifts _ _ _ _ _). Qed.

(** In the target column, a live task other than the moved one, at a safe
    position, ends strictly after the target position or strictly before
    it. *)
Lemma shifted_position id st pos k u :
  (Task.status u = st -> Task.isArchived u = false ->
   isSafeInteger (Task.position u) = true) ->
  (shifts id st pos k u = true
   /\ Task.position (shifted id st pos k u) = Task.position u + 1
   /\ pos < Task.position (shifted id st pos k u))
  \/ (shifts id st pos k u = false
      /\ Task.position (shifted id st pos k u) = Task.position u
      /\ (k <> id -> Task.status u = st -> Task.isArchived u = false ->
          Task.position u < pos)).
Proof.
  intros Hsafe. unfold shifted. destruct (shifts id st pos k u) eqn:Hs.
  - left. apply shifts_true in Hs as (Hk & Hst & Hpos & Ha). simpl.
    rewrite Number_add_safe by auto. split; [done|]. lia.
  - right. split; [done|]. split; [done|]. intros Hk Hst Ha.
    destruct (Z.lt_ge_cases (Task.position u) pos) as [|Hge]; [done|].
    assert (shifts id st pos k u = true) as Ht
      by (apply shifts_true; repeat split; try done; lia).
    congruence.
Qed.

Lemma preSave_fields now l c :
  Task.status (Task.preSave false now l c) = Task.status c
  /\ Task.position (Task.preSave false now l c) = Task.position c
  /\ Task.isArchived (Task.preSave false now l c) = Task.isArchived c.
Proof. unfold Task.preSave. by destruct (_ && _)%bool. Qed.

(** The collection after a move answered with 200. *)
Lemma moveTask_200 env req id b db db' resp t :
  findLive id db = Some t ->
  moveTask env req id b db = (db', resp) ->
  statusCode resp = 200%nat ->
  conflictCheck (m_version b) t = false
  /\ forall k,
       tasks db' !! k =
       if decide (k = id)
       then Some (Task.preSave false (now env) t
                    (written env req (Move b) None t))
       else shifted id (m_status b) (m_position b) k <$> tasks db !! k.
Proof.
  intros Hlive Hmove Hcode.
  pose proof (handle_unfold (fun _ => None) env req id (Move b) db t Hlive)
    as Hh. simpl in Hh. rewrite Hh in Hmove. clear Hh.
  destruct (conflictCheck _ _); [injection Hmove as <- <-; discriminate|].
  split; [done|]. unfold moveTask_apply in Hmove.
  destruct (Task.save _ _ _ _ _ _) as [e|[t' ts]] eqn:Hs;
    [injection Hmove as <- <-; discriminate|].
  apply save_inr in Hs as [-> ->]. injection Hmove as <- <-.
  intros k. simpl. rewrite lookup_updateMany_inc.
  destruct (decide (k = id)) as [->|Hne].
  - rewrite lookup_insert_eq. simpl. by rewrite shifts_self.
  - by rewrite lookup_insert_ne.
Qed.

(** C4, as the code has it. After a [moveTask] answered with 200 the task
    has the status and the position the body carried, unclamped; every
    other live task of the target column whose position was at or after
    that position has had 1 added to its position, which moves it one
    place down when the position is a safe integer (the sum is one of
    doubles: a position of [2 ^ 53] stays); nothing else changed, the
    source column keeps its numbering.  Where no two live tasks of a
    column shared a position before, and the positions of the target
    column are safe integers, none do after. *)
Theorem C4_move_inserts_and_shifts_the_target_column
    env req id b db db' resp t :
  findLive id db = Some t ->
  moveTask env req id b db = (db', resp) ->
  statusCode resp = 200%nat ->
  (exists t', tasks db' !! id = Some t'
              /\ Task.status t' = m_status b
              /\ Task.position t' = m_position b
              /\ Task.isArchived t' = false)
  /\ (forall k, k <> id ->
        tasks db' !! k
        = shifted id (m_status b) (m_position b) k <$> tasks db !! k)
  /\ (forall k u, k <> id -> tasks db !! k = Some u ->
        if shifts id (m_status b) (m_position b) k u
        then Task.status u = m_status b /\ Task.isArchived u = false
             /\ m_position b <= Task.position u
             /\ shifted id (m_status b) (m_position b) k u
                = Task.set_position (Number_add (Task.position u) 1) u
             /\ (isSafeInteger (Task.position u) = true ->
                 Number_add (Task.position u) 1 = Task.position u + 1)
             /\ (Task.position u = MAX_SAFE_INTEGER + 1 ->
                 Number_add (Task.position u) 1 = Task.position u)
        else shifted id (m_status b) (m_position b) k u = u)
  /\ (distinctPositions (tasks db) ->
      (forall k u, tasks db !! k = Some u -> Task.isArchived u = false ->
         Task.status u = m_status b ->
         isSafeInteger (Task.position u) = true) ->
      distinctPositions (tasks db')).
Proof.
  intros Hlive Hmove Hcode.
  destruct (moveTask_200 env req id b db db' resp t Hlive Hmove Hcode)
    as [_ Hlook].
  destruct (findLive_Some id db t Hlive) as [_ Harch].
  set (t' := Task.preSave false (now env) t (written env req (Move b) None t))
    in *.
  assert (Task.status t' = m_status b /\ Task.position t' = m_position b
          /\ Task.isArchived t' = false) as (Hst' & Hpos' & Harch').
  { subst t'. destruct (preSave_fields (now env) t
                          (written env req (Move b) None t)) as (-> & -> & ->).
    done. }
  assert (forall k, k <> id ->
            tasks db' !! k
            = shifted id (m_status b) (m_position b) k <$> tasks db !! k)
    as Hother.
  { intros k Hk. rewrite Hlook. by destruct (decide (k = id)). }
  assert (tasks db' !! id = Some t') as Hself.
  { rewrite Hlook. by destruct (decide (id = id)). }
  split; [by exists t'|]. split; [exact Hother|]. split.
  { intros k u Hk Hu. unfold shifted.
    destruct (shifts id (m_status b) (m_position b) k u) eqn:Hs; [|done].
    apply shifts_true in Hs as (_ & Hst & Hpos & Ha).
    split; [done|]. split; [done|]. split; [done|]. split; [done|]. split.
    - intros Hsafe. by apply Number_add_safe.
    - intros ->. reflexivity. }
  intros Hd Hsafe k1 k2 u1 u2 H1 H2 Ha1 Ha2 Hst Hpos.
  destruct (decide (k1 = id)) as [->|Hk1], (decide (k2 = id)) as [->|Hk2];
    [done| | |].
  - rewrite Hself in H1. injection H1 as <-.
    rewrite (Hother k2 Hk2) in H2.
    destruct (tasks db !! k2) as [v2|] eqn:E2; [|discriminate].
    injection H2 as <-.
    rewrite shifted_status in Hst. rewrite shifted_isArchived in Ha2.
    destruct (shifted_position id (m_status b) (m_position b) k2 v2)
      as [(_ & _ & Hlt)|(_ & Hsame & Hlt)];
      [intros; by eapply Hsafe|lia|].
    assert (Task.position v2 < m_position b) by (apply Hlt; congruence).
    lia.
  - rewrite Hself in H2. injection H2 as <-.
    rewrite (Hother k1 Hk1) in H1.
    destruct (tasks db !! k1) as [v1|] eqn:E1; [|discriminate].
    injection H1 as <-.
    rewrite shifted_status in Hst. rewrite shifted_isArchived in Ha1.
    destruct (shifted_position id (m_status b) (m_position b) k1 v1)
      as [(_ & _ & Hlt)|(_ & Hsame & Hlt)];
      [intros; by eapply Hsafe|lia|].
    assert (Task.position v1 < m_position b) by (apply Hlt; congruence).
    lia.
  - rewrite (Hother k1 Hk1) in H1. rewrite (Hother k2 Hk2) in H2.
    destruct (tasks db !! k1) as [v1|] eqn:E1; [|discriminate].
    destruct (tasks db !! k2) as [v2|] eqn:E2; [|discriminate].
    injection H1 as <-. injection H2 as <-.
    rewrite !shifted_status in Hst.
    rewrite shifted_isArchived in Ha1. rewrite shifted_isArchived in Ha2.
    apply (Hd k1 k2 v1 v2 E1 E2 Ha1 Ha2 Hst).
    destruct (shifted_position id (m_status b) (m_position b) k1 v1)
      as [(Hs1 & Hp1 & _)|(Hs1 & Hp1 & Hlt1)];
      [intros; by eapply Hsafe| |];
    (destruct (shifted_position id (m_status b) (m_position b) k2 v2)
      as [(Hs2 & Hp2 & _)|(Hs2 & Hp2 & Hlt2)];
      [intros; by eapply Hsafe| |]);
      try apply shifts_true in Hs1; try apply shifts_true in Hs2; try lia.
    + assert (Task.position v2 < m_position b)
        by (apply Hlt2; [done|destruct Hs1 as (_ & <- & _); done|done]).
      lia.
    + assert (Task.position v1 < m_position b)
        by (apply Hlt1; [done|destruct Hs2 as (_ & <- & _); done|done]).
      lia.
Qed.

Lemma C4_witness :
  findLive 10 board = Some T1
  /\ statusCode (moveTask sampleEnv (asUser bob) 10 moveToSeven board).2
     = 200%nat
  /\ exists t',
       tasks (moveTask sampleEnv (asUser bob) 10 moveToSeven board).1 !! 10%nat
       = Some t'
       /\ Task.status t' = todo /\ Task.position t' = 7
       /\ Task.isArchived t' = false.
Proof.
  assert (findLive 10 board = Some T1) as H1 by (vm_compute; reflexivity).
  assert (statusCode (moveTask sampleEnv (asUser bob) 10 moveToSeven board).2
          = 200%nat) as H2 by (vm_compute; reflexivity).
  split; [exact H1|]. split; [exact H2|].
  exact (proj1 (C4_move_inserts_and_shifts_the_target_column sampleEnv
                  (asUser bob) 10%nat moveToSeven board _ _ T1 H1
                  (surjective_pairing _) H2)).
Defined.

(** The move is answered with 200; the task sits at position 7 although
    the column has three tasks, and the positions of the column are then
    1, 2 and 7, which is no permutation of 0, 1, 2. *)
Lemma C4_counterexample :
  statusCode (moveTask sampleEnv (asUser bob) 10 moveToSeven board).2 = 200%nat
  /\ length (column todo
               (tasks (moveTask sampleEnv (asUser bob) 10 moveToSeven board).1))
     = 3%nat
  /\ Task.position
       <$> tasks (moveTask sampleEnv (asUser bob) 10 moveToSeven board).1
           !! 10%nat
     = Some 7
  /\ ~ dense todo (tasks (moveTask sampleEnv (asUser bob) 10 moveToSeven board).1).
Proof.
  split; [vm_compute; reflexivity|]. split; [vm_compute; reflexivity|].
  split; [vm_compute; reflexivity|].
  unfold dense. intros Hperm.
  assert (0 ∈ positions todo
            (tasks (moveTask sampleEnv (asUser bob) 10 moveToSeven board).1))
    as Hin.
  { rewrite Hperm. apply list_elem_of_In.
    replace (length _) with 3%nat by (vm_compute; reflexivity).
    simpl. auto. }
  apply list_elem_of_In in Hin. vm_compute in Hin.
  repeat (destruct Hin as [Hin|Hin]; [discriminate Hin|]). exact Hin.
Qed.

(** C5, as the code has it. With [T1], [T2], [T3] of the [todo] column at
    positions 0, 1, 2, a move of [T3] to position 0 of [todo] that is
    answered with 200 leaves [T3] at 0, [T1] at 1 and [T2] at 2.  The
    version of [T3], a safe integer, grows by one, through [save]; [T1]
    and [T2] are renumbered by [updateMany], which runs no hook: their
    versions are as before. *)
Theorem C5_move_to_front_bumps_only_the_moved_task
    env req db db' resp i1 i2 i3 t1 t2 t3 v :
  i1 <> i3 -> i2 <> i3 ->
  tasks db !! i1 = Some t1 -> tasks db !! i2 = Some t2 ->
  tasks db !! i3 = Some t3 ->
  Forall (fun t => Task.status t = todo /\ Task.isArchived t = false)
         [t1; t2; t3] ->
  Task.position t1 = 0 -> Task.position t2 = 1 -> Task.position t3 = 2 ->
  isSafeInteger (Task.version t3) = true ->
  moveTask env req i3 (mkMoveBody todo 0 v) db = (db', resp) ->
  statusCode resp = 200%nat ->
  exists t3',
    tasks db' !! i3 = Some t3'
    /\ Task.status t3' = todo /\ Task.position t3' = 0
    /\ Task.version t3' = Task.version t3 + 1
    /\ tasks db' !! i1 = Some (Task.set_position 1 t1)
    /\ tasks db' !! i2 = Some (Task.set_position 2 t2)
    /\ Task.version (Task.set_position 1 t1) = Task.version t1
    /\ Task.version (Task.set_position 2 t2) = Task.version t2.
Proof.
  intros Hi1 Hi2 H1 H2 H3 Hall Hp1 Hp2 Hp3 Hsafe Hmove Hcode.
  apply Forall_cons in Hall as [[Hs1 Ha1] Hall].
  apply Forall_cons in Hall as [[Hs2 Ha2] Hall].
  apply Forall_cons in Hall as [[Hs3 Ha3] _].
  assert (findLive i3 db = Some t3) as Hlive by (by apply findLive_intro).
  destruct (moveTask_200 env req i3 _ db db' resp t3 Hlive Hmove Hcode)
    as [_ Hlook].
  eexists. split.
  { rewrite Hlook. destruct (decide (i3 = i3)); [reflexivity|done]. }
  rewrite preSave_loaded.
  destruct (decide _) as [Heq|_].
  { apply (f_equal Task.position) in Heq. simpl in Heq. lia. }
  simpl. repeat split.
  - by apply Number_add_safe.
  - rewrite Hlook. destruct (decide (i1 = i3)); [done|]. rewrite H1. simpl.
    unfold shifted.
    assert (shifts i3 todo 0 i1 t1 = true) as ->
      by (apply shifts_true; repeat split; try done; lia).
    by rewrite Hp1.
  - rewrite Hlook. destruct (decide (i2 = i3)); [done|]. rewrite H2. simpl.
    unfold shifted.
    assert (shifts i3 todo 0 i2 t2 = true) as ->
      by (apply shifts_true; repeat split; try done; lia).
    by rewrite Hp2.
Qed.

Lemma C5_witness :
  statusCode (moveTask sampleEnv (asUser bob) 12 moveToFront board).2 = 200%nat
  /\ exists t3',
       tasks (moveTask sampleEnv (asUser bob) 12 moveToFront board).1 !! 12%nat
       = Some t3'
       /\ Task.status t3' = todo /\ Task.position t3' = 0
       /\ Task.version t3' = Task.version T3 + 1
       /\ tasks (moveTask sampleEnv (asUser bob) 12 moveToFront board).1 !! 10%nat
          = Some (Task.set_position 1 T1)
       /\ tasks (moveTask sampleEnv (asUser bob) 12 moveToFront board).1 !! 11%nat
          = Some (Task.set_position 2 T2)
       /\ Task.version (Task.set_position 1 T1) = Task.version T1
       /\ Task.version (Task.set_position 2 T2) = Task.version T2.
Proof.
  assert (statusCode (moveTask sampleEnv (asUser bob) 12 moveToFront board).2
          = 200%nat) as Hcode by (vm_compute; reflexivity).
  split; [exact Hcode|].
  assert (10%nat <> 12%nat) as Hi1 by lia.
  assert (11%nat <> 12%nat) as Hi2 by lia.
  assert (tasks board !! 10%nat = Some T1) as H1 by (vm_compute; reflexivity).
  assert (tasks board !! 11%nat = Some T2) as H2 by (vm_compute; reflexivity).
  assert (tasks board !! 12%nat = Some T3) as H3 by (vm_compute; reflexivity).
  assert (Forall (fun t => Task.status t = todo /\ Task.isArchived t = false)
            [T1; T2; T3]) as Hall by (repeat constructor).
  exact (C5_move_to_front_bumps_only_the_moved_task sampleEnv (asUser bob)
           board _ _ 10%nat 11%nat 12%nat T1 T2 T3 (Some 7) Hi1 Hi2 H1 H2 H3
           Hall eq_refl eq_refl eq_refl eq_refl (surjective_pairing _) Hcode).
Defined.

(** After the move of [T3] to the front, [T1] is still at version 3. *)
Lemma C5_counterexample :
  statusCode (moveTask sampleEnv (asUser bob) 12 moveToFront board).2 = 200%nat
  /\ Task.version
       <$> tasks (moveTask sampleEnv (asUser bob) 12 moveToFront board).1
           !! 10%nat
     <> Some (Task.version T1 + 1).
Proof. split; [vm_compute; reflexivity|]. vm_compute. discriminate. Qed.

(** ** Creation *)

Lemma preSave_new now l c : Task.preSave true now l c = c.
Proof. unfold Task.preSave. by rewrite andb_false_r. Qed.

(** C6, as the code has it. A [POST /tasks] answered with 201 stored, under
    a fresh [_id], a task created by the acting user, at version 1, in the
    status the body carried ([todo] when it carried none) and at the
    position the body carried, [0] when it carried none; the positions
    already present in the column play no part. *)
Theorem C6_createTask_takes_the_position_of_the_body
    (R : string -> option (string -> bool)) env req b db db' resp :
  POST_tasks R env req b db = (db', resp) ->
  statusCode resp = 201%nat ->
  exists t',
    task resp = Some t'
    /\ tasks db !! newObjectId env = None
    /\ tasks db' = <[newObjectId env := t']> (tasks db)
    /\ Task.createdBy t' = User._id (user req)
    /\ Task.version t' = 1
    /\ Task.status t' = default todo (c_status b)
    /\ Task.position t' = default 0 (c_position b).
Proof.
  unfold POST_tasks, route, Joi.create.
  destruct (_ && _)%bool; [|intros [= <- <-]; discriminate].
  unfold createTask, createTask_try. simpl.
  destruct (Task.validateUniqueTitle _ _ _ _) as [e|[|]];
    [destruct e; intros [= <- <-]; discriminate|
    |intros [= <- <-]; discriminate].
  destruct (negb _); [intros [= <- <-]; discriminate|].
  destruct (Task.save _ _ _ _ _ _) as [e|[t' ts]] eqn:Hs;
    [destruct e; intros [= <- <-]; discriminate|].
  intros [= <- <-] _.
  pose proof Hs as Hfresh. apply save_inr in Hs as [-> ->].
  rewrite preSave_new. eexists. split; [reflexivity|].
  split; [|by repeat split].
  unfold Task.save in Hfresh. destruct (Task.validate _ _ _ _); [discriminate|].
  simpl in Hfresh. destruct (bool_decide _) eqn:Hb; [discriminate|].
  apply bool_decide_eq_false in Hb.
  destruct (tasks db !! newObjectId env) eqn:E; [|done].
  exfalso. apply Hb. eauto.
Qed.

Lemma C6_witness :
  statusCode (POST_tasks sampleRegExp sampleEnv (asUser bob) shipRelease board).2
  = 201%nat
  /\ exists t',
       task (POST_tasks sampleRegExp sampleEnv (asUser bob) shipRelease board).2
       = Some t'
       /\ tasks board !! newObjectId sampleEnv = None
       /\ tasks (POST_tasks sampleRegExp sampleEnv (asUser bob) shipRelease
                   board).1
          = <[newObjectId sampleEnv := t']> (tasks board)
       /\ Task.createdBy t' = User._id (user (asUser bob))
       /\ Task.version t' = 1
       /\ Task.status t' = default todo (c_status shipRelease)
       /\ Task.position t' = default 0 (c_position shipRelease).
Proof.
  assert (statusCode (POST_tasks sampleRegExp sampleEnv (asUser bob)
                        shipRelease board).2 = 201%nat) as Hcode
    by (vm_compute; reflexivity).
  split; [exact Hcode|].
  exact (C6_createTask_takes_the_position_of_the_body sampleRegExp sampleEnv
           (asUser bob) shipRelease board _ _ (surjective_pairing _) Hcode).
Defined.

(** The [todo] column of the sample board holds positions 0, 1 and 2, so
    one more than its largest position is 3; the task Bob creates there
    is placed at 0. *)
Lemma C6_counterexample :
  statusCode (POST_tasks sampleRegExp sampleEnv (asUser bob) shipRelease board).2
  = 201%nat
  /\ nextPosition todo (tasks board) = 3
  /\ Task.position
       <$> task (POST_tasks sampleRegExp sampleEnv (asUser bob) shipRelease
                   board).2
     <> Some (nextPosition todo (tasks board)).
Proof.
  split; [vm_compute; reflexivity|]. split; [vm_compute; reflexivity|].
  vm_compute. discriminate.
Qed.

(** ** Smart assign *)

Lemma length_filter_snd {A B} (P : A * B -> Prop) (Q : B -> Prop)
    `{!forall x, Decision (P x)} `{!forall y, Decision (Q y)} (l : list (A * B)) :
  (forall kv, P kv <-> Q kv.2) ->
  length (filter P l) = length (filter Q l.*2).
Proof.
  intros HPQ. induction l as [|kv l IH]; [done|].
  rewrite fmap_cons, !filter_cons.
  destruct (decide (P kv)) as [HP|HP], (decide (Q kv.2)) as [HQ|HQ]; simpl;
    [by rewrite IH|by apply HPQ in HP|by apply HPQ in HQ|done].
Qed.

Lemma filter_ext_in {A} (P Q : A -> Prop)
    `{!forall x, Decision (P x)} `{!forall x, Decision (Q x)} (l : list A) :
  (forall x, x ∈ l -> P x <-> Q x) -> filter P l = filter Q l.
Proof.
  induction l as [|x l IH]; [done|]. intros Hext.
  rewrite !filter_cons.
  assert (P x <-> Q x) as Hx by (apply Hext; left).
  rewrite IH by (intros y Hy; apply Hext; by right).
  destruct (decide (P x)), (decide (Q x)); tauto.
Qed.

(** The count the code takes is the load of the specification. *)
Lemma countDocuments_load uid ts :
  Task.countDocuments (Task.activeTaskQuery uid) ts = load uid ts.
Proof.
  unfold Task.countDocuments, load.
  rewrite map_filter_alt, map_size_list_to_map.
  - symmetry. apply length_filter_snd. intros [k t]. simpl.
    unfold Task.activeTaskQuery.
    rewrite !andb_true_iff, !bool_decide_eq_true, negb_true_iff.
    rewrite !elem_of_cons, elem_of_nil. tauto.
  - apply (sublist_NoDup _ (map_to_list ts).*1).
    + apply NoDup_fst_map_to_list.
    + apply fmap_sublist, sublist_filter.
Qed.

Lemma Math_min_Some l m :
  Task.Math_min l = Some m -> m ∈ l /\ Forall (fun y => (m <= y)%nat) l.
Proof.
  revert m. induction l as [|x l IH]; [discriminate|]. simpl. intros m.
  destruct (Task.Math_min l) as [m'|] eqn:E.
  - intros [= <-]. destruct (IH m' eq_refl) as [Hin Hall].
    split.
    + destruct (Nat.min_spec x m') as [[_ ->]|[_ ->]]; [left|by right].
    + constructor; [lia|]. eapply Forall_impl; [exact Hall|].
      simpl. intros; lia.
  - intros [= <-]. destruct l; [|simpl in E; discriminate].
    split; [left|]. by repeat constructor.
Qed.

Lemma Math_min_cons x l : exists m, Task.Math_min (x :: l) = Some m.
Proof. simpl. eauto. Qed.

(** Among the members of a list, the minimum is the one below all. *)
Lemma Math_min_iff l x :
  x ∈ l ->
  Some x = Task.Math_min l <-> Forall (fun y => (x <= y)%nat) l.
Proof.
  intros Hx. destruct l as [|y l]; [by apply elem_of_nil in Hx|].
  destruct (Math_min_cons y l) as [m Hm]. rewrite Hm.
  destruct (Math_min_Some _ _ Hm) as [Hin Hall]. split.
  - by intros [= ->].
  - intros Hle. f_equal.
    rewrite Forall_forall in Hall, Hle.
    specialize (Hall x Hx). specialize (Hle m Hin). lia.
Qed.

Lemma userTaskCounts_load us ts :
  Task.userTaskCounts us ts
  = map (fun u => (u, load (User._id u) ts)) (User.findActiveUsers us).
Proof.
  unfold Task.userTaskCounts. apply map_ext. intros u.
  by rewrite countDocuments_load.
Qed.

Lemma filter_counts_fst (mo : option nat) (f : User.doc -> nat)
    (l : list User.doc) :
  (filter (fun utc : User.doc * nat => Some utc.2 = mo)
          (map (fun u => (u, f u)) l)).*1
  = filter (fun u => Some (f u) = mo) l.
Proof.
  induction l as [|u l IH]; [done|]. cbn [map].
  rewrite !filter_cons. cbn [snd].
  destruct (decide (Some (f u) = mo)); [rewrite fmap_cons; cbn [fst]|];
    by rewrite IH.
Qed.

(** The candidates are the active users whose load no active user
    undercuts, in the order and the multiplicity of the user scan. *)
Lemma usersWithMinTasks_least us ts :
  (Task.usersWithMinTasks us ts).*1
  = filter (fun u =>
              Forall (fun u' => (load (User._id u) ts <= load (User._id u') ts)%nat)
                     (User.findActiveUsers us))
           (User.findActiveUsers us).
Proof.
  unfold Task.usersWithMinTasks. cbv zeta. rewrite userTaskCounts_load.
  rewrite filter_counts_fst. rewrite map_map. simpl.
  apply filter_ext_in. intros u Hu.
  rewrite Math_min_iff.
  - by rewrite Forall_fmap.
  - apply list_elem_of_fmap. by exists u.
Qed.

Lemma usersWithMinTasks_nonempty us ts :
  User.findActiveUsers us <> [] ->
  (0 < length (Task.usersWithMinTasks us ts))%nat.
Proof.
  intros Hne. rewrite <- (length_fmap fst), usersWithMinTasks_least.
  destruct (User.findActiveUsers us) as [|u0 l] eqn:E; [done|].
  set (loads := map (fun u => load (User._id u) ts) (u0 :: l)).
  destruct (Math_min_cons (load (User._id u0) ts)
              (map (fun u => load (User._id u) ts) l)) as [m Hm].
  destruct (Math_min_Some _ _ Hm) as [Hin Hall].
  change (m ∈ loads) in Hin. change (Forall (fun y => (m <= y)%nat) loads) in Hall.
  apply list_elem_of_fmap in Hin as (u & -> & Hu).
  assert (u ∈ filter (fun u =>
              Forall (fun u' => (load (User._id u) ts <= load (User._id u') ts)%nat)
                     (u0 :: l)) (u0 :: l)) as Hmem.
  { apply list_elem_of_filter. split; [|done].
    subst loads. by rewrite Forall_fmap in Hall. }
  destruct (filter _ _); [by apply elem_of_nil in Hmem|simpl; lia].
Qed.

(** With every user stored under its own [_id], no user document occurs
    twice in the collection. *)
Lemma NoDup_findActiveUsers us :
  (forall k u, us !! k = Some u -> User._id u = k) ->
  NoDup (User.findActiveUsers us).
Proof.
  intros Hkeyed. unfold User.findActiveUsers. apply NoDup_filter.
  apply NoDup_fmap_2_strong; [|apply NoDup_map_to_list].
  intros [k1 u1] [k2 u2] H1 H2 Heq. simpl in Heq. subst u2.
  apply elem_of_map_to_list in H1, H2.
  apply Hkeyed in H1, H2. congruence.
Qed.

(** *** The index of the draw

    In units of [2 ^ - shift random], the exact product [random * n] is
    the integer [mantissa random * n] and the integer [k] is
    [k * 2 ^ shift random]. *)

Lemma roundToDouble_nonneg P : 0 <= P -> 0 <= roundToDouble P.
Proof.
  intros HP. apply (roundToDouble_ge 0 0 P); [|done|done].
  unfold MAX_SAFE_INTEGER. lia.
Qed.

(** A product that rounds up to a whole number: with seven candidates
    and [random = 2573485501354569 / 2 ^ 52] the exact product is below
    4, the product of doubles is 4, and so is the index. *)
Lemma randomIndex_rounds_up :
  2573485501354569 * 7 < 4 * 2 ^ 52
  /\ Task.randomIndex (mkFraction 2573485501354569 52) 7 = 4%nat.
Proof. split; reflexivity. Qed.

(** The index is at least [k] when the exact product is. *)
Lemma randomIndex_ge random n k :
  0 <= shift random -> Z.of_nat k <= MAX_SAFE_INTEGER + 1 ->
  Z.of_nat k * 2 ^ shift random <= mantissa random * Z.of_nat n ->
  (k <= Task.randomIndex random n)%nat.
Proof.
  intros Hs Hk Hle. unfold Task.randomIndex.
  assert (0 < 2 ^ shift random) as H2s by (apply Z.pow_pos_nonneg; lia).
  pose proof (roundToDouble_ge (Z.of_nat k) (shift random) _
                ltac:(lia) Hs Hle) as HR.
  assert (Z.of_nat k
          <= roundToDouble (mantissa random * Z.of_nat n) / 2 ^ shift random)
    by (apply Z.div_le_lower_bound; lia).
  lia.
Qed.

(** The index is below [k] when the exact product is below [k] by a
    relative [2 ^ -53] at least. *)
Lemma randomIndex_below random n k :
  0 <= shift random -> 0 <= mantissa random ->
  (1 <= k)%nat -> Z.of_nat k <= MAX_SAFE_INTEGER + 1 ->
  2 ^ 53 * (mantissa random * Z.of_nat n)
  <= (2 ^ 53 - 1) * (Z.of_nat k * 2 ^ shift random) ->
  (Task.randomIndex random n < k)%nat.
Proof.
  intros Hs Hm Hk1 Hk Hrel. unfold Task.randomIndex.
  assert (0 < 2 ^ shift random) as H2s by (apply Z.pow_pos_nonneg; lia).
  assert (0 <= mantissa random * Z.of_nat n) as HP by nia.
  pose proof (roundToDouble_lt (Z.of_nat k) (shift random) _
                ltac:(lia) Hs HP Hrel) as HR.
  pose proof (roundToDouble_nonneg _ HP) as HR0.
  assert (roundToDouble (mantissa random * Z.of_nat n) / 2 ^ shift random
          < Z.of_nat k)
    by (apply Z.div_lt_upper_bound; lia).
  assert (0 <= roundToDouble (mantissa random * Z.of_nat n)
               / 2 ^ shift random)
    by (apply Z.div_pos; lia).
  lia.
Qed.

(** A double below 1 is below 1 by [2 ^ -53] at least. *)
Lemma properFraction_below_one f :
  properFraction f ->
  2 ^ 53 * mantissa f <= (2 ^ 53 - 1) * 2 ^ shift f.
Proof.
  intros ([Hm0 Hm53] & Hm & Hs0 & _).
  destruct (Z.le_gt_cases (shift f) 53) as [Hle|Hgt].
  - assert (2 ^ shift f <= 2 ^ 53) by (apply Z.pow_le_mono_r; lia).
    change (2 ^ 53) with 9007199254740992 in *. nia.
  - assert (2 ^ 53 <= 2 ^ shift f) by (apply Z.pow_le_mono_r; lia).
    change (2 ^ 53) with 9007199254740992 in *. nia.
Qed.

(** [Math.floor(Math.random() * n)] is an index of an array of [n]
    elements. *)
Lemma randomIndex_lt random n :
  properFraction random -> (0 < n)%nat -> arrayLength n ->
  (Task.randomIndex random n < n)%nat.
Proof.
  intros Hf Hn Hlen. pose proof (properFraction_below_one random Hf) as Hone.
  destruct Hf as ([Hm0 _] & _ & Hs0 & _). unfold arrayLength in Hlen.
  change (2 ^ 32) with 4294967296 in Hlen.
  apply randomIndex_below; [done|done|lia|unfold MAX_SAFE_INTEGER; lia|].
  change (2 ^ 53) with 9007199254740992 in *.
  assert (0 <= Z.of_nat n) by lia. nia.
Qed.

(** C7. With at least one active user, every user stored under its own
    [_id], and [Math.random] returning a double of the interval from 0
    to 1: the count the code takes for each active user is the user's
    load; the candidates are exactly the active users whose load is
    least, each of them once; the user returned is the candidate at index
    [floor (random * n)], [n] being the number of candidates and the
    product being the product of doubles, hence an active user of least
    load.  Each index [k] below [n] is drawn on an interval of values of
    [random]: it is drawn when [k <= random * n <= (k + 1) (1 - 2 ^ -53)],
    and only when [k (1 - 2 ^ -53) <= random * n < k + 1], so the interval
    is the one from [k / n] to [(k + 1) / n], of length [1 / n] whatever
    [k] is, up to the rounding of the product at its ends.  The
    comparisons are written in units of [2 ^ - shift random]. *)
Theorem C7_smart_assign_picks_uniformly_among_the_least_loaded
    (random : Fraction) (us : gmap ObjectId User.doc)
    (ts : gmap ObjectId Task.doc) :
  User.findActiveUsers us <> [] ->
  usersKeyed us ->
  properFraction random ->
  arrayLength (length (User.findActiveUsers us)) ->
  let active := User.findActiveUsers us in
  let least (u : User.doc) :=
    Forall (fun u' => (load (User._id u) ts <= load (User._id u') ts)%nat)
           active in
  let candidates := (Task.usersWithMinTasks us ts).*1 in
  let n := length candidates in
  let product := mantissa random * Z.of_nat n in
  let units (k : Z) := k * 2 ^ shift random in
  Task.userTaskCounts us ts = map (fun u => (u, load (User._id u) ts)) active
  /\ candidates = filter least active
  /\ NoDup candidates
  /\ (0 < n)%nat
  /\ (exists u,
        Task.findUserWithFewestTasks random us ts = inr u
        /\ candidates !! Task.randomIndex random n = Some u
        /\ u ∈ active /\ least u)
  /\ (forall k, (k < n)%nat ->
        (units (Z.of_nat k) <= product
         /\ 2 ^ 53 * product <= (2 ^ 53 - 1) * units (Z.of_nat k + 1) ->
         Task.randomIndex random n = k)
        /\ (Task.randomIndex random n = k ->
            (2 ^ 53 - 1) * units (Z.of_nat k) <= 2 ^ 53 * product
            /\ product < units (Z.of_nat k + 1))).
Proof.
  intros Hne Hkeyed Hf Hlen active least candidates n product units.
  assert (candidates = filter least active) as Hcand
    by apply usersWithMinTasks_least.
  assert (0 < n)%nat as Hn.
  { subst n candidates. rewrite length_fmap.
    by apply usersWithMinTasks_nonempty. }
  assert (arrayLength n) as Hlen'.
  { unfold arrayLength in *. subst n. rewrite Hcand.
    pose proof (length_filter least active). fold active in Hlen. lia. }
  split; [apply userTaskCounts_load|]. split; [exact Hcand|].
  split; [rewrite Hcand; by apply NoDup_filter, NoDup_findActiveUsers|].
  split; [exact Hn|]. split.
  - pose proof (randomIndex_lt random n Hf Hn Hlen') as Hidx.
    destruct (lookup_lt_is_Some_2 candidates _ Hidx) as [u Hu].
    exists u.
    assert (u ∈ filter least active) as Hmem.
    { rewrite <- Hcand. by eapply list_elem_of_lookup_2. }
    apply list_elem_of_filter in Hmem as [Hleast Hact].
    split; [|done].
    unfold Task.findUserWithFewestTasks.
    destruct (length (User.findActiveUsers us)) eqn:Hl.
    { destruct (User.findActiveUsers us); [done|discriminate]. }
    simpl.
    subst n candidates. rewrite length_fmap in Hu.
    rewrite list_lookup_fmap in Hu.
    destruct (Task.usersWithMinTasks us ts !! _) as [utc|]; [|discriminate].
    simpl in Hu. by injection Hu as ->.
  - intros k Hk. destruct Hf as ([Hm0 _] & _ & Hs0 & _).
    unfold arrayLength in Hlen'. change (2 ^ 32) with 4294967296 in Hlen'.
    assert (0 < 2 ^ shift random) as H2s by (apply Z.pow_pos_nonneg; lia).
    subst units product. cbv beta. split.
    + intros [Hlo Hhi].
      pose proof (randomIndex_ge random n k Hs0
                    ltac:(unfold MAX_SAFE_INTEGER; lia) Hlo) as Hge.
      pose proof (randomIndex_below random n (S k) Hs0 Hm0 ltac:(lia)
                    ltac:(unfold MAX_SAFE_INTEGER; lia)) as Hlt.
      rewrite Nat2Z.inj_succ in Hlt. unfold Z.succ in Hlt.
      specialize (Hlt Hhi). lia.
    + intros Hidx. split.
      * destruct (Z.le_gt_cases ((2 ^ 53 - 1) * (Z.of_nat k * 2 ^ shift random))
                    (2 ^ 53 * (mantissa random * Z.of_nat n)))
          as [|Hgt]; [done|exfalso].
        assert (1 <= k)%nat as Hk1.
        { destruct k; [|lia]. exfalso.
          change (2 ^ 53) with 9007199254740992 in Hgt. nia. }
        pose proof (randomIndex_below random n k Hs0 Hm0 Hk1
                      ltac:(unfold MAX_SAFE_INTEGER; lia) ltac:(lia)). lia.
      * destruct (Z.le_gt_cases ((Z.of_nat k + 1) * 2 ^ shift random)
                    (mantissa random * Z.of_nat n)) as [Hge|]; [exfalso|done].
        pose proof (randomIndex_ge random n (S k) Hs0
                      ltac:(unfold MAX_SAFE_INTEGER; lia)) as H.
        rewrite Nat2Z.inj_succ in H. unfold Z.succ in H.
        specialize (H Hge). lia.
Qed.

Lemma C7_witness :
  User.findActiveUsers (users busyBoard) <> []
  /\ usersKeyed (users busyBoard)
  /\ properFraction (Math_random sampleEnv)
  /\ arrayLength (length (User.findActiveUsers (users busyBoard)))
  /\ (Task.usersWithMinTasks (users busyBoard) (tasks busyBoard)).*1
     = [bob; carol]
  /\ Task.findUserWithFewestTasks (Math_random sampleEnv)
       (users busyBoard) (tasks busyBoard) = inr carol
  /\ NoDup (Task.usersWithMinTasks (users busyBoard) (tasks busyBoard)).*1.
Proof.
  assert (User.findActiveUsers (users busyBoard) <> []) as Hne
    by (vm_compute; discriminate).
  assert (usersKeyed (users busyBoard)) as Hkeyed.
  { intros k u Hk.
    assert ((k, u) ∈ map_to_list (users busyBoard)) as Hin
      by (by apply elem_of_map_to_list).
    vm_compute in Hin. apply list_elem_of_In in Hin. simpl in Hin.
    repeat (destruct Hin as [[= <- <-]|Hin]; [reflexivity|]). done. }
  assert (properFraction (Math_random sampleEnv)) as Hf
    by (vm_compute; intuition discriminate).
  assert (arrayLength (length (User.findActiveUsers (users busyBoard))))
    as Hlen by (vm_compute; reflexivity).
  split; [exact Hne|]. split; [exact Hkeyed|]. split; [exact Hf|].
  split; [exact Hlen|].
  split; [vm_compute; reflexivity|]. split; [vm_compute; reflexivity|].
  exact (proj1 (proj2 (proj2
           (C7_smart_assign_picks_uniformly_among_the_least_loaded
              (Math_random sampleEnv) (users busyBoard) (tasks busyBoard)
              Hne Hkeyed Hf Hlen)))).
Defined.

(** ** The shape of every handler of the family *)

Lemma logActivity_app a log :
  exists l,
    Activity.logActivity a log = log ++ l
    /\ (l = [] \/ l = [Activity.construct a]).
Proof.
  unfold Activity.logActivity. destruct (Activity.validate _).
  - exists [Activity.construct a]. auto.
  - exists []. rewrite app_nil_r. auto.
Qed.

Lemma handle_dead (R : string -> option (string -> bool)) env req id m db :
  findLive id db = None ->
  handle R env req id m db = (db, taskNotFound).
Proof.
  intros Hdead. destruct m; simpl.
  - unfold updateTask, updateTask_try. by rewrite Hdead.
  - unfold moveTask, moveTask_try. by rewrite Hdead.
  - unfold assignTask, assignTask_try. by rewrite Hdead.
  - unfold smartAssignTask, smartAssignTask_try. by rewrite Hdead.
Qed.

(** What follows the conflict check either fails with 400 or 500 and
    leaves the database alone, or succeeds with 200, saves the written
    document and logs its activity. *)
Lemma applied_shape (R : string -> option (string -> bool))
    env req id m t db db' resp :
  applied R env req id m t db = (db', resp) ->
  ((statusCode resp = 400%nat \/ statusCode resp = 500%nat) /\ db' = db)
  \/ (statusCode resp = 200%nat
      /\ exists sel a,
           db' = with_activity a
                   (with_tasks
                      (tasksAfter id (OpMutation m)
                         (Task.preSave false (now env) t
                            (written env req m sel t))
                         (tasks db)) db)
           /\ task resp
              = Some (Task.preSave false (now env) t (written env req m sel t))
           /\ match m with
              | SmartAssign _ =>
                  exists u, sel = Some u
                            /\ Task.findUserWithFewestTasks (Math_random env)
                                 (users db) (tasks db) = inr u
              | Assign b => is_Some (activeUser db (a_assignedTo b))
              | Update b =>
                  forall uid, u_assignedTo b = Some (Some uid) ->
                    Some uid = Task.assignedTo t
                    \/ is_Some (activeUser db uid)
              | Move _ => True
              end).
Proof.
  destruct m as [b|b|b|v]; simpl.
  - unfold updateTask_apply.
    destruct (match u_title b with Some _ => _ | None => _ end) as [e|[|]];
      [destruct e; intros [= <- <-]; left; simpl; auto| |
       intros [= <- <-]; left; simpl; auto].
    destruct (negb _) eqn:Hassignee; [intros [= <- <-]; left; simpl; auto|].
    destruct (Task.save _ _ _ _ _ _) as [e|[t' ts]] eqn:Hs;
      [destruct e; intros [= <- <-]; left; simpl; auto|].
    apply save_inr in Hs as [-> ->]. intros [= <- <-]. right.
    split; [done|]. exists None. eexists. split; [reflexivity|].
    split; [done|]. intros uid Huid. rewrite Huid in Hassignee.
    apply negb_false_iff in Hassignee.
    destruct (bool_decide (Some uid <> Task.assignedTo t)) eqn:Hne.
    + right. by apply bool_decide_eq_true in Hassignee.
    + left. apply bool_decide_eq_false in Hne.
      destruct (decide (Some uid = Task.assignedTo t)); [done|]. by destruct Hne.
  - unfold moveTask_apply.
    destruct (Task.save _ _ _ _ _ _) as [e|[t' ts]] eqn:Hs;
      [intros [= <- <-]; left; simpl; auto|].
    apply save_inr in Hs as [-> ->]. intros [= <- <-]. right.
    split; [done|]. exists None. eexists. done.
  - unfold assignTask_apply.
    destruct (activeUser _ _) eqn:Hact; [|intros [= <- <-]; left; simpl; auto].
    destruct (Task.save _ _ _ _ _ _) as [e|[t' ts]] eqn:Hs;
      [intros [= <- <-]; left; simpl; auto|].
    apply save_inr in Hs as [-> ->]. intros [= <- <-]. right.
    split; [done|]. exists None. eexists. split; [reflexivity|]. split; eauto.
  - unfold smartAssignTask_apply.
    destruct (Task.findUserWithFewestTasks _ _ _) as [e|u] eqn:Hf;
      [intros [= <- <-]; left; simpl; auto|].
    destruct (Task.save _ _ _ _ _ _) as [e|[t' ts]] eqn:Hs;
      [intros [= <- <-]; left; simpl; auto|].
    apply save_inr in Hs as [-> ->]. intros [= <- <-]. right.
    split; [done|]. exists (Some u). eexists. split; [reflexivity|].
    split; eauto.
Qed.

(** ** Requests without a version *)

(** Smart assign draws a user whenever one is active. *)
Lemma findUserWithFewestTasks_some random us ts :
  User.findActiveUsers us <> [] -> properFraction random ->
  arrayLength (length (User.findActiveUsers us)) ->
  exists u, Task.findUserWithFewestTasks random us ts = inr u.
Proof.
  intros Hne Hf Hlen. unfold Task.findUserWithFewestTasks.
  destruct (User.findActiveUsers us) as [|u0 l] eqn:E; [done|].
  simpl. rewrite <- E in *.
  pose proof (usersWithMinTasks_nonempty us ts Hne) as Hn.
  assert (arrayLength (length (Task.usersWithMinTasks us ts))) as Hlen'.
  { unfold arrayLength in *.
    rewrite <- (length_fmap fst), usersWithMinTasks_least.
    pose proof (length_filter
                  (fun u => Forall (fun u' =>
                     (load (User._id u) ts <= load (User._id u') ts)%nat)
                     (User.findActiveUsers us))
                  (User.findActiveUsers us)). lia. }
  pose proof (randomIndex_lt _ _ Hf Hn Hlen') as Hlt.
  apply lookup_lt_is_Some_2 in Hlt as [utc Hutc].
  rewrite Hutc. eauto.
Qed.





(** The shape of a handler of the family on a live task: a refusal (403,
    409, 400 or 500) that leaves the database alone, but for the log entry
    of a stale update, or a success that leaves [tasksAfter] and logs at
    most one entry. *)
Lemma perform_live (R : string -> option (string -> bool))
    env req id op db db' resp t :
  findLive id db = Some t ->
  perform R env req id op db = (db', resp) ->
  (In (statusCode resp) [400; 403; 409; 500]%nat
   /\ (db' = db
       \/ (statusCode resp = 409%nat
           /\ exists b a, op = OpMutation (Update b)
                          /\ db' = with_activity a db)))
  \/ (statusCode resp = 200%nat
      /\ exists sel a,
           let t' := Task.preSave false (now env) t
                       (writtenBy env req op sel t) in
           (db' = with_activity a (with_tasks (tasksAfter id op t' (tasks db)) db)
            \/ (op = OpGet /\ db' = db))
           /\ tasks db' = tasksAfter id op t' (tasks db)
           /\ match op with
              | OpMutation (SmartAssign _) =>
                  exists u, sel = Some u
                            /\ Task.findUserWithFewestTasks (Math_random env)
                                 (users db) (tasks db) = inr u
              | OpMutation (Assign b) =>
                  is_Some (activeUser db (a_assignedTo b))
              | OpMutation (Update b) =>
                  forall uid, u_assignedTo b = Some (Some uid) ->
                    Some uid = Task.assignedTo t
                    \/ is_Some (activeUser db uid)
              | OpDelete =>
                  Task.createdBy t = User._id (user req)
                  \/ User.role (user req) = "admin"%string
              | _ => True
              end).
Proof.
  intros Hlive Hop.
  destruct op as [m|txt| | |]; simpl in Hop.
  - rewrite (handle_unfold R env req id m db t Hlive) in Hop.
    destruct (conflictCheck _ _).
    + injection Hop as <- <-. left. split; [simpl; tauto|].
      destruct m as [b|b|b|v]; [right|by left..].
      split; [done|]. by eexists _, _.
    + apply applied_shape in Hop
        as [[Hcode ->]|(Hcode & sel & a & -> & _ & Hextra)].
      * left. split; [simpl; destruct Hcode as [-> | ->]; tauto|by left].
      * right. split; [done|]. exists sel, a. simpl.
        split; [by left|]. split; [done|]. by destruct m.
  - unfold addComment in Hop. rewrite Hlive in Hop.
    unfold Task.addComment in Hop.
    destruct (Task.save _ _ _ _ _ _) as [e|[t' ts]] eqn:Hs.
    + injection Hop as <- <-. left. split; [simpl; tauto|by left].
    + apply save_inr in Hs as [-> ->]. injection Hop as <- <-.
      right. split; [done|]. exists None. eexists. simpl.
      split; [left; reflexivity|done].
  - unfold deleteTask in Hop. rewrite Hlive in Hop.
    destruct (_ && _)%bool eqn:Hwho; injection Hop as <- <-.
    + left. split; [simpl; tauto|by left].
    + right. split; [done|]. exists None. eexists. simpl.
      split; [left; reflexivity|]. split; [done|].
      apply andb_false_iff in Hwho as [Hc|Hr].
      * left. apply negb_false_iff in Hc. by apply bool_decide_eq_true in Hc.
      * right. apply negb_false_iff in Hr. by apply String.eqb_eq in Hr.
  - unfold archiveTask in Hop. rewrite Hlive in Hop.
    unfold Task.archive in Hop.
    destruct (Task.save _ _ _ _ _ _) as [e|[t' ts]] eqn:Hs.
    + injection Hop as <- <-. left. split; [simpl; tauto|by left].
    + apply save_inr in Hs as [-> ->]. injection Hop as <- <-.
      right. split; [done|]. exists None. eexists. simpl.
      split; [left; reflexivity|done].
  - unfold getTask in Hop. rewrite Hlive in Hop. injection Hop as <- <-.
    right. split; [done|]. exists None.
    exists (activityOf req Activity.task_updated None (titled t)
              Activity.sev_low None None).
    simpl. split; [by right|done].
Qed.

Lemma perform_dead (R : string -> option (string -> bool))
    env req id op db :
  findLive id db = None ->
  perform R env req id op db = (db, taskNotFound).
Proof.
  intros Hdead. destruct op; simpl.
  - by apply handle_dead.
  - unfold addComment. by rewrite Hdead.
  - unfold deleteTask. by rewrite Hdead.
  - unfold archiveTask. by rewrite Hdead.
  - unfold getTask. by rewrite Hdead.
Qed.

(** ** Fields the handlers keep *)

Lemma Object_assign_fields b t :
  Task.title (Object_assign b t) = default (Task.title t) (u_title b)
  /\ Task.description (Object_assign b t)
     = default (Task.description t) (u_description b)
  /\ Task.status (Object_assign b t) = default (Task.status t) (u_status b)
  /\ Task.priority (Object_assign b t)
     = default (Task.priority t) (u_priority b)
  /\ Task.assignedTo (Object_assign b t)
     = default (Task.assignedTo t) (u_assignedTo b)
  /\ Task.dueDate (Object_assign b t) = default (Task.dueDate t) (u_dueDate b)
  /\ Task.tags (Object_assign b t) = default (Task.tags t) (u_tags b)
  /\ Task.position (Object_assign b t)
     = default (Task.position t) (u_position b)
  /\ Task.createdBy (Object_assign b t) = Task.createdBy t
  /\ Task.comments (Object_assign b t) = Task.comments t
  /\ Task.isArchived (Object_assign b t) = Task.isArchived t.
Proof.
  destruct b as [o1 o2 o3 o4 o5 o6 o7 o8 o9]; unfold Object_assign; simpl.
  destruct o9; simpl;
    destruct o1, o2, o3, o4, o5, o6, o7, o8; repeat split; reflexivity.
Qed.

Lemma preSave_kept now l c :
  Task.createdBy (Task.preSave false now l c) = Task.createdBy c
  /\ Task.assignedTo (Task.preSave false now l c) = Task.assignedTo c
  /\ Task.comments (Task.preSave false now l c) = Task.comments c
  /\ Task.lastModifiedBy (Task.preSave false now l c) = Task.lastModifiedBy c.
Proof. unfold Task.preSave. by destruct (_ && _)%bool. Qed.

Lemma writtenBy_createdBy env req op sel t :
  Task.createdBy (writtenBy env req op sel t) = Task.createdBy t.
Proof.
  destruct op as [[b|b|b|v]|txt| | |]; simpl; try done.
  by destruct (Object_assign_fields b t) as (_&_&_&_&_&_&_&_&->&_).
Qed.

Lemma shifted_createdBy id st pos k u :
  Task.createdBy (shifted id st pos k u) = Task.createdBy u.
Proof. unfold shifted. by destruct (shifts _ _ _ _ _). Qed.

Lemma shifted_archived id st pos k u :
  Task.isArchived u = true -> shifted id st pos k u = u.
Proof.
  intros Ha. unfold shifted. destruct (shifts _ _ _ _ _) eqn:Hs; [|done].
  apply shifts_true in Hs. destruct Hs as (_ & _ & _ & Hlive). congruence.
Qed.

(** The collection after a success, read at the task itself and at any
    other id. *)
Lemma tasksAfter_self id op t' ts :
  op <> OpDelete -> op <> OpGet ->
  tasksAfter id op t' ts !! id = Some t'.
Proof.
  intros Hd Hg. destruct op as [[b|b|b|v]|txt| | |]; simpl; try done;
    try apply lookup_insert_eq.
  rewrite lookup_updateMany_inc, lookup_insert_eq. simpl.
  by rewrite shifts_self.
Qed.

Lemma tasksAfter_other id op t' ts k :
  k <> id ->
  tasksAfter id op t' ts !! k
  = match op with
    | OpMutation (Move b) =>
        shifted id (m_status b) (m_position b) k <$> ts !! k
    | _ => ts !! k
    end.
Proof.
  intros Hk. destruct op as [[b|b|b|v]|txt| | |]; simpl;
    try (by rewrite lookup_insert_ne); try done.
  - rewrite lookup_updateMany_inc. by rewrite lookup_insert_ne.
  - by rewrite lookup_delete_ne.
Qed.

(** ** Missing and archived tasks *)

Lemma taskNotFound_code : statusCode taskNotFound = 404%nat.
Proof. reflexivity. Qed.

(** X1. A handler that takes a task id answers 404 exactly when the
    collection holds no live task under that id (none at all, or an
    archived one); the database is then left as it was. *)
Theorem X1_not_found_exactly_without_a_live_task
    (R : string -> option (string -> bool)) env req id op db :
  (statusCode (perform R env req id op db).2 = 404%nat
   <-> findLive id db = None)
  /\ (findLive id db = None ->
      perform R env req id op db = (db, taskNotFound)).
Proof.
  split; [|apply perform_dead]. split.
  - intros Hcode. destruct (findLive id db) as [t|] eqn:Hlive; [|done].
    destruct (perform R env req id op db) as [db' resp] eqn:Hop.
    simpl in Hcode.
    destruct (perform_live R env req id op db db' resp t Hlive Hop)
      as [[Hin _]|[H200 _]]; [|congruence].
    rewrite Hcode in Hin. simpl in Hin.
    repeat (destruct Hin as [Hin|Hin]; [discriminate Hin|]). done.
  - intros Hdead. by rewrite perform_dead.
Qed.

(** X2. An archived task is frozen: whatever handler of the family runs,
    on whatever id, the archived document is stored afterwards exactly as
    before; nothing un-archives, edits, renumbers or removes it. *)
Theorem X2_archived_tasks_are_frozen
    (R : string -> option (string -> bool)) env req id op db k u :
  tasks db !! k = Some u ->
  Task.isArchived u = true ->
  tasks (perform R env req id op db).1 !! k = Some u.
Proof.
  intros Hk Harch.
  destruct (findLive id db) as [t|] eqn:Hlive;
    [|by rewrite perform_dead].
  destruct (perform R env req id op db) as [db' resp] eqn:Hop. simpl.
  destruct (findLive_Some id db t Hlive) as [Hid Hliv].
  assert (k <> id) as Hne by (intros ->; congruence).
  destruct (perform_live R env req id op db db' resp t Hlive Hop)
    as [[_ [-> |(_ & b & a & _ & ->)]]|(_ & sel & a & _ & -> & _)];
    [done|done|].
  rewrite tasksAfter_other by done.
  destruct op as [[b|b|b|v]|txt| | |]; try done.
  rewrite Hk. simpl. by rewrite shifted_archived.
Qed.

Lemma X2_witness :
  tasks (archiveTask sampleEnv (asUser alice) 10 board).1 !! 10%nat
  = Some (Task.set_lastModified 200
           (Task.set_version 4
             (Task.set_archivedBy (Some 1%nat)
               (Task.set_archivedAt (Some 200)
                 (Task.set_isArchived true T1)))))
  /\ tasks (perform sampleRegExp sampleEnv (asUser bob) 11
              (OpMutation (Move (mkMoveBody todo 0 None)))
              (archiveTask sampleEnv (asUser alice) 10 board).1).1 !! 10%nat
     = Some (Task.set_lastModified 200
              (Task.set_version 4
                (Task.set_archivedBy (Some 1%nat)
                  (Task.set_archivedAt (Some 200)
                    (Task.set_isArchived true T1))))).
Proof.
  assert (tasks (archiveTask sampleEnv (asUser alice) 10 board).1 !! 10%nat
          = Some (Task.set_lastModified 200
                   (Task.set_version 4
                     (Task.set_archivedBy (Some 1%nat)
                       (Task.set_archivedAt (Some 200)
                         (Task.set_isArchived true T1)))))) as H1
    by (vm_compute; reflexivity).
  split; [exact H1|].
  exact (X2_archived_tasks_are_frozen sampleRegExp sampleEnv (asUser bob)
           11%nat (OpMutation (Move (mkMoveBody todo 0 None))) _ 10%nat _
           H1 eq_refl).
Defined.

(** X3. Once a task is archived or deleted with success, every later
    handler of the family on that id, by whatever user and at whatever
    time, answers 404 and leaves the database as it is. *)
Theorem X3_no_operation_after_archive_or_delete
    (R : string -> option (string -> bool)) env req id op0 db db' resp :
  op0 = OpArchive \/ op0 = OpDelete ->
  perform R env req id op0 db = (db', resp) ->
  statusCode resp = 200%nat ->
  forall env' req' op,
    perform R env' req' id op db' = (db', taskNotFound).
Proof.
  intros Hop0 Hrun Hcode env' req' op. apply perform_dead.
  destruct (findLive id db) as [t|] eqn:Hlive.
  - destruct (perform_live R env req id op0 db db' resp t Hlive Hrun)
      as [[Hin _]|(_ & sel & a & _ & Hts & _)].
    { rewrite Hcode in Hin. simpl in Hin.
      repeat (destruct Hin as [Hin|Hin]; [discriminate Hin|]). done. }
    unfold findLive. rewrite Hts.
    destruct Hop0 as [-> | ->].
    + rewrite tasksAfter_self by done.
      destruct (preSave_fields (now env) t
                  (writtenBy env req OpArchive sel t)) as (_ & _ & ->).
      done.
    + simpl. by rewrite lookup_delete_eq.
  - rewrite perform_dead in Hrun by done. injection Hrun as <- <-.
    discriminate.
Qed.

Lemma X3_witness :
  statusCode (perform sampleRegExp sampleEnv (asUser alice) 10 OpDelete board).2
  = 200%nat
  /\ forall env' req' op,
       perform sampleRegExp env' req' 10 op
         (perform sampleRegExp sampleEnv (asUser alice) 10 OpDelete board).1
       = ((perform sampleRegExp sampleEnv (asUser alice) 10 OpDelete board).1,
          taskNotFound).
Proof.
  assert (statusCode (perform sampleRegExp sampleEnv (asUser alice) 10
                        OpDelete board).2 = 200%nat) as Hcode
    by (vm_compute; reflexivity).
  split; [exact Hcode|].
  exact (X3_no_operation_after_archive_or_delete sampleRegExp sampleEnv
           (asUser alice) 10%nat OpDelete board _ _ (or_intror eq_refl)
           (surjective_pairing _) Hcode).
Defined.

(** ** What the handlers never touch *)

(** X4. No handler of the family writes to the users, and each appends at
    most one entry to the activity log, the entries already there staying
    in place. *)
Theorem X4_users_untouched_and_log_append_only
    (R : string -> option (string -> bool)) env req id op db :
  users (perform R env req id op db).1 = users db
  /\ exists l,
       activities (perform R env req id op db).1 = activities db ++ l
       /\ (length l <= 1)%nat.
Proof.
  assert (exists l, activities db = activities db ++ l /\ (length l <= 1)%nat)
    as Hnil by (exists []; rewrite app_nil_r; simpl; split; [done|lia]).
  assert (forall a d, users d = users db -> activities d = activities db ->
            users (with_activity a d) = users db
            /\ exists l, activities (with_activity a d) = activities db ++ l
                         /\ (length l <= 1)%nat) as Hlog.
  { intros a d Hu Ha. split; [done|]. simpl. rewrite Ha.
    destruct (logActivity_app a (activities db)) as (l & Heq & Hl).
    exists l. split; [exact Heq|]. destruct Hl as [-> | ->]; simpl; lia. }
  destruct (findLive id db) as [t|] eqn:Hlive;
    [|by rewrite perform_dead].
  destruct (perform R env req id op db) as [db' resp] eqn:Hop. simpl.
  destruct (perform_live R env req id op db db' resp t Hlive Hop)
    as [[_ [-> |(_ & b & a & _ & ->)]]
       |(_ & sel & a & [-> |[_ ->]] & _)]; try done; by apply Hlog.
Qed.

(** X5. A request the family refuses (any status other than 200) leaves
    every task and every user as it was; the whole database is unchanged,
    except that a stale update, answered 409, may have logged its
    conflict. *)
Theorem X5_a_refused_request_changes_no_task
    (R : string -> option (string -> bool)) env req id op db db' resp :
  perform R env req id op db = (db', resp) ->
  statusCode resp <> 200%nat ->
  tasks db' = tasks db /\ users db' = users db
  /\ (db' = db
      \/ (statusCode resp = 409%nat /\ exists b, op = OpMutation (Update b))).
Proof.
  intros Hop Hcode.
  destruct (findLive id db) as [t|] eqn:Hlive.
  - destruct (perform_live R env req id op db db' resp t Hlive Hop)
      as [[_ [-> |(H409 & b & a & -> & ->)]]|[H200 _]]; [by auto| |done].
    split; [done|]. split; [done|]. right. eauto.
  - rewrite perform_dead in Hop by done. injection Hop as <- <-. auto.
Qed.

Lemma X5_witness :
  statusCode (perform sampleRegExp sampleEnv (asUser bob) 10 OpDelete board).2
  <> 200%nat
  /\ tasks (perform sampleRegExp sampleEnv (asUser bob) 10 OpDelete board).1
     = tasks board
  /\ users (perform sampleRegExp sampleEnv (asUser bob) 10 OpDelete board).1
     = users board.
Proof.
  assert (statusCode (perform sampleRegExp sampleEnv (asUser bob) 10 OpDelete
                        board).2 <> 200%nat) as Hcode
    by (vm_compute; discriminate).
  split; [exact Hcode|].
  destruct (X5_a_refused_request_changes_no_task sampleRegExp sampleEnv
              (asUser bob) 10%nat OpDelete board _ _ (surjective_pairing _)
              Hcode) as (Ht & Hu & _).
  split; [exact Ht|exact Hu].
Defined.

(** X6. No handler of the family makes a task appear, and none changes the
    creator of a task: a task stored after the request was stored before
    it, under the same id and with the same [createdBy].  Only
    [deleteTask] makes a task disappear, and only the one it was asked
    to delete. *)
Theorem X6_creators_are_immutable_and_no_task_appears
    (R : string -> option (string -> bool)) env req id op db k :
  (forall u', tasks (perform R env req id op db).1 !! k = Some u' ->
     exists u, tasks db !! k = Some u
               /\ Task.createdBy u' = Task.createdBy u)
  /\ (is_Some (tasks db !! k) ->
      is_Some (tasks (perform R env req id op db).1 !! k)
      \/ (op = OpDelete /\ k = id)).
Proof.
  destruct (findLive id db) as [t|] eqn:Hlive;
    [|rewrite perform_dead by done; simpl; split; [eauto|auto]].
  destruct (perform R env req id op db) as [db' resp] eqn:Hop. simpl.
  destruct (findLive_Some id db t Hlive) as [Hid _].
  destruct (perform_live R env req id op db db' resp t Hlive Hop)
    as [[_ [-> |(_ & b & a & _ & ->)]]|(_ & sel & a & _ & -> & _)];
    [split; [eauto|auto]..|].
  destruct (decide (k = id)) as [->|Hne].
  - assert (op <> OpDelete -> op <> OpGet ->
            (forall u', tasksAfter id op
                          (Task.preSave false (now env) t
                             (writtenBy env req op sel t)) (tasks db) !! id
                        = Some u' ->
               exists u, tasks db !! id = Some u
                         /\ Task.createdBy u' = Task.createdBy u)
            /\ (is_Some (tasks db !! id) ->
                is_Some (tasksAfter id op
                           (Task.preSave false (now env) t
                              (writtenBy env req op sel t)) (tasks db) !! id)
                \/ (op = OpDelete /\ id = id))) as Hsaved.
    { intros Hd Hg. rewrite tasksAfter_self by done. split; [|eauto].
      intros u' [= <-]. exists t. split; [done|].
      destruct (preSave_kept (now env) t (writtenBy env req op sel t))
        as (-> & _). apply writtenBy_createdBy. }
    destruct op as [m|txt| | |]; try (by apply Hsaved).
    + simpl. rewrite lookup_delete_eq. split; [discriminate|auto].
    + simpl. rewrite Hid. split; [|auto]. intros u' [= <-]. eauto.
  - rewrite tasksAfter_other by done.
    destruct op as [[b|b|b|v]|txt| | |]; try (split; [by eauto|by auto]).
    destruct (tasks db !! k) as [u|]; simpl;
      [|split; [discriminate|intros [? ?]; discriminate]].
    split; [|eauto]. intros u' [= <-]. exists u. split; [done|].
    apply shifted_createdBy.
Qed.

Lemma X6_witness :
  tasks (perform sampleRegExp sampleEnv (asUser bob) 10 assignToCarol board).1
    !! 10%nat
  = Some (Task.set_lastModified 200
           (Task.set_version 4
             (Task.set_lastModifiedBy (Some 2%nat)
               (Task.set_assignedTo (Some 3%nat) T1))))
  /\ exists u, tasks board !! 10%nat = Some u
               /\ Task.createdBy
                    (Task.set_lastModified 200
                      (Task.set_version 4
                        (Task.set_lastModifiedBy (Some 2%nat)
                          (Task.set_assignedTo (Some 3%nat) T1))))
                  = Task.createdBy u.
Proof.
  assert (tasks (perform sampleRegExp sampleEnv (asUser bob) 10 assignToCarol
                   board).1 !! 10%nat
          = Some (Task.set_lastModified 200
                   (Task.set_version 4
                     (Task.set_lastModifiedBy (Some 2%nat)
                       (Task.set_assignedTo (Some 3%nat) T1))))) as H1
    by (vm_compute; reflexivity).
  split; [exact H1|].
  exact (proj1 (X6_creators_are_immutable_and_no_task_appears sampleRegExp
                  sampleEnv (asUser bob) 10%nat assignToCarol board 10%nat)
           _ H1).
Defined.

(** ** Assignees *)

Lemma findActiveUsers_elem us u :
  u ∈ User.findActiveUsers us <->
  User.isActive u = true /\ exists k, us !! k = Some u.
Proof.
  unfold User.findActiveUsers. rewrite list_elem_of_filter, list_elem_of_fmap.
  split.
  - intros [Ha ([k u'] & -> & Hin)]. split; [done|]. exists k.
    by apply elem_of_map_to_list.
  - intros [Ha [k Hk]]. split; [done|]. exists (k, u). split; [done|].
    by apply elem_of_map_to_list.
Qed.

Lemma findUserWithFewestTasks_active random us ts u :
  Task.findUserWithFewestTasks random us ts = inr u ->
  u ∈ User.findActiveUsers us.
Proof.
  unfold Task.findUserWithFewestTasks.
  destruct (_ =? _)%nat; [discriminate|].
  destruct (Task.usersWithMinTasks us ts !! _) as [utc|] eqn:Hl;
    [|discriminate].
  intros [= <-]. apply list_elem_of_lookup_2 in Hl.
  unfold Task.usersWithMinTasks in Hl. cbv zeta in Hl.
  apply list_elem_of_filter in Hl as [_ Hl].
  unfold Task.userTaskCounts in Hl.
  apply list_elem_of_fmap in Hl as (u & -> & Hu). done.
Qed.

(** X7. A successful update, move, assign or smart-assign never leaves a
    task newly assigned to an unknown or deactivated user: afterwards the
    task is unassigned, or keeps the assignee it had, or is assigned to a
    user that the users collection holds as active. *)
Theorem X7_a_newly_set_assignee_is_an_active_user
    (R : string -> option (string -> bool)) env req id m db db' resp t :
  usersKeyed (users db) ->
  findLive id db = Some t ->
  handle R env req id m db = (db', resp) ->
  statusCode resp = 200%nat ->
  exists t',
    tasks db' !! id = Some t'
    /\ match Task.assignedTo t' with
       | None => True
       | Some uid =>
           Task.assignedTo t = Some uid
           \/ exists u, users db !! uid = Some u /\ User.isActive u = true
       end.
Proof.
  intros Hkeyed Hlive Hrun Hcode.
  assert (forall uid, is_Some (activeUser db uid) ->
            exists u, users db !! uid = Some u /\ User.isActive u = true)
    as Hactive.
  { intros uid [u Hu]. unfold activeUser, User.findById in Hu.
    destruct (users db !! uid) as [u'|]; [|discriminate].
    destruct (User.isActive u') eqn:Ha; [|discriminate]. eauto. }
  destruct (perform_live R env req id (OpMutation m) db db' resp t Hlive Hrun)
    as [[Hin _]|(_ & sel & a & _ & Hts & Hextra)].
  { rewrite Hcode in Hin. simpl in Hin.
    repeat (destruct Hin as [Hin|Hin]; [discriminate Hin|]). done. }
  eexists. split.
  { rewrite Hts. apply tasksAfter_self; discriminate. }
  destruct (preSave_kept (now env) t
              (writtenBy env req (OpMutation m) sel t)) as (_ & -> & _).
  destruct m as [b|b|b|v]; simpl.
  - destruct (Object_assign_fields b t) as (_&_&_&_&->&_).
    destruct (u_assignedTo b) as [[uid|]|] eqn:Hb; simpl.
    + destruct (Hextra uid eq_refl) as [Hsame|Hact]; [by left|].
      right. by apply Hactive.
    + done.
    + destruct (Task.assignedTo t); [by left|done].
  - destruct (Task.assignedTo t); [by left|done].
  - right. by apply Hactive.
  - destruct Hextra as (u & -> & Hfound). simpl. right.
    apply findUserWithFewestTasks_active, findActiveUsers_elem in Hfound
      as [Ha [k Hk]].
    exists u. split; [|done]. by rewrite (Hkeyed k u Hk).
Qed.

Lemma usersKeyed_board : usersKeyed (users board).
Proof.
  intros k u Hk.
  apply elem_of_map_to_list in Hk. vm_compute in Hk.
  apply list_elem_of_In in Hk. simpl in Hk.
  repeat (destruct Hk as [Hk|Hk]; [by injection Hk as <- <-|]). done.
Defined.

Lemma X7_witness :
  findLive 10 board = Some T1
  /\ statusCode (handle sampleRegExp sampleEnv (asUser bob) 10
                   (Assign (mkAssignBody 3 (Some 3))) board).2 = 200%nat
  /\ exists t',
       tasks (handle sampleRegExp sampleEnv (asUser bob) 10
                (Assign (mkAssignBody 3 (Some 3))) board).1 !! 10%nat
       = Some t'
       /\ match Task.assignedTo t' with
          | None => True
          | Some uid =>
              Task.assignedTo T1 = Some uid
              \/ exists u, users board !! uid = Some u
                           /\ User.isActive u = true
          end.
Proof.
  assert (findLive 10 board = Some T1) as H1 by (vm_compute; reflexivity).
  assert (statusCode (handle sampleRegExp sampleEnv (asUser bob) 10
                        (Assign (mkAssignBody 3 (Some 3))) board).2
          = 200%nat) as H2 by (vm_compute; reflexivity).
  split; [exact H1|]. split; [exact H2|].
  exact (X7_a_newly_set_assignee_is_an_active_user sampleRegExp sampleEnv
           (asUser bob) 10%nat (Assign (mkAssignBody 3 (Some 3))) board _ _ T1
           usersKeyed_board H1 (surjective_pairing _) H2).
Defined.

(** ** Updates *)

Lemma preSave_cases now l c :
  Task.preSave false now l c = c /\ c = l
  \/ Task.preSave false now l c
     = Task.set_lastModified now
         (Task.set_version (Number_add (Task.version c) 1) c).
Proof.
  rewrite preSave_loaded. destruct (decide (c = l)) as [->|]; auto.
Qed.

(** X8. A successful [updateTask] stores each key the body carries as it
    was sent and keeps the stored value of each key the body omits; it
    stamps [lastModifiedBy] with the acting user and [lastModified] with
    the clock, keeps creator, comments and archive flag, and touches no
    other task (a change of [status] renumbers no column).  Unless the
    document was not changed at all, the version becomes the sum, as
    doubles, of 1 and the version the body carried, or the stored one
    when it carried none: one more, when that version is a safe
    integer. *)
Theorem X8_update_stores_the_body_and_only_the_body
    (R : string -> option (string -> bool)) env req id b db db' resp t :
  findLive id db = Some t ->
  updateTask R env req id b db = (db', resp) ->
  statusCode resp = 200%nat ->
  exists t',
    tasks db' = <[id := t']> (tasks db)
    /\ Task.title t' = default (Task.title t) (u_title b)
    /\ Task.description t' = default (Task.description t) (u_description b)
    /\ Task.status t' = default (Task.status t) (u_status b)
    /\ Task.priority t' = default (Task.priority t) (u_priority b)
    /\ Task.assignedTo t' = default (Task.assignedTo t) (u_assignedTo b)
    /\ Task.dueDate t' = default (Task.dueDate t) (u_dueDate b)
    /\ Task.tags t' = default (Task.tags t) (u_tags b)
    /\ Task.position t' = default (Task.position t) (u_position b)
    /\ Task.lastModifiedBy t' = Some (User._id (user req))
    /\ Task.lastModified t' = now env
    /\ Task.createdBy t' = Task.createdBy t
    /\ Task.comments t' = Task.comments t
    /\ Task.isArchived t' = false
    /\ (t' = t
        \/ (Task.version t'
            = Number_add (default (Task.version t) (u_version b)) 1
            /\ (isSafeInteger (default (Task.version t) (u_version b)) = true ->
                Task.version t'
                = default (Task.version t) (u_version b) + 1))).
Proof.
  intros Hlive Hrun Hcode.
  destruct (findLive_Some id db t Hlive) as [_ Harch].
  destruct (perform_live R env req id (OpMutation (Update b)) db db' resp t
              Hlive Hrun) as [[Hin _]|(_ & sel & a & _ & Hts & _)].
  { rewrite Hcode in Hin. simpl in Hin.
    repeat (destruct Hin as [Hin|Hin]; [discriminate Hin|]). done. }
  simpl in Hts. eexists. split; [exact Hts|].
  set (w := Task.set_lastModified (now env)
              (Task.set_lastModifiedBy (Some (User._id (user req)))
                 (Object_assign b t))).
  destruct (Object_assign_fields b t)
    as (F1 & F2 & F3 & F4 & F5 & F6 & F7 & F8 & F9 & F10 & F11).
  assert (Task.version w = default (Task.version t) (u_version b)) as Hv
    by apply version_Object_assign.
  destruct (preSave_cases (now env) t w) as [[-> Hw]| ->].
  - simpl. rewrite F11. repeat split; try done. by left.
  - simpl. rewrite F11. repeat split; try done. right.
    rewrite <- Hv. split; [done|]. intros Hsafe. by apply Number_add_safe.
Qed.

Lemma X8_witness :
  findLive 10 board = Some T1
  /\ statusCode (updateTask sampleRegExp sampleEnv (asUser bob) 10 retitle
                   board).2 = 200%nat
  /\ exists t',
       tasks (updateTask sampleRegExp sampleEnv (asUser bob) 10 retitle
                board).1 = <[10%nat := t']> (tasks board)
       /\ Task.title t' = "Write the notes"%string
       /\ Task.description t' = Task.description T1
       /\ Task.status t' = done_.
Proof.
  assert (findLive 10 board = Some T1) as H1 by (vm_compute; reflexivity).
  assert (statusCode (updateTask sampleRegExp sampleEnv (asUser bob) 10
                        retitle board).2 = 200%nat) as H2
    by (vm_compute; reflexivity).
  split; [exact H1|]. split; [exact H2|].
  destruct (X8_update_stores_the_body_and_only_the_body sampleRegExp
              sampleEnv (asUser bob) 10%nat retitle board _ _ T1 H1
              (surjective_pairing _) H2)
    as (t' & Hts & Ht & Hd & Hs & _).
  exists t'. split; [exact Hts|]. split; [exact Ht|].
  split; [exact Hd|exact Hs].
Defined.

(** X9. An update that quoted version [n] and succeeded, at an instant
    other than the stored [lastModified], leaves the task at version
    [n + 1]; any later update of the task that still quotes [n], by
    whoever, is answered 409 with [serverVersion] [n + 1] and changes no
    task. *)
Theorem X9_a_replayed_version_is_a_conflict
    (R : string -> option (string -> bool)) env req id b db db' resp t n :
  findLive id db = Some t ->
  u_version b = Some n ->
  Task.lastModified t <> now env ->
  PUT_task R env req id b db = (db', resp) ->
  statusCode resp = 200%nat ->
  exists t1,
    tasks db' !! id = Some t1 /\ Task.version t1 = n + 1
    /\ forall env2 req2 b2,
         u_version b2 = Some n ->
         exists a,
           updateTask R env2 req2 id b2 db'
           = (with_activity a db', replyConflict (conflictOfUpdate (Some n) t1))
           /\ In ("serverVersion"%string, VNum (n + 1))
                 (conflictOfUpdate (Some n) t1).
Proof.
  intros Hlive Hn Hclock Hput Hcode.
  destruct (findLive_Some id db t Hlive) as [_ Harch].
  destruct (request_200 R env req id (Update b) db db' resp t Hlive Hput Hcode)
    as (Happ & _ & Hjoi).
  destruct (Hjoi b eq_refl n Hn) as [Hn1 Hsafe].
  destruct (applied_200 R env req id (Update b) t db db' resp Happ Hcode)
    as (sel & Hlook & _).
  simpl in Hlook. rewrite preSave_loaded in Hlook.
  destruct (decide _) as [Heq|_].
  { exfalso. apply Hclock. rewrite <- Heq at 1. reflexivity. }
  eexists. split; [exact Hlook|].
  assert (Task.version (Object_assign b t) = n) as Hv
    by (rewrite version_Object_assign, Hn; reflexivity).
  assert (Number_add n 1 = n + 1) as Hsum by (by apply Number_add_safe).
  split; [simpl; by rewrite Hv|].
  intros env2 req2 b2 Hn2.
  edestruct (updateTask_stale R env2 req2 id b2 db') as (a & Hrun & _).
  - apply findLive_intro; [exact Hlook|]. simpl.
    by destruct (Object_assign_fields b t) as (_&_&_&_&_&_&_&_&_&_&->).
  - exact Hn2.
  - lia.
  - simpl. rewrite Hv, Hsum. lia.
  - exists a. split; [exact Hrun|]. simpl. rewrite Hv, Hsum. auto.
Qed.

Lemma X9_witness :
  findLive 10 board = Some T1
  /\ statusCode (PUT_task sampleRegExp sampleEnv (asUser bob) 10 retitle
                   board).2 = 200%nat
  /\ exists t1,
       tasks (PUT_task sampleRegExp sampleEnv (asUser bob) 10 retitle board).1
         !! 10%nat = Some t1
       /\ Task.version t1 = 3 + 1.
Proof.
  assert (findLive 10 board = Some T1) as H1 by (vm_compute; reflexivity).
  assert (statusCode (PUT_task sampleRegExp sampleEnv (asUser bob) 10 retitle
                        board).2 = 200%nat) as H2
    by (vm_compute; reflexivity).
  assert (Task.lastModified T1 <> now sampleEnv) as H3
    by (vm_compute; discriminate).
  split; [exact H1|]. split; [exact H2|].
  destruct (X9_a_replayed_version_is_a_conflict sampleRegExp sampleEnv
              (asUser bob) 10%nat retitle board _ _ T1 3 H1 eq_refl H3
              (surjective_pairing _) H2) as (t1 & Hl & Hv & _).
  exists t1. split; [exact Hl|exact Hv].
Defined.

(** ** Creation, then *)

(** What [POST /tasks] leaves: nothing on a refusal, one new live task
    under the fresh id on success. *)
Lemma POST_tasks_shape (R : string -> option (string -> bool))
    env req b db db' resp :
  POST_tasks R env req b db = (db', resp) ->
  (In (statusCode resp) [400; 500]%nat /\ db' = db)
  \/ (statusCode resp = 201%nat
      /\ tasks db !! newObjectId env = None
      /\ exists b' a,
           Joi.create (now env) b = Some b'
           /\ db' = with_activity a
                      (with_tasks (<[newObjectId env := newTask req env b']>
                                     (tasks db)) db)
           /\ task resp = Some (newTask req env b')
           /\ Task.validateUniqueTitle R (c_title b') None (tasks db)
              = inr true).
Proof.
  unfold POST_tasks, route.
  destruct (Joi.create (now env) b) as [b'|] eqn:Hj;
    [|intros [= <- <-]; left; simpl; auto].
  unfold createTask, createTask_try.
  destruct (Task.validateUniqueTitle _ _ _ _) as [e|[|]] eqn:Hu;
    [destruct e; intros [= <- <-]; left; simpl; auto|
    |intros [= <- <-]; left; simpl; auto].
  destruct (negb _); [intros [= <- <-]; left; simpl; auto|].
  destruct (Task.save _ _ _ _ _ _) as [e|[t' ts]] eqn:Hs;
    [destruct e; intros [= <- <-]; left; simpl; auto|].
  intros [= <- <-]. right. split; [done|].
  pose proof Hs as Hfresh. apply save_inr in Hs as [-> ->].
  rewrite preSave_new. split.
  - unfold Task.save in Hfresh.
    destruct (Task.validate _ _ _ _); [discriminate|].
    simpl in Hfresh. destruct (bool_decide _) eqn:Hb; [discriminate|].
    apply bool_decide_eq_false in Hb.
    destruct (tasks db !! newObjectId env) eqn:E; [|done].
    exfalso. apply Hb. eauto.
  - exists b'. eexists. done.
Qed.

(** X10. A refused [POST /tasks] leaves the database as it was.  A
    created task can be read back at once: [getTask] on the new id
    answers 200 with the very document the 201 reply carried; the task is
    live, has no comments, and every task stored before is stored
    unchanged. *)
Theorem X10_a_created_task_reads_back
    (R : string -> option (string -> bool)) env req b db db' resp :
  POST_tasks R env req b db = (db', resp) ->
  (statusCode resp <> 201%nat -> db' = db)
  /\ (statusCode resp = 201%nat ->
      exists t',
        task resp = Some t'
        /\ getTask (newObjectId env) db' = (db', replyOnlyTask t')
        /\ Task.isArchived t' = false /\ Task.comments t' = []
        /\ users db' = users db
        /\ forall k u, tasks db !! k = Some u -> tasks db' !! k = Some u).
Proof.
  intros Hpost.
  destruct (POST_tasks_shape R env req b db db' resp Hpost)
    as [[Hin ->]|(Hcode & Hfresh & b' & a & _ & -> & Htask & _)].
  - split; [done|]. intros Hcode. rewrite Hcode in Hin. simpl in Hin.
    repeat (destruct Hin as [Hin|Hin]; [discriminate Hin|]). done.
  - split; [congruence|]. intros _. eexists. split; [exact Htask|].
    split; [|split; [done|split; [done|split; [done|]]]].
    + unfold getTask, findLive. simpl. by rewrite lookup_insert_eq.
    + intros k u Hk. simpl. rewrite lookup_insert_ne; [done|].
      intros <-. congruence.
Qed.

Lemma X10_witness :
  statusCode (POST_tasks sampleRegExp sampleEnv (asUser bob) shipRelease board).2
  = 201%nat
  /\ exists t',
       task (POST_tasks sampleRegExp sampleEnv (asUser bob) shipRelease board).2
       = Some t'
       /\ getTask (newObjectId sampleEnv)
            (POST_tasks sampleRegExp sampleEnv (asUser bob) shipRelease board).1
          = ((POST_tasks sampleRegExp sampleEnv (asUser bob) shipRelease
                board).1, replyOnlyTask t').
Proof.
  assert (statusCode (POST_tasks sampleRegExp sampleEnv (asUser bob)
                        shipRelease board).2 = 201%nat) as Hcode
    by (vm_compute; reflexivity).
  split; [exact Hcode|].
  destruct (proj2 (X10_a_created_task_reads_back sampleRegExp sampleEnv
                     (asUser bob) shipRelease board _ _
                     (surjective_pairing _)) Hcode)
    as (t' & Ht & Hget & _).
  exists t'. split; [exact Ht|exact Hget].
Defined.

(** ** Title uniqueness *)

Lemma existsb_map_to_list {A} (f : ObjectId * A -> bool)
    (m : gmap ObjectId A) :
  existsb f (map_to_list m) = true <->
  exists k x, m !! k = Some x /\ f (k, x) = true.
Proof.
  rewrite existsb_exists. split.
  - intros ([k x] & Hin & Hf). exists k, x. split; [|done].
    apply elem_of_map_to_list. by apply list_elem_of_In.
  - intros (k & x & Hk & Hf). exists (k, x). split; [|done].
    apply list_elem_of_In. by apply elem_of_map_to_list.
Qed.

(** X11. Where the title pattern compiles to the test [test]: a title is
    refused as a duplicate exactly when some live task, other than the
    excluded one, passes the test; archived tasks never block a title,
    and a task never blocks its own renaming.  [createTask] then answers
    400 with the duplicate-title message and leaves the database as it
    was. *)
Theorem X11_only_live_tasks_block_a_title
    (R : string -> option (string -> bool)) env req b db test excl :
  R ("^" ++ c_title b ++ "$")%string = Some test ->
  (Task.validateUniqueTitle R (c_title b) excl (tasks db) = inr false
   <-> exists k u, tasks db !! k = Some u
                   /\ test (Task.title u) = true
                   /\ Task.isArchived u = false
                   /\ excl <> Some k)
  /\ ((exists k u, tasks db !! k = Some u
                   /\ test (Task.title u) = true
                   /\ Task.isArchived u = false) ->
      createTask R env req b db
      = (db, reply 400 "A task with this title already exists")).
Proof.
  intros Hre.
  assert (forall ex,
            Task.validateUniqueTitle R (c_title b) ex (tasks db) = inr false
            <-> exists k u, tasks db !! k = Some u
                            /\ test (Task.title u) = true
                            /\ Task.isArchived u = false
                            /\ ex <> Some k) as Hiff.
  { intros ex. unfold Task.validateUniqueTitle. rewrite Hre. split.
    - intros [= Hex]. apply negb_false_iff, existsb_map_to_list in Hex
        as (k & u & Hk & Hhit).
      simpl in Hhit. apply andb_true_iff in Hhit as [Hhit Hex].
      apply andb_true_iff in Hhit as [Ht Ha].
      apply negb_true_iff in Ha.
      exists k, u. repeat split; try done.
      destruct ex as [e|]; [|done].
      apply negb_true_iff, bool_decide_eq_false in Hex. congruence.
    - intros (k & u & Hk & Ht & Ha & Hex). f_equal.
      apply negb_false_iff, existsb_map_to_list. exists k, u.
      split; [done|]. simpl. rewrite Ht, Ha. simpl.
      destruct ex as [e|]; [|done].
      apply negb_true_iff, bool_decide_eq_false. congruence. }
  split; [apply Hiff|].
  intros (k & u & Hk & Ht & Ha).
  unfold createTask, createTask_try.
  assert (Task.validateUniqueTitle R (c_title b) None (tasks db) = inr false)
    as -> by (apply Hiff; exists k, u; done).
  done.
Qed.

Lemma X11_witness :
  sampleRegExp ("^" ++ c_title (mkCreateBody "t1" None None None None None
                                  None None) ++ "$")%string
  = Some (fun s => String.eqb (toLowerCase ("^" ++ s ++ "$")) "^t1$")
  /\ createTask sampleRegExp sampleEnv (asUser bob)
       (mkCreateBody "t1" None None None None None None None) board
     = (board, reply 400 "A task with this title already exists").
Proof.
  assert (sampleRegExp
            ("^" ++ c_title (mkCreateBody "t1" None None None None None None
                               None) ++ "$")%string
          = Some (fun s => String.eqb (toLowerCase ("^" ++ s ++ "$")) "^t1$"))
    as Hre by reflexivity.
  split; [exact Hre|].
  apply (proj2 (X11_only_live_tasks_block_a_title sampleRegExp sampleEnv
                  (asUser bob) _ board _ None Hre)).
  exists 10%nat, T1. split; [vm_compute; reflexivity|]. split; reflexivity.
Defined.

(** ** Moving twice *)

Lemma move_writes_nothing_new st p who u :
  Task.status u = st -> Task.position u = p -> Task.lastModifiedBy u = who ->
  Task.set_lastModifiedBy who (Task.set_position p (Task.set_status st u)) = u.
Proof. destruct u. simpl. by intros -> -> ->. Qed.

(** X12. [moveTask] is not idempotent on the column.  When a user repeats
    a move that succeeded, with the same status and position and a
    version that passes the check (none, or the one the first reply
    carried), at an instant at which the task still passes validation,
    the repeat succeeds as well: the moved task is stored exactly as the
    first move left it, version included, while every other live task of
    the target column at or after the position has 1 added to its
    position once more, which leaves it two places down when the
    positions are safe integers. *)
Theorem X12_a_repeated_move_pushes_the_column_again
    env req id b db db1 r1 t env2 b2 :
  findLive id db = Some t ->
  moveTask env req id b db = (db1, r1) ->
  statusCode r1 = 200%nat ->
  m_status b2 = m_status b -> m_position b2 = m_position b ->
  (forall u, tasks db1 !! id = Some u ->
     conflictCheck (m_version b2) u = false) ->
  (forall u, tasks db1 !! id = Some u -> valid (now env2) u) ->
  exists t1,
    tasks db1 !! id = Some t1
    /\ statusCode (moveTask env2 req id b2 db1).2 = 200%nat
    /\ tasks (moveTask env2 req id b2 db1).1 !! id = Some t1
    /\ (forall k, k <> id ->
         tasks (moveTask env2 req id b2 db1).1 !! k
         = shifted id (m_status b) (m_position b) k
             <$> (shifted id (m_status b) (m_position b) k <$> tasks db !! k))
    /\ (forall k u, k <> id -> tasks db !! k = Some u ->
         shifts id (m_status b) (m_position b) k u = true ->
         isSafeInteger (Task.position u + 1) = true ->
         Task.position <$> tasks (moveTask env2 req id b2 db1).1 !! k
         = Some (Task.position u + 2)).
Proof.
  intros Hlive Hmove Hcode Hst Hpos Hver Hvalid.
  destruct (findLive_Some id db t Hlive) as [_ Harch].
  destruct (moveTask_200 env req id b db db1 r1 t Hlive Hmove Hcode)
    as [_ Hlook].
  set (t1 := Task.preSave false (now env) t (written env req (Move b) None t))
    in *.
  assert (tasks db1 !! id = Some t1) as Hself.
  { rewrite Hlook. by destruct (decide (id = id)). }
  destruct (preSave_fields (now env) t (written env req (Move b) None t))
    as (Hs1 & Hp1 & Ha1).
  destruct (preSave_kept (now env) t (written env req (Move b) None t))
    as (_ & _ & _ & Hby1).
  fold t1 in Hs1, Hp1, Ha1, Hby1. simpl in Hs1, Hp1, Ha1, Hby1.
  assert (findLive id db1 = Some t1) as Hlive1.
  { apply findLive_intro; [done|]. by rewrite Ha1. }
  assert (written env2 req (Move b2) None t1 = t1) as Hsame.
  { simpl. rewrite Hst, Hpos. by apply move_writes_nothing_new. }
  assert (moveTask env2 req id b2 db1
          = (with_activity
               (activityOf req Activity.task_moved (Some id)
                  (Activity.mkDetails (Some (Task.title t1)) None
                     (Some (Task.statusName (Task.status t1)))
                     (Some (Task.statusName (m_status b2))) None None)
                  Activity.sev_low None None)
               (with_tasks
                  (updateMany_inc id (m_status b2) (m_position b2)
                     (<[id := t1]> (tasks db1))) db1),
             replyTask 200 "Task moved successfully" t1)) as Hrun.
  { unfold moveTask, moveTask_try. rewrite Hlive1.
    rewrite (Hver t1 Hself).
    unfold moveTask_apply, Task.save.
    change (Task.set_lastModifiedBy (Some (User._id (user req)))
              (Task.set_position (m_position b2)
                 (Task.set_status (m_status b2) t1)))
      with (written env2 req (Move b2) None t1).
    rewrite Hsame. rewrite (Hvalid t1 Hself). simpl.
    rewrite preSave_loaded. by destruct (decide (t1 = t1)). }
  assert (forall k, k <> id ->
            tasks (moveTask env2 req id b2 db1).1 !! k
            = shifted id (m_status b) (m_position b) k
                <$> (shifted id (m_status b) (m_position b) k
                       <$> tasks db !! k)) as Hother.
  { intros k Hk. rewrite Hrun. simpl. rewrite Hst, Hpos.
    rewrite lookup_updateMany_inc, lookup_insert_ne by done.
    rewrite Hlook. by destruct (decide (k = id)). }
  exists t1. split; [done|]. split; [by rewrite Hrun|]. split.
  { rewrite Hrun. simpl. rewrite Hst, Hpos.
    rewrite lookup_updateMany_inc, lookup_insert_eq. simpl.
    by rewrite shifts_self. }
  split; [exact Hother|].
  intros k u Hk Hu Hshift Hsafe.
  rewrite (Hother k Hk), Hu. simpl. f_equal.
  assert (Number_add (Task.position u) 1 = Task.position u + 1) as Hone.
  { apply roundToDouble_small. unfold isSafeInteger in Hsafe.
    apply andb_true_iff in Hsafe as [H1 H2]. apply Z.leb_le in H1, H2.
    unfold MAX_SAFE_INTEGER in *. lia. }
  unfold shifted at 2. rewrite Hshift.
  apply shifts_true in Hshift as (_ & Hstu & Hposu & Hau).
  unfold shifted.
  assert (shifts id (m_status b) (m_position b) k
            (Task.set_position (Number_add (Task.position u) 1) u) = true)
    as ->.
  { apply shifts_true. simpl. rewrite Hone. repeat split; try done. lia. }
  simpl. rewrite Hone. rewrite Number_add_safe by done. lia.
Qed.

Lemma X12_witness :
  findLive 12 board = Some T3
  /\ statusCode (moveTask sampleEnv (asUser bob) 12 moveToFront board).2
     = 200%nat
  /\ exists t1,
       tasks (moveTask sampleEnv (asUser bob) 12 moveToFront board).1 !! 12%nat
       = Some t1
       /\ statusCode
            (moveTask sampleEnv (asUser bob) 12 (mkMoveBody todo 0 (Some 8))
               (moveTask sampleEnv (asUser bob) 12 moveToFront board).1).2
          = 200%nat
       /\ tasks
            (moveTask sampleEnv (asUser bob) 12 (mkMoveBody todo 0 (Some 8))
               (moveTask sampleEnv (asUser bob) 12 moveToFront board).1).1
            !! 12%nat = Some t1.
Proof.
  assert (findLive 12 board = Some T3) as H1 by (vm_compute; reflexivity).
  assert (statusCode (moveTask sampleEnv (asUser bob) 12 moveToFront board).2
          = 200%nat) as H2 by (vm_compute; reflexivity).
  assert (forall u,
            tasks (moveTask sampleEnv (asUser bob) 12 moveToFront board).1
              !! 12%nat = Some u ->
            conflictCheck (m_version (mkMoveBody todo 0 (Some 8))) u = false)
    as H3.
  { intros u Hu. vm_compute in Hu. injection Hu as <-. reflexivity. }
  assert (forall u,
            tasks (moveTask sampleEnv (asUser bob) 12 moveToFront board).1
              !! 12%nat = Some u ->
            valid (now sampleEnv) u) as H4.
  { intros u Hu. vm_compute in Hu. injection Hu as <-. reflexivity. }
  split; [exact H1|]. split; [exact H2|].
  destruct (X12_a_repeated_move_pushes_the_column_again sampleEnv
              (asUser bob) 12%nat moveToFront board _ _ T3 sampleEnv
              (mkMoveBody todo 0 (Some 8)) H1 (surjective_pairing _) H2
              eq_refl eq_refl H3 H4) as (t1 & Ha & Hb & Hc & _).
  exists t1. split; [exact Ha|]. split; [exact Hb|exact Hc].
Defined.

(** ** Listing *)

Section ListingFacts.

Variable createdAt : ObjectId -> Date.

#[local] Instance listOrder_total : Total (listOrder createdAt).
Proof. intros x y. unfold listOrder. lia. Qed.

#[local] Instance listOrder_trans : Transitive (listOrder createdAt).
Proof. intros x y z. unfold listOrder. lia. Qed.

Lemma StronglySorted_filter {A} (R : relation A) (P : A -> Prop)
    `{!forall x, Decision (P x)} (l : list A) :
  StronglySorted R l -> StronglySorted R (filter P l).
Proof.
  induction 1 as [|x l Hs IH Hall]; [constructor|].
  rewrite filter_cons. destruct (decide (P x)); [|done].
  constructor; [done|].
  apply Forall_forall. intros y Hy. apply list_elem_of_filter in Hy as [_ Hy].
  rewrite Forall_forall in Hall. auto.
Qed.

Lemma length_by_status (l : list (ObjectId * Task.doc)) :
  length l
  = (length (groupOf todo l) + length (groupOf in_progress l)
     + length (groupOf done_ l))%nat.
Proof.
  unfold groupOf. induction l as [|[k u] l IH]; [done|].
  rewrite !filter_cons. simpl.
  destruct (Task.status u);
    repeat (destruct (decide _); try done); simpl; lia.
Qed.

Lemma elem_of_findSorted q ts kv :
  kv ∈ findSorted createdAt q ts <->
  ts !! kv.1 = Some kv.2 /\ listFilter q kv.2 = true.
Proof.
  unfold findSorted. rewrite merge_sort_Permutation, list_elem_of_filter.
  destruct kv as [k u]. simpl. rewrite elem_of_map_to_list. tauto.
Qed.

(** X13. [getAllTasks] lists a task in the group of a status exactly when
    the task is stored, passes the filter of the query (so is not
    archived) and has that status; no task is listed twice; each group is
    ordered by position, ties by creation time, latest first; and
    [totalCount] is the number of tasks listed over the three groups. *)
Theorem X13_getAllTasks_groups_the_live_matches_in_order q db st :
  let reply := getAllTasks createdAt q db in
  (forall k u,
     (k, u) ∈ groupFor st reply <->
     tasks db !! k = Some u /\ listFilter q u = true /\ Task.status u = st)
  /\ (forall k u, (k, u) ∈ groupFor st reply -> Task.isArchived u = false)
  /\ NoDup (groupFor st reply).*1
  /\ StronglySorted (listOrder createdAt) (groupFor st reply)
  /\ totalCount reply
     = (length (g_todo reply) + length (g_in_progress reply)
        + length (g_done reply))%nat.
Proof.
  intros reply.
  assert (groupFor st reply = groupOf st (findSorted createdAt q (tasks db)))
    as Hg by (by destruct st).
  rewrite Hg.
  assert (forall k u,
            (k, u) ∈ groupOf st (findSorted createdAt q (tasks db)) <->
            tasks db !! k = Some u /\ listFilter q u = true
            /\ Task.status u = st) as Hiff.
  { intros k u. unfold groupOf. rewrite list_elem_of_filter.
    rewrite elem_of_findSorted. simpl. tauto. }
  split; [exact Hiff|]. split.
  { intros k u Hin. apply Hiff in Hin as (_ & Hf & _).
    unfold listFilter in Hf. rewrite !andb_true_iff in Hf.
    destruct Hf as [[[Ha _] _] _]. by apply negb_true_iff in Ha. }
  split.
  { unfold groupOf. apply (sublist_NoDup _ (findSorted createdAt q (tasks db)).*1).
    - unfold findSorted. rewrite merge_sort_Permutation.
      apply (sublist_NoDup _ (map_to_list (tasks db)).*1).
      + apply NoDup_fst_map_to_list.
      + apply fmap_sublist, sublist_filter.
    - apply fmap_sublist, sublist_filter. }
  split.
  { unfold groupOf. apply StronglySorted_filter.
    unfold findSorted. apply (StronglySorted_merge_sort _). }
  apply length_by_status.
Qed.

End ListingFacts.

(** ** Due dates *)

Lemma ceilDiv_spec a b :
  0 < b -> (ceilDiv a b - 1) * b < a <= ceilDiv a b * b.
Proof.
  intros Hb. unfold ceilDiv.
  pose proof (Z.div_mod (- a) b ltac:(lia)) as Hdm.
  pose proof (Z.mod_pos_bound (- a) b Hb) as Hmod.
  nia.
Qed.

(** X14. The two virtuals agree.  [daysUntilDue] is the least number of
    whole days that covers the time left, so it is positive exactly for a
    due date still ahead; an overdue task shows zero or fewer days, and a
    task that shows a negative number of days is overdue unless it is
    done.  A task that is done, or has no due date, is never overdue. *)
Theorem X14_overdue_and_days_until_due_agree now t :
  (forall d, Task.dueDate t = Some d ->
     exists n, daysUntilDue now t = Some n
               /\ (n - 1) * msPerDay < d - now <= n * msPerDay
               /\ (0 < n <-> now < d))
  /\ (isOverdue now t = true ->
      exists n, daysUntilDue now t = Some n /\ n <= 0)
  /\ (forall n, daysUntilDue now t = Some n -> n < 0 ->
        Task.status t <> done_ -> isOverdue now t = true)
  /\ (Task.status t = done_ \/ Task.dueDate t = None ->
      isOverdue now t = false).
Proof.
  assert (0 < msPerDay) as Hday by reflexivity.
  unfold daysUntilDue, isOverdue.
  split; [|split; [|split]].
  - intros d ->. eexists. split; [reflexivity|].
    pose proof (ceilDiv_spec (d - now) msPerDay Hday). split; [done|]. nia.
  - destruct (Task.dueDate t) as [d|]; [|discriminate].
    intros [Hlt _]%andb_true_iff. apply Z.ltb_lt in Hlt.
    eexists. split; [reflexivity|].
    pose proof (ceilDiv_spec (d - now) msPerDay Hday). nia.
  - intros n Hn Hneg Hst. destruct (Task.dueDate t) as [d|]; [|discriminate].
    injection Hn as <-.
    pose proof (ceilDiv_spec (d - now) msPerDay Hday).
    apply andb_true_iff. split.
    + apply Z.ltb_lt. nia.
    + apply negb_true_iff. by apply bool_decide_eq_false.
  - intros [Hst| ->]; [|done]. destruct (Task.dueDate t); [|done].
    rewrite Hst. rewrite bool_decide_eq_true_2 by done.
    by rewrite andb_false_r.
Qed.

(** ** The address validator of the activity schema *)

Lemma split_on_occurs sep s c :
  occurs c s -> c <> sep ->
  exists p, In p (Activity.split_on sep s) /\ occurs c p.
Proof.
  unfold occurs. induction s as [|a s IH]; simpl; [done|].
  intros [->|Hin] Hne.
  - destruct (Ascii.eqb c sep) eqn:E; [by apply Ascii.eqb_eq in E|].
    destruct (Activity.split_on sep s) as [|p ps].
    + exists (String c EmptyString). simpl. auto.
    + exists (String c p). simpl. auto.
  - destruct (IH Hin Hne) as (p & Hp & Hc).
    destruct (Ascii.eqb a sep).
    + exists p. simpl. auto.
    + destruct (Activity.split_on sep s) as [|q qs]; [done|].
      destruct Hp as [<-|Hp].
      * exists (String a q). simpl. auto.
      * exists p. simpl. auto.
Qed.

Lemma in_range_bounds lo hi c :
  Activity.in_range lo hi c = true ->
  (lo <= Ascii.nat_of_ascii c <= hi)%nat.
Proof.
  unfold Activity.in_range. intros [H1 H2]%andb_true_iff.
  apply Nat.leb_le in H1, H2. lia.
Qed.

(** An octet holds decimal digits only. *)
Lemma octet_digits p c :
  Activity.octet p = true -> occurs c p -> Activity.is_digit c = true.
Proof.
  unfold Activity.octet, occurs.
  destruct (String.list_ascii_of_string p) as [|a [|b [|d [|e l]]]];
    try discriminate; simpl.
  - by intros ? [->|[]].
  - intros [Ha Hb]%andb_true_iff [->|[->|[]]]; done.
  - intros H Hin.
    assert (Activity.is_digit a = true /\ Activity.is_digit b = true
            /\ Activity.is_digit d = true) as (Ha & Hb & Hd).
    { unfold Activity.is_digit in *.
      repeat (apply orb_true_iff in H as [H|H]);
        repeat (apply andb_true_iff in H as [H ?]);
        repeat match goal with
          | E : Ascii.eqb _ _ = true |- _ => apply Ascii.eqb_eq in E; subst
          | E : (_ <=? _)%nat = true |- _ => apply Nat.leb_le in E
          | E : Activity.in_range _ _ _ = true |- _ =>
              apply in_range_bounds in E
          end;
        repeat split; unfold Activity.in_range;
        apply andb_true_iff; split; apply Nat.leb_le;
        change (Ascii.nat_of_ascii "2") with 50%nat in *;
        change (Ascii.nat_of_ascii "5") with 53%nat in *; lia. }
    destruct Hin as [->|[->|[->|[]]]]; done.
Qed.

(** A hextet holds hexadecimal digits only. *)
Lemma hextet_hex p c :
  Activity.hextet p = true -> occurs c p -> Activity.is_hex c = true.
Proof.
  unfold Activity.hextet, occurs.
  intros [_ Hall]%andb_true_iff Hin.
  rewrite forallb_forall in Hall. by apply Hall.
Qed.

(** X15. An address in which both a colon and a dot occur, as in the
    IPv4-mapped form [::ffff:10.0.0.1], fails the [ipAddress] validator of
    the activity schema, so [logActivity] drops every activity that
    carries it and leaves the log as it was. *)
Theorem X15_mixed_addresses_are_never_logged (a : Activity.data) addr log :
  Activity.d_ipAddress a = Some addr ->
  occurs ":" addr -> occurs "." addr ->
  Activity.ipValidator addr = false
  /\ Activity.logActivity a log = log.
Proof.
  intros Hip Hcolon Hdot.
  assert (Activity.ipValidator addr = false) as Hbad.
  { unfold Activity.ipValidator.
    assert (Activity.ipv4Regex addr = false) as ->.
    { unfold Activity.ipv4Regex. apply andb_false_iff. right.
      apply not_true_is_false. intros Hall. rewrite forallb_forall in Hall.
      destruct (split_on_occurs "." addr ":" Hcolon) as (p & Hp & Hc);
        [discriminate|].
      pose proof (octet_digits p ":" (Hall p Hp) Hc) as Hd. discriminate. }
    assert (Activity.ipv6Regex addr = false) as ->.
    { unfold Activity.ipv6Regex. apply andb_false_iff. right.
      apply not_true_is_false. intros Hall. rewrite forallb_forall in Hall.
      destruct (split_on_occurs ":" addr "." Hdot) as (p & Hp & Hc);
        [discriminate|].
      pose proof (hextet_hex p "." (Hall p Hp) Hc) as Hd. discriminate. }
    assert (forall lit, ~ occurs "." lit -> String.eqb addr lit = false)
      as Hlit.
    { intros lit Hno. apply String.eqb_neq. by intros ->. }
    rewrite !Hlit; [done| | |].
    - unfold occurs. simpl. intros H.
      repeat (destruct H as [H|H]; [discriminate H|]). done.
    - unfold occurs. simpl. intros H.
      repeat (destruct H as [H|H]; [discriminate H|]). done.
    - unfold occurs. simpl. tauto. }
  split; [exact Hbad|].
  unfold Activity.logActivity, Activity.validate. simpl.
  rewrite Hip, Hbad. by rewrite !andb_false_r.
Qed.

Lemma X15_witness :
  Activity.d_ipAddress
    (activityOf (mkReq bob (Some "::ffff:10.0.0.1"%string) None)
       Activity.task_moved (Some 10%nat) (titled T1) Activity.sev_low None None)
  = Some "::ffff:10.0.0.1"%string
  /\ Activity.logActivity
       (activityOf (mkReq bob (Some "::ffff:10.0.0.1"%string) None)
          Activity.task_moved (Some 10%nat) (titled T1) Activity.sev_low None
          None) [] = [].
Proof.
  split; [reflexivity|].
  apply (X15_mixed_addresses_are_never_logged _ "::ffff:10.0.0.1" []).
  - reflexivity.
  - unfold occurs. simpl. by left.
  - unfold occurs. simpl. do 9 right. by left.
Defined.

(** ** When an activity is logged *)

Lemma length_append (s1 s2 : string) :
  String.length (s1 ++ s2) = (String.length s1 + String.length s2)%nat.
Proof. induction s1 as [|c s1 IH]; simpl; [done|]. by rewrite IH. Qed.

Lemma eqb_empty_false s :
  (1 <= String.length s)%nat -> String.eqb s EmptyString = false.
Proof. destruct s; simpl; [lia|done]. Qed.

(** The description of every template is non-empty and, for names and
    titles within the bounds the schemas set, within 500 characters. *)
Lemma createDescription_length act name d :
  (String.length name <= 101)%nat ->
  (interpLength (Activity.taskTitle d) <= 200)%nat ->
  (interpLength (Activity.assigneeName d) <= 101)%nat ->
  (interpLength (Activity.fromStatus d) <= 11)%nat ->
  (interpLength (Activity.toStatus d) <= 11)%nat ->
  (interpLength (Activity.otherUser d) <= 101)%nat ->
  (interpLength (Activity.resolution d) <= 20)%nat ->
  (1 <= String.length (Activity.createDescription act name d) <= 500)%nat.
Proof.
  unfold interpLength. intros Hn Ht Ha Hf Hto Ho Hr.
  destruct act; unfold Activity.createDescription, Activity.quoted;
    rewrite ?length_append; simpl; lia.
Qed.

(** X16. For an acting user whose full name has at most 101 characters, a
    task title of at most 200 and the other names within their bounds, an
    activity a handler passes to [logActivity] is appended to the log
    exactly when the request can be logged: its [User-Agent] header has at
    most 500 characters and its address passes the validator.  Otherwise
    the log stays as it was, and no error reaches the handler. *)
Theorem X16_logging_depends_only_on_agent_and_address
    req act tgt d sev cid res log :
  (String.length (User.fullName (user req)) <= 101)%nat ->
  (interpLength (Activity.taskTitle d) <= 200)%nat ->
  (interpLength (Activity.assigneeName d) <= 101)%nat ->
  (interpLength (Activity.fromStatus d) <= 11)%nat ->
  (interpLength (Activity.toStatus d) <= 11)%nat ->
  (interpLength (Activity.otherUser d) <= 101)%nat ->
  (interpLength (Activity.resolution d) <= 20)%nat ->
  Activity.logActivity (activityOf req act tgt d sev cid res) log
  = if requestLoggable req
    then log ++ [Activity.construct (activityOf req act tgt d sev cid res)]
    else log.
Proof.
  intros Hn Ht Ha Hf Hto Ho Hr.
  pose proof (createDescription_length act (User.fullName (user req)) d
                Hn Ht Ha Hf Hto Ho Hr) as [Hlo Hhi].
  unfold Activity.logActivity, Activity.validate, requestLoggable. simpl.
  rewrite eqb_empty_false by done.
  apply Nat.leb_le in Hhi. rewrite Hhi. simpl. done.
Qed.

Lemma X16_witness :
  Activity.logActivity
    (activityOf (asUser bob) Activity.task_moved (Some 10%nat) (titled T1)
       Activity.sev_low None None) []
  = if requestLoggable (asUser bob)
    then [] ++ [Activity.construct
                  (activityOf (asUser bob) Activity.task_moved (Some 10%nat)
                     (titled T1) Activity.sev_low None None)]
    else [].
Proof.
  apply (X16_logging_depends_only_on_agent_and_address (asUser bob)
           Activity.task_moved (Some 10%nat) (titled T1) Activity.sev_low None
           None []); unfold interpLength; simpl; lia.
Defined.

(** ** The Joi schema against the Mongoose schema, on creation *)

Lemma Joi_create_Some now b b' :
  Joi.create now b = Some b' ->
  Joi.title (c_title b) = true
  /\ Joi.opt (fun d => (String.length d <=? 1000)%nat) (c_description b) = true
  /\ Joi.opt (fun d => now <=? d) (c_dueDate b) = true
  /\ Joi.opt Joi.tagsOk (c_tags b) = true
  /\ c_title b' = c_title b /\ c_description b' = c_description b
  /\ c_dueDate b' = c_dueDate b /\ c_tags b' = Some (default [] (c_tags b)).
Proof.
  unfold Joi.create. destruct (_ && _)%bool eqn:H; [|discriminate].
  intros [= <-]. rewrite !andb_true_iff in H.
  destruct H as [[[[H1 H2] H3] H4] _]. simpl. done.
Qed.

(** X17. A creation body the Joi schema accepts passes every validator of
    the Mongoose schema but one: Joi admits a due date equal to the
    clock, the schema demands one strictly after it.  So the only
    [ValidationError] that [save] can raise for a new task is the one on
    [dueDate], and it does for exactly that date. *)
Theorem X17_joi_and_schema_differ_only_on_a_due_date_now env req b b' :
  Joi.create (now env) b = Some b' ->
  Task.validate true (now env) (newTask req env b') (newTask req env b')
  = if decide (c_dueDate b = Some (now env))
    then Some (ValidationError "dueDate") else None.
Proof.
  intros Hj.
  destruct (Joi_create_Some _ _ _ Hj)
    as (Ht & Hd & Hdue & Htags & E1 & E2 & E3 & E4).
  unfold Task.validate, newTask.
  cbn [Task.title Task.description Task.dueDate Task.tags Task.comments].
  rewrite E1, E2, E3, E4. cbn [default].
  unfold Joi.title in Ht. rewrite Ht. cbn [negb].
  assert ((String.length (default EmptyString (c_description b)) <=? 1000)%nat
          = true) as ->.
  { destruct (c_description b); [exact Hd|done]. }
  assert (forallb (fun g => (String.length g <=? 50)%nat)
            (id (default [] (c_tags b))) = true) as ->.
  { destruct (c_tags b) as [l|]; [|done]. simpl in Htags.
    unfold Joi.tagsOk in Htags. apply andb_true_iff in Htags as [_ Hall].
    apply forallb_forall. intros g Hg.
    rewrite forallb_forall in Hall. specialize (Hall g Hg).
    by apply andb_true_iff in Hall as [_ ?]. }
  cbn [negb forallb].
  destruct (c_dueDate b) as [d|].
  - simpl in Hdue. apply Z.leb_le in Hdue.
    destruct (decide (Some d = Some (now env))) as [[= ->]|Hne].
    + by rewrite Z.ltb_irrefl.
    + assert ((now env <? d) = true) as ->; [|done].
      apply Z.ltb_lt. assert (d <> now env) by congruence. lia.
  - by destruct (decide _).
Qed.

Lemma X17_witness :
  Joi.create (now sampleEnv)
    (mkCreateBody "Due now" None None None None (Some 200) None None)
  = Some (mkCreateBody "Due now" None (Some todo) (Some medium) None
            (Some 200) (Some []) (Some 0))
  /\ Task.validate true (now sampleEnv)
       (newTask (asUser bob) sampleEnv
          (mkCreateBody "Due now" None (Some todo) (Some medium) None
             (Some 200) (Some []) (Some 0)))
       (newTask (asUser bob) sampleEnv
          (mkCreateBody "Due now" None (Some todo) (Some medium) None
             (Some 200) (Some []) (Some 0)))
     = Some (ValidationError "dueDate").
Proof.
  assert (Joi.create (now sampleEnv)
            (mkCreateBody "Due now" None None None None (Some 200) None None)
          = Some (mkCreateBody "Due now" None (Some todo) (Some medium) None
                    (Some 200) (Some []) (Some 0))) as Hj
    by (vm_compute; reflexivity).
  split; [exact Hj|].
  exact (X17_joi_and_schema_differ_only_on_a_due_date_now sampleEnv
           (asUser bob) _ _ Hj).
Defined.

(** ** Deactivating a user *)

Lemma lookup_unassignAll id ts k :
  unassignAll id ts !! k
  = (fun t => if bool_decide (Task.assignedTo t = Some id)
              then Task.set_assignedTo None t else t) <$> ts !! k.
Proof. unfold unassignAll. apply lookup_fmap. Qed.

(** X18. A deactivation answered with 200 was asked by an admin about
    another, existing user.  It stores that user as inactive and removes
    the user from every task, archived ones included, through
    [updateMany]: no task is assigned to the user afterwards, and no
    task's version or modification time moves, so a client holding the
    old version of such a task meets no conflict.  Nothing is logged,
    and smart assign does not select the user afterwards. *)
Theorem X18_deactivation_unassigns_and_bumps_no_version
    req id db db' resp :
  deactivateUser req id db = (db', resp) ->
  statusCode resp = 200%nat ->
  User.role (user req) = "admin"%string /\ id <> User._id (user req)
  /\ (exists u, users db !! id = Some u
                /\ users db' = <[id := set_isActive false u]> (users db))
  /\ (forall k t', tasks db' !! k = Some t' ->
        Task.assignedTo t' <> Some id
        /\ exists t, tasks db !! k = Some t
                     /\ Task.version t' = Task.version t
                     /\ Task.lastModified t' = Task.lastModified t
                     /\ (t' = t \/ (Task.assignedTo t = Some id
                                    /\ t' = Task.set_assignedTo None t)))
  /\ activities db' = activities db
  /\ (usersKeyed (users db) ->
      forall random u,
        Task.findUserWithFewestTasks random (users db') (tasks db') = inr u ->
        User._id u <> id).
Proof.
  unfold deactivateUser.
  destruct (negb _) eqn:Hadmin; [intros [= <- <-]; discriminate|].
  apply negb_false_iff, String.eqb_eq in Hadmin.
  destruct (bool_decide _) eqn:Hself; [intros [= <- <-]; discriminate|].
  apply bool_decide_eq_false in Hself.
  unfold User.findById.
  destruct (users db !! id) as [u|] eqn:Hu; [|intros [= <- <-]; discriminate].
  intros [= <- <-] _. simpl. unfold saveUser.
  split; [done|]. split; [done|]. split; [eauto|]. split; [|split; [done|]].
  - intros k t' Hk. rewrite lookup_unassignAll in Hk.
    destruct (tasks db !! k) as [t|]; [|discriminate]. simpl in Hk.
    injection Hk as <-.
    destruct (bool_decide _) eqn:Hb.
    + apply bool_decide_eq_true in Hb. split; [simpl; discriminate|].
      exists t. repeat split; try done. by right.
    + apply bool_decide_eq_false in Hb. split; [done|].
      exists t. repeat split; try done. by left.
  - intros Hkeyed random v Hfound Hid.
    apply findUserWithFewestTasks_active, findActiveUsers_elem in Hfound
      as [Hactive [k Hk]].
    destruct (decide (k = id)) as [->|Hne].
    + rewrite lookup_insert_eq in Hk. injection Hk as <-. done.
    + rewrite lookup_insert_ne in Hk by done.
      apply Hkeyed in Hk. congruence.
Qed.

Lemma X18_witness :
  statusCode (deactivateUser (asUser carol) 2 board).2 = 200%nat
  /\ exists u, users board !! 2%nat = Some u
               /\ users (deactivateUser (asUser carol) 2 board).1
                  = <[2%nat := set_isActive false u]> (users board).
Proof.
  assert (statusCode (deactivateUser (asUser carol) 2 board).2 = 200%nat)
    as Hcode by (vm_compute; reflexivity).
  split; [exact Hcode|].
  exact (proj1 (proj2 (proj2
           (X18_deactivation_unassigns_and_bumps_no_version (asUser carol)
              2%nat board _ _ (surjective_pairing _) Hcode)))).
Defined.

(** ** The workload report *)

Lemma insertWorkload_perm w l : insertWorkload w l ≡ₚ w :: l.
Proof.
  induction l as [|x l IH]; [done|]. simpl.
  destruct (_ <=? _)%nat; [done|]. rewrite IH. apply Permutation_swap.
Qed.

Lemma sortWorkloads_perm l : sortWorkloads l ≡ₚ l.
Proof.
  induction l as [|w l IH]; [done|]. simpl.
  by rewrite insertWorkload_perm, IH.
Qed.

Lemma insertWorkload_sorted w l :
  StronglySorted lighter l -> StronglySorted lighter (insertWorkload w l).
Proof.
  induction 1 as [|x l Hs IH Hall]; simpl; [repeat constructor|].
  destruct (_ <=? _)%nat eqn:Hle.
  - apply Nat.leb_le in Hle. constructor; [by constructor|].
    constructor; [done|]. eapply Forall_impl; [exact Hall|].
    unfold lighter. simpl. intros; lia.
  - apply Nat.leb_gt in Hle. constructor; [done|].
    rewrite insertWorkload_perm. constructor; [unfold lighter; lia|done].
Qed.

Lemma sortWorkloads_sorted l : StronglySorted lighter (sortWorkloads l).
Proof.
  induction l as [|w l IH]; simpl; [constructor|].
  by apply insertWorkload_sorted.
Qed.

(** X19. The workload report lists every active user once, with the load
    smart assign counts as [activeTasks] and the sum of the two counts as
    [totalTasks], lightest first.  The recommended user, the first of the
    list, is one of the candidates smart assign draws from; without an
    active user the report is empty and recommends nobody, where smart
    assign throws. *)
Theorem X19_the_recommended_user_is_a_smart_assign_candidate db :
  let r := getUserWorkload db in
  map w_user (workloads r) ≡ₚ User.findActiveUsers (users db)
  /\ Forall (fun w =>
               activeTasks w = load (User._id (w_user w)) (tasks db)
               /\ totalTasks w = (activeTasks w + completedTasks w)%nat)
            (workloads r)
  /\ StronglySorted lighter (workloads r)
  /\ recommendedUser r = head (workloads r)
  /\ (forall w, recommendedUser r = Some w ->
        w_user w ∈ (Task.usersWithMinTasks (users db) (tasks db)).*1)
  /\ (recommendedUser r = None <-> User.findActiveUsers (users db) = []).
Proof.
  intros r. set (active := User.findActiveUsers (users db)).
  set (ws := sortWorkloads (map (workloadOf (tasks db)) active)).
  assert (ws ≡ₚ map (workloadOf (tasks db)) active) as Hperm
    by apply sortWorkloads_perm.
  assert (forall w, w ∈ ws ->
            exists u, u ∈ active /\ w = workloadOf (tasks db) u) as Hmem.
  { intros w Hw. rewrite Hperm in Hw.
    apply list_elem_of_fmap in Hw as (u & -> & Hu). eauto. }
  change (workloads r) with ws. change (recommendedUser r) with (head ws).
  split.
  { rewrite Hperm, map_map. simpl. by rewrite map_id. }
  split.
  { apply Forall_forall. intros w Hw.
    destruct (Hmem w Hw) as (u & _ & ->). simpl.
    by rewrite countDocuments_load. }
  split; [apply sortWorkloads_sorted|]. split; [done|]. split.
  - intros w Hhead.
    assert (w ∈ ws) as Hw by (destruct ws; [done|injection Hhead as ->; left]).
    destruct (Hmem w Hw) as (u & Hu & ->). simpl.
    rewrite usersWithMinTasks_least. apply list_elem_of_filter.
    split; [|done]. apply Forall_forall. intros u' Hu'.
    assert (workloadOf (tasks db) u' ∈ ws) as Hw'.
    { rewrite Hperm. apply list_elem_of_fmap. eauto. }
    pose proof (sortWorkloads_sorted (map (workloadOf (tasks db)) active))
      as Hsorted. fold ws in Hsorted.
    destruct ws as [|w0 ws']; [done|]. injection Hhead as ->.
    apply StronglySorted_inv in Hsorted as [_ Hall].
    rewrite Forall_forall in Hall.
    apply elem_of_cons in Hw' as [Heq|Hin].
    + apply (f_equal activeTasks) in Heq. simpl in Heq.
      rewrite !countDocuments_load in Heq. lia.
    + specialize (Hall _ Hin). unfold lighter in Hall. simpl in Hall.
      by rewrite !countDocuments_load in Hall.
  - split.
    + intros Hnone. destruct ws as [|w0 ws'] eqn:E; [|discriminate].
      apply Permutation_nil_l in Hperm.
      by destruct active.
    + intros Hempty. subst ws. fold active in Hempty. by rewrite Hempty.
Qed.

(** ** The activity log over time *)

Lemma with_activity_logStep a d log :
  activities d = log -> loggable a ->
  logStep log (activities (with_activity a d)).
Proof.
  intros <- Hok. simpl.
  destruct (logActivity_app a (activities d)) as (l & -> & [-> | ->]).
  - left. by rewrite app_nil_r.
  - right. eauto.
Qed.

Lemma activityOf_plain req act tgt d sev :
  loggable (activityOf req act tgt d sev None None).
Proof. by left. Qed.

Lemma applied_logStep (R : string -> option (string -> bool))
    env req id m t db :
  logStep (activities db) (activities (applied R env req id m t db).1).
Proof.
  destruct m as [b|b|b|v]; simpl.
  - unfold updateTask_apply.
    destruct (match u_title b with Some _ => _ | None => _ end) as [e|[|]];
      [by left| |by left].
    destruct (negb _); [by left|].
    destruct (Task.save _ _ _ _ _ _) as [e|[t' ts]]; [by left|].
    simpl. by apply with_activity_logStep, activityOf_plain.
  - unfold moveTask_apply.
    destruct (Task.save _ _ _ _ _ _) as [e|[t' ts]]; [by left|].
    simpl. by apply with_activity_logStep, activityOf_plain.
  - unfold assignTask_apply.
    destruct (activeUser _ _); [|by left].
    destruct (Task.save _ _ _ _ _ _) as [e|[t' ts]]; [by left|].
    simpl. by apply with_activity_logStep, activityOf_plain.
  - unfold smartAssignTask_apply.
    destruct (Task.findUserWithFewestTasks _ _ _); [by left|].
    destruct (Task.save _ _ _ _ _ _) as [e|[t' ts]]; [by left|].
    simpl. by apply with_activity_logStep, activityOf_plain.
Qed.

Lemma perform_logStep (R : string -> option (string -> bool))
    env req id op db :
  logStep (activities db) (activities (perform R env req id op db).1).
Proof.
  destruct (findLive id db) as [t|] eqn:Hlive;
    [|rewrite perform_dead by done; by left].
  destruct op as [m|txt| | |]; simpl.
  - rewrite (handle_unfold R env req id m db t Hlive).
    destruct (conflictCheck _ _); [|apply applied_logStep].
    destruct m; simpl; try (by left).
    apply with_activity_logStep; [done|]. right. simpl. eauto.
  - unfold addComment. rewrite Hlive.
    destruct (Task.addComment _ _ _ _ _ _) as [e|[t' ts]]; [by left|].
    by apply with_activity_logStep, activityOf_plain.
  - unfold deleteTask. rewrite Hlive.
    destruct (_ && _)%bool; [by left|].
    by apply with_activity_logStep, activityOf_plain.
  - unfold archiveTask. rewrite Hlive.
    destruct (Task.archive _ _ _ _ _) as [e|[t' ts]]; [by left|].
    by apply with_activity_logStep, activityOf_plain.
  - unfold getTask. rewrite Hlive. by left.
Qed.

Lemma POST_tasks_logStep (R : string -> option (string -> bool))
    env req b db :
  logStep (activities db) (activities (POST_tasks R env req b db).1).
Proof.
  unfold POST_tasks, route.
  destruct (Joi.create (now env) b) as [b1|]; [|by left].
  unfold createTask, createTask_try.
  destruct (Task.validateUniqueTitle _ _ _ _) as [e|[|]];
    [by left| |by left].
  destruct (negb _); [by left|].
  destruct (Task.save _ _ _ _ _ _) as [e|[t' ts]]; [by left|].
  by apply with_activity_logStep, activityOf_plain.
Qed.

Lemma logStep_keeps log log' :
  logStep log log' -> unresolvedAreConflicts log ->
  unresolvedAreConflicts log'.
Proof.
  intros [->|(a & -> & Hok)] Hinv; [done|].
  intros x Hx Hun. apply elem_of_app in Hx as [Hx|Hx]; [by apply Hinv|].
  apply list_elem_of_singleton in Hx as ->.
  unfold Activity.construct in Hun |- *. simpl in *.
  destruct Hok as [Hnone|(Hfalse & Hact & Hcid)].
  - rewrite Hnone in Hun. discriminate.
  - done.
Qed.

Lemma serve_keeps (R : string -> option (string -> bool)) r db :
  unresolvedAreConflicts (activities db) ->
  unresolvedAreConflicts (activities (serve R r db).1).
Proof.
  intros Hinv. destruct r as [env req id op|env req b|req i|req id|req id];
    simpl.
  - eapply logStep_keeps; [apply perform_logStep|done].
  - eapply logStep_keeps; [apply POST_tasks_logStep|done].
  - unfold resolveConflict.
    destruct (negb _); [done|].
    destruct (activities db !! i) as [a|] eqn:Ha; [|done].
    destruct (negb _); [done|]. destruct (Activity.isResolved a); [done|].
    destruct (negb _); [done|].
    simpl. intros x Hx Hun.
    apply list_elem_of_lookup in Hx as [j Hj].
    destruct (decide (j = i)) as [->|Hne].
    + rewrite list_lookup_insert_eq in Hj by (by eapply lookup_lt_Some).
      injection Hj as <-. discriminate.
    + rewrite list_lookup_insert_ne in Hj by done.
      apply Hinv; [|done]. by eapply list_elem_of_lookup_2.
  - unfold deactivateUser.
    destruct (negb _); [done|]. destruct (bool_decide _); [done|].
    by destruct (User.findById _ _).
  - unfold reactivateUser.
    destruct (negb _); [done|]. by destruct (User.findById _ _).
Qed.

(** X20. Whatever sequence of task, creation, conflict-resolution and
    user requests is served, if every unresolved entry of the activity
    log was a detected conflict carrying a conflict id, this is still so
    afterwards: the only unresolved entries the handlers ever write are
    the conflicts of stale updates, and nothing un-resolves an entry.  In
    particular it holds of every log grown from the empty log. *)
Theorem X20_unresolved_log_entries_are_conflicts
    (R : string -> option (string -> bool)) rs db :
  unresolvedAreConflicts (activities db) ->
  unresolvedAreConflicts (activities (serveAll R rs db)).
Proof.
  unfold serveAll. revert db.
  induction rs as [|r rs IH]; intros db Hinv; [done|].
  simpl. apply IH. by apply serve_keeps.
Qed.

Lemma X20_witness :
  unresolvedAreConflicts (activities board)
  /\ unresolvedAreConflicts
       (activities (serveAll sampleRegExp staleThenResolve board)).
Proof.
  assert (unresolvedAreConflicts (activities board)) as H0.
  { intros a Ha. by apply elem_of_nil in Ha. }
  split; [exact H0|].
  exact (X20_unresolved_log_entries_are_conflicts sampleRegExp
           staleThenResolve board H0).
Defined.

(** ** Resolving *)

Lemma unresolved_after_resolve (l : list Activity.doc) i a :
  l !! i = Some a ->
  Activity.action a = Activity.conflict_detected ->
  Activity.isResolved a = false ->
  (unresolvedConflicts (<[i := markResolved a]> l) + 1)%nat
  = unresolvedConflicts l.
Proof.
  unfold unresolvedConflicts. revert i.
  induction l as [|x l IH]; intros i Hi Hact Hun; [done|].
  destruct i as [|i]; simpl in Hi |- *.
  - injection Hi as ->. rewrite !filter_cons. simpl.
    destruct (decide (_ /\ true = false)) as [[_ ?]|_]; [done|].
    destruct (decide (_ /\ _)) as [_|Hn]; [simpl; lia|].
    by destruct Hn.
  - rewrite !filter_cons. specialize (IH i Hi Hact Hun).
    destruct (decide _); simpl; lia.
Qed.

(** X21. [resolveConflict] answers 200 only to an admin, about an entry
    of the log that is a detected conflict and is not yet resolved.  It
    then marks that entry resolved and changes nothing else: the other
    entries, the tasks and the users are as before, and the count of
    unresolved conflicts goes down by exactly one.  Asked again about the
    same entry, by whoever, it refuses and leaves the database as it
    is. *)
Theorem X21_a_conflict_is_resolved_once req i db db' resp :
  resolveConflict req i db = (db', resp) ->
  statusCode resp = 200%nat ->
  User.role (user req) = "admin"%string
  /\ (exists a,
        activities db !! i = Some a
        /\ Activity.action a = Activity.conflict_detected
        /\ Activity.isResolved a = false
        /\ activities db' = <[i := markResolved a]> (activities db))
  /\ tasks db' = tasks db /\ users db' = users db
  /\ (unresolvedConflicts (activities db') + 1)%nat
     = unresolvedConflicts (activities db)
  /\ forall req2,
       (resolveConflict req2 i db').1 = db'
       /\ statusCode (resolveConflict req2 i db').2 <> 200%nat.
Proof.
  unfold resolveConflict.
  destruct (negb _) eqn:Hadmin; [intros [= <- <-]; discriminate|].
  apply negb_false_iff, String.eqb_eq in Hadmin.
  destruct (activities db !! i) as [a|] eqn:Ha;
    [|intros [= <- <-]; discriminate].
  destruct (negb _) eqn:Hact; [intros [= <- <-]; discriminate|].
  apply negb_false_iff, bool_decide_eq_true in Hact.
  destruct (Activity.isResolved a) eqn:Hun; [intros [= <- <-]; discriminate|].
  destruct (negb (Activity.validate _)); [intros [= <- <-]; discriminate|].
  intros [= <- <-] _. simpl.
  split; [done|]. split; [by exists a|]. split; [done|]. split; [done|].
  split; [by apply unresolved_after_resolve|].
  intros req2. destruct (negb _); [done|].
  rewrite list_lookup_insert_eq by (by eapply lookup_lt_Some). simpl.
  rewrite Hact. by rewrite bool_decide_eq_true_2.
Qed.

Lemma X21_witness :
  statusCode
    (resolveConflict (asUser carol) 0
       (updateTask sampleRegExp sampleEnv (asUser bob) 10
          (withVersion 2 (withPriority high emptyUpdate)) board).1).2
  = 200%nat
  /\ User.role (user (asUser carol)) = "admin"%string.
Proof.
  assert (statusCode
            (resolveConflict (asUser carol) 0
               (updateTask sampleRegExp sampleEnv (asUser bob) 10
                  (withVersion 2 (withPriority high emptyUpdate)) board).1).2
          = 200%nat) as Hcode by (vm_compute; reflexivity).
  split; [exact Hcode|].
  exact (proj1 (X21_a_conflict_is_resolved_once (asUser carol) 0%nat _ _ _
                  (surjective_pairing _) Hcode)).
Defined.

(** ** Behind authentication *)

Lemma authenticate_inl (jwt : string -> Verified) h db r :
  authenticate jwt h db = inl r ->
  (exists msg, r = reply 401 msg)
  \/ r = reply 500 "Internal server error during authentication.".
Proof.
  unfold authenticate. destruct h as [h|]; [|intros [= <-]; eauto].
  destruct (String.eqb h _); [intros [= <-]; eauto|]. cbv zeta.
  destruct (String.eqb _ EmptyString); [intros [= <-]; eauto|].
  destruct (jwt _) as [uid| | |]; try (intros [= <-]; by eauto).
  destruct (uid ≫= _) as [u|]; [|intros [= <-]; eauto].
  destruct (negb _); [intros [= <-]; eauto|discriminate].
Qed.

Lemma authenticate_inr (jwt : string -> Verified) h db u :
  authenticate jwt h db = inr u ->
  User.isActive u = true /\ exists k, users db !! k = Some u.
Proof.
  unfold authenticate. destruct h as [h|]; [|discriminate].
  destruct (String.eqb h _); [discriminate|]. cbv zeta.
  destruct (String.eqb _ EmptyString); [discriminate|].
  destruct (jwt _) as [[k|]| | |]; try discriminate. simpl.
  unfold User.findById.
  destruct (users db !! k) as [u'|] eqn:Hk; [|discriminate].
  destruct (User.isActive u') eqn:Ha; [|discriminate].
  intros [= <-]. eauto.
Qed.

(** X22. Behind [authenticate], smart assign on a live task whose version
    passes the check never fails for want of a user.  Either the
    middleware answers, 401 or its own 500, and the database is as it
    was; or the draw of [findUserWithFewestTasks] returns an active user
    of the collection, the account that authenticated being itself
    active.  The handler then answers 200 and has assigned the task to
    that user, whom the reply names, provided the stored task passes
    validation at the clock; otherwise [save] throws and the handler
    answers its generic 500, the database being as it was.
    [Math.random()] is a double of the interval from 0 to 1. *)
Theorem X22_authenticated_smart_assign_finds_a_user
    (jwt : string -> Verified) env h ip ua id cv db t :
  properFraction (Math_random env) ->
  arrayLength (length (User.findActiveUsers (users db))) ->
  findLive id db = Some t ->
  conflictCheck cv t = false ->
  let r := POST_task_smart_assign jwt env h ip ua id cv db in
  ((exists msg, r = (db, reply 401 msg))
   \/ r = (db, reply 500 "Internal server error during authentication."))
  \/ (exists sel,
        Task.findUserWithFewestTasks (Math_random env) (users db) (tasks db)
        = inr sel
        /\ sel ∈ User.findActiveUsers (users db)
        /\ match Task.validate false (now env) t t with
           | None =>
               statusCode r.2 = 200%nat
               /\ assignedUser r.2 = Some sel
               /\ Task.assignedTo <$> tasks r.1 !! id
                  = Some (Some (User._id sel))
           | Some _ => r = (db, reply 500 "Error in smart assign")
           end).
Proof.
  intros Hf Hlen Hlive Hcheck. unfold POST_task_smart_assign, authenticated.
  destruct (authenticate jwt h db) as [r|u] eqn:Hauth; cbv zeta.
  { left. destruct (authenticate_inl _ _ _ _ Hauth) as [[msg ->]| ->];
      [left; eauto|by right]. }
  right. apply authenticate_inr in Hauth as Hu.
  apply findActiveUsers_elem in Hu.
  assert (User.findActiveUsers (users db) <> []) as Hne
    by (intros E; rewrite E in Hu; by apply elem_of_nil in Hu).
  unfold smartAssignTask, smartAssignTask_try. rewrite Hlive, Hcheck.
  unfold smartAssignTask_apply.
  destruct (findUserWithFewestTasks_some (Math_random env) (users db)
              (tasks db) Hne Hf Hlen) as [sel Hsel].
  rewrite Hsel. exists sel. split; [done|].
  split; [by eapply findUserWithFewestTasks_active|].
  unfold Task.save.
  set (w := Task.set_lastModifiedBy _ _).
  assert (Task.validate false (now env) t w
          = Task.validate false (now env) t t) as ->
    by (by apply validate_paths).
  destruct (Task.validate false (now env) t t); [done|]. simpl.
  split; [done|]. split; [done|].
  rewrite lookup_insert_eq. simpl.
  unfold Task.preSave. by destruct (_ && _)%bool.
Qed.

Lemma X22_witness :
  properFraction (Math_random sampleEnv)
  /\ arrayLength (length (User.findActiveUsers (users board)))
  /\ findLive 10 board = Some T1
  /\ statusCode
       (POST_task_smart_assign sampleJwt sampleEnv
          (Some "Bearer bob-token"%string) None None 10 (Some 3%Z) board).2
     = 200%nat.
Proof.
  assert (properFraction (Math_random sampleEnv)) as Hf
    by (vm_compute; intuition discriminate).
  assert (arrayLength (length (User.findActiveUsers (users board)))) as Hlen
    by (vm_compute; reflexivity).
  assert (findLive 10 board = Some T1) as Hlive by (vm_compute; reflexivity).
  split; [exact Hf|]. split; [exact Hlen|]. split; [exact Hlive|].
  destruct (X22_authenticated_smart_assign_finds_a_user sampleJwt sampleEnv
              (Some "Bearer bob-token"%string) None None 10%nat (Some 3%Z)
              board T1 Hf Hlen Hlive eq_refl)
    as [[[msg Hr]|Hr]|(sel & _ & _ & Hok)].
  - exfalso. apply (f_equal (fun p => statusCode p.2)) in Hr.
    vm_compute in Hr. discriminate.
  - exfalso. apply (f_equal (fun p => statusCode p.2)) in Hr.
    vm_compute in Hr. discriminate.
  - change (Task.validate false (now sampleEnv) T1 T1) with (@None Thrown)
      in Hok.
    exact (proj1 Hok).
Defined.
